(** * Road-trip planner: route sampling, stop selection and itinerary assembly

    A shallow embedding of the planning core of the road-trip planner
    (utility module, monolithic application script, trip-planner module and
    configuration module) together with the properties its specification
    states about it.

    Conventions of the embedding.
    - A JavaScript number is a rational ([Q]): arithmetic is exact, so the
      rounding of IEEE doubles is not modelled.  Where the code can divide
      by zero the non-finite outcome (NaN, +Infinity, -Infinity) is kept
      apart explicitly ([JS.num]); the sign of zero is not tracked.
    - A JavaScript string is a [string] of 8-bit characters; case folding
      and trimming act on the ASCII range.
    - An array is a [list]; an array that a function mutates in place is
      threaded through the function: the function returns the new contents
      of the caller's array next to its result.
    - [Array.prototype.sort] is stable; with the consistent comparators
      used here it is the stable insertion sort [JS.sort].
    - Calls to external services (accommodation and POI providers, reverse
      geocoder) and [Math.random] are read from an explicit environment. *)

From Stdlib Require Import QArith Qabs Qround Qminmax Lqa ZArith Lia List String Ascii.
From Stdlib Require Import Permutation Sorted.
From stdpp Require Import gmap strings list pretty.

Open Scope Q_scope.

(** ** JavaScript built-ins used by the planner *)

Module JS.

(** Comparison operators on finite numbers. *)
Definition le (a b : Q) : bool := Qle_bool a b.
Definition ge (a b : Q) : bool := Qle_bool b a.
Definition lt (a b : Q) : bool := negb (Qle_bool b a).
Definition gt (a b : Q) : bool := negb (Qle_bool a b).

(** A loop counter as a number. *)
Definition ofNat (n : nat) : Q := inject_Z (Z.of_nat n).

(** Value of an arithmetic expression that may divide by zero (the sign of
    zero is not tracked: a zero divisor counts as +0). *)
Inductive num : Type :=
| Finite (q : Q)
| PosInf
| NegInf
| NaN.

(** [a / b] *)
Definition div (a b : Q) : num :=
  if Qeq_bool b 0
  then (if Qeq_bool a 0 then NaN else if lt 0 a then PosInf else NegInf)
  else Finite (a / b).

(** [q * n] *)
Definition mul (q : Q) (n : num) : num :=
  match n with
  | Finite r => Finite (q * r)
  | PosInf => if Qeq_bool q 0 then NaN else if lt 0 q then PosInf else NegInf
  | NegInf => if Qeq_bool q 0 then NaN else if lt 0 q then NegInf else PosInf
  | NaN => NaN
  end.

(** [q + n] *)
Definition add (q : Q) (n : num) : num :=
  match n with
  | Finite r => Finite (q + r)
  | other => other
  end.

(** [n - q] *)
Definition sub (n : num) (q : Q) : num :=
  match n with
  | Finite r => Finite (r - q)
  | other => other
  end.

(** [m < n]: false as soon as one side is NaN. *)
Definition num_lt (m n : num) : bool :=
  match m, n with
  | Finite a, Finite b => lt a b
  | Finite _, PosInf => true
  | NegInf, Finite _ => true
  | NegInf, PosInf => true
  | _, _ => false
  end.

(** [x + (y - x) * r] where [r] comes from a division. *)
Definition lerp (x y : Q) (r : num) : num := add x (mul (y - x) r).

(** [Math.floor]. *)
Definition floor (q : Q) : Z := Qfloor q.

(** [String.prototype.toLowerCase] on the ASCII range. *)
Definition lowerChar (c : ascii) : ascii :=
  let n := nat_of_ascii c in
  if (Nat.leb 65 n && Nat.leb n 90)%bool then ascii_of_nat (n + 32) else c.

Fixpoint toLowerCase (s : string) : string :=
  match s with
  | EmptyString => EmptyString
  | String c r => String (lowerChar c) (toLowerCase r)
  end.

(** White space removed by [String.prototype.trim]: TAB, LF, VT, FF, CR
    and SPACE. *)
Definition isWhiteSpace (c : ascii) : bool :=
  let n := nat_of_ascii c in
  ((Nat.leb 9 n && Nat.leb n 13) || Nat.eqb n 32)%bool.

Fixpoint trimStart (s : string) : string :=
  match s with
  | EmptyString => EmptyString
  | String c r => if isWhiteSpace c then trimStart r else s
  end.

Fixpoint trimEnd (s : string) : string :=
  match s with
  | EmptyString => EmptyString
  | String c r =>
      match trimEnd r with
      | EmptyString => if isWhiteSpace c then EmptyString else String c EmptyString
      | r' => String c r'
      end
  end.

Definition trim (s : string) : string := trimEnd (trimStart s).

(** [String.prototype.includes]. *)
Fixpoint includes (s sub : string) : bool :=
  match s with
  | EmptyString => String.prefix sub EmptyString
  | String _ r => (String.prefix sub s || includes r sub)%bool
  end.

(** [Array.prototype.slice(0, e)]: a negative [e] counts from the end. *)
Definition slice0 {A} (e : Z) (l : list A) : list A :=
  if (e <? 0)%Z
  then take (Z.to_nat (Z.max (Z.of_nat (length l) + e) 0)) l
  else take (Z.to_nat e) l.

(** [Array.prototype.sort(cmp)]: stable; [x] stays in front of [y] unless
    [cmp x y > 0]. *)
Section Sort.
Context {A : Type} (cmp : A -> A -> Q).

Fixpoint insert (x : A) (l : list A) : list A :=
  match l with
  | [] => [x]
  | y :: l' =>
      if Qle_bool (cmp x y) 0 then x :: y :: l' else y :: insert x l'
  end.

Fixpoint sort (l : list A) : list A :=
  match l with
  | [] => []
  | x :: l' => insert x (sort l')
  end.

(** The order the comparator induces: [x] may stand in front of [y]. *)
Definition before (x y : A) : Prop := cmp x y <= 0.
End Sort.

(** [v || d] for a property read [v] that may be undefined: undefined and
    zero are falsy. *)
Definition orElse (v : option Q) (d : Q) : Q :=
  match v with
  | Some q => if Qeq_bool q 0 then d else q
  | None => d
  end.

(** [Array.prototype.some], [filter] and [find] with boolean callbacks. *)
Definition some {A} (f : A -> bool) (l : list A) : bool := existsb f l.
Definition filter {A} (f : A -> bool) (l : list A) : list A := List.filter f l.
Definition find {A} (f : A -> bool) (l : list A) : option A := List.find f l.

(** [Math.max] and [Math.min] of two numbers. *)
Definition max (a b : Q) : Q := if Qle_bool a b then b else a.
Definition min (a b : Q) : Q := if Qle_bool a b then a else b.

(** [Math.round]: the nearest integer, halves upwards. *)
Definition round (q : Q) : Z := Qfloor (q + (1 # 2)).

(** [a % b]: the remainder has the sign of [a]. *)
Definition trunc (q : Q) : Z := if Qle_bool 0 q then Qfloor q else Qceiling q.
Definition rem (a b : Q) : Q := a - b * inject_Z (trunc (a / b)).

End JS.

(** ** Data model *)

(** Target of a POI link: the planner builds map links from coordinates
    ([`https://www.google.com/maps?q=${lat},${lon}`]); providers deliver
    ready-made links. *)
Inductive Url : Type :=
| MapsQuery (lat lon : Q)
| Href (s : string).

Module Poi.
Record t : Type := mk {
  title : string;
  distanceMeters : Q;
  lat : Q;
  lon : Q;
  url : Url;
  source : string;
  category : string
}.
End Poi.

(** An accommodation record as the accommodation search delivers it. *)
Module Lodging.
Record t : Type := mk {
  name : string;
  type : string;
  distance : Q;
  lat : Q;
  lon : Q;
  url : string
}.
End Lodging.

(** A stop along the route.  The planner builds stops as object literals
    with varying property sets; a property that a literal leaves out is
    held here by the empty list or zero.  The coordinates come from an
    interpolation and may fail to be finite. *)
Module Stop.
Inductive kind : Type := overnight | roadside | basic.

Record t : Type := mk {
  lat : JS.num;
  lon : JS.num;
  distanceFromStart : Q;
  index : nat;
  name : string;
  fullAddress : option string;
  accommodations : list Lodging.t;
  accommodationScore : Z;
  attractions : list Poi.t;
  type : kind
}.
End Stop.

(** A point on the route as [findClosestPointOnRoute] returns it. *)
Module Point.
Record t : Type := mk {
  lat : JS.num;
  lon : JS.num;
  distanceFromStart : Q
}.
End Point.

(** The same with the index of the route segment it lies on. *)
Module Candidate.
Record t : Type := mk {
  lat : JS.num;
  lon : JS.num;
  distanceFromStart : Q;
  index : nat
}.
End Candidate.

(** The route: [geometry.coordinates] (pairs [[lon, lat]]) and [distance]. *)
Module Route.
Record t : Type := mk {
  coordinates : list (Q * Q);
  distance : Q
}.
End Route.

(** A pace configuration. *)
Module PaceConfig.
Record t : Type := mk {
  maxDailyDrivingHours : Q;
  maxRoadsideStops : Z;
  minActivityTime : Q;
  preferOvernightStops : bool;
  accommodationRadius : Q;
  poiRadius : Q;
  maxPoisPerStop : Z
}.
End PaceConfig.

(** One day of the itinerary. *)
Module Day.
Record t : Type := mk {
  day : nat;
  overnightStop : option Stop.t;
  roadsideStops : list Stop.t;
  foodOptions : list Poi.t;
  totalActivityTime : Q;
  drivingTime : Q;
  drivingDistance : Q
}.
End Day.

(** The result of [createSmartItinerary]; the regular return leaves
    [totalDistance] out. *)
Module Itinerary.
Record t : Type := mk {
  stops : list Stop.t;
  roadsideStops : list Stop.t;
  totalDistance : option Q;
  days : list Day.t
}.
End Itinerary.

(** What the reverse geocoder answers. *)
Module LocationInfo.
Record t : Type := mk {
  name : string;
  fullAddress : string
}.
End LocationInfo.

(** The world outside the planner: the external services and the random
    number generator.  A service answers [None] when its promise is
    rejected; the reverse geocoder answers [None] for [null].
    [random k] is the outcome of the [k]-th call of [Math.random] within
    one call of the function that draws. *)
Module Services.
Record t : Type := mk {
  reverseGeocode : JS.num -> JS.num -> option LocationInfo.t;
  fetchRestaurants : JS.num -> JS.num -> Q -> option (list Poi.t);
  findNearbyAccommodations : JS.num -> JS.num -> Q -> option (list Lodging.t);
  fetchWikipediaAttractions : Q -> Q -> Q -> Z -> option (list Poi.t);
  fetchOverpassAttractions : Q -> Q -> Q -> Z -> option (list Poi.t);
  random : nat -> Q
}.
End Services.

(** A sample point of the interval samplers:
    [{ lat: lat1, lon: lon1, distanceFromStart: currentDistance, index: i }]. *)
Module Sample.
Record t : Type := mk {
  lat : Q;
  lon : Q;
  distanceFromStart : Q;
  index : nat
}.
End Sample.

(** A POI on its way through the ranking, with its [preferenceMatch]
    property ([false] when the object has none). *)
Module Ranked.
Record t : Type := mk {
  poi : Poi.t;
  preferenceMatch : bool
}.
End Ranked.

(** ** utils.js: utility functions *)

Module Utils.

(** [poi.title.toLowerCase().trim()] *)
Definition normalizedTitle (poi : Poi.t) : string :=
  JS.trim (JS.toLowerCase (Poi.title poi)).

(** One iteration of the [for (const poi of pois)] loop of
    [removeDuplicatePois]; the state is [(uniquePois, seenTitles)]. *)
Definition removeDuplicatePois_body
    (st : list Poi.t * gset string) (poi : Poi.t) : list Poi.t * gset string :=
  let '(uniquePois, seenTitles) := st in
  if bool_decide (normalizedTitle poi ∈ seenTitles)
  then st
  else (uniquePois ++ [poi], seenTitles ∪ {[normalizedTitle poi]}).

Definition removeDuplicatePois (pois : list Poi.t) : list Poi.t :=
  fst (fold_left removeDuplicatePois_body pois ([], ∅)).

Section Geometry.

(** [calculateDistance(lat1, lon1, lat2, lon2)] is the haversine
    formula, evaluated with [Math.sin], [Math.cos], [Math.atan2] and
    [Math.sqrt] on doubles.  The functions that measure the route are
    stated for an arbitrary distance function. *)
Variable calculateDistance : Q -> Q -> Q -> Q -> Q.

(** The loop of [findClosestPointOnRoute]: [coordinates] is the part of
    the array that the loop has not passed yet. *)
Fixpoint findClosestPointOnRoute_from (coordinates : list (Q * Q))
    (targetDistance currentDistance : Q) : option Point.t :=
  match coordinates with
  | (lon1, lat1) :: (((lon2, lat2) :: _) as rest) =>
      let segmentDistance := calculateDistance lat1 lon1 lat2 lon2 in
      if JS.ge (currentDistance + segmentDistance) targetDistance
      then
        let ratio := JS.div (targetDistance - currentDistance) segmentDistance in
        Some {| Point.lat := JS.lerp lat1 lat2 ratio;
                Point.lon := JS.lerp lon1 lon2 ratio;
                Point.distanceFromStart := targetDistance |}
      else
        findClosestPointOnRoute_from rest targetDistance
                                     (currentDistance + segmentDistance)
  | _ => None
  end.

Definition findClosestPointOnRoute (coordinates : list (Q * Q))
    (targetDistance : Q) : option Point.t :=
  findClosestPointOnRoute_from coordinates targetDistance 0.

End Geometry.

(** [categorizePoi(title)] *)
Definition categorizePoi (title : string) : string :=
  let titleLower := JS.toLowerCase title in
  if JS.includes titleLower "museum" || JS.includes titleLower "gallery"
  then "Museum"
  else if JS.includes titleLower "park" || JS.includes titleLower "garden"
  then "Park"
  else if JS.includes titleLower "historic" || JS.includes titleLower "monument"
          || JS.includes titleLower "memorial"
  then "Historic Site"
  else if JS.includes titleLower "restaurant" || JS.includes titleLower "cafe"
          || JS.includes titleLower "bar"
  then "Food & Drink"
  else if JS.includes titleLower "zoo" || JS.includes titleLower "aquarium"
  then "Zoo/Aquarium"
  else if JS.includes titleLower "theater" || JS.includes titleLower "theatre"
          || JS.includes titleLower "cinema"
  then "Entertainment"
  else if JS.includes titleLower "beach" || JS.includes titleLower "lake"
          || JS.includes titleLower "river"
  then "Scenic View"
  else if JS.includes titleLower "church" || JS.includes titleLower "cathedral"
          || JS.includes titleLower "temple"
  then "Historic Site"
  else if JS.includes titleLower "castle" || JS.includes titleLower "palace"
          || JS.includes titleLower "fort"
  then "Historic Site"
  else if JS.includes titleLower "viewpoint" || JS.includes titleLower "overlook"
          || JS.includes titleLower "scenic"
  then "Scenic View"
  else "Attraction".

(** The two numbers that [formatTime(seconds)] prints: [hours] and
    [minutes]. *)
Definition formatTime_parts (seconds : Q) : Z * Z :=
  let hours := JS.floor (seconds / 3600) in
  let minutes := JS.round (JS.rem seconds 3600 / 60) in
  (hours, minutes).

(** [formatTime(seconds)]: [`${hours}h ${minutes}m`]. *)
Definition formatTime (seconds : Q) : string :=
  let '(hours, minutes) := formatTime_parts seconds in
  pretty hours +:+ "h " +:+ pretty minutes +:+ "m".

End Utils.

(** ** config.js: configuration constants *)

Module Config.

Definition fast : PaceConfig.t :=
  PaceConfig.mk 8 1 1 true 5000 15000 3.
Definition balanced : PaceConfig.t :=
  PaceConfig.mk 6 3 1.5 true 8000 25000 5.
Definition explore : PaceConfig.t :=
  PaceConfig.mk 4 5 2 false 10000 30000 8.

(** [TRIP_PACE_CONFIG] *)
Definition TRIP_PACE_CONFIG : gmap string PaceConfig.t :=
  list_to_map [("fast"%string, fast); ("balanced"%string, balanced);
               ("explore"%string, explore)].

(** [ACTIVITY_TIME_ESTIMATES] (hours) *)
Definition ACTIVITY_TIME_ESTIMATES : gmap string Q :=
  list_to_map
    [("Museum"%string, 2.5); ("Zoo/Aquarium"%string, 3); ("Park"%string, 1.5);
     ("Historic Site"%string, 1.5); ("Restaurant"%string, 1);
     ("Scenic View"%string, 0.5); ("Entertainment"%string, 2);
     ("Outdoor Activity"%string, 2); ("Cultural Site"%string, 2);
     ("Food & Drink"%string, 1); ("Family Activity"%string, 2);
     ("Adventure"%string, 3); ("Attraction"%string, 1.5)].

End Config.

(** ** Application script, first part *)

Module App.

(** [ACTIVITY_TIME_ESTIMATES] (hours) of the application script. *)
Definition ACTIVITY_TIME_ESTIMATES : gmap string Q :=
  list_to_map
    [("Museum"%string, 2.5); ("Zoo/Aquarium"%string, 3);
     ("Historic Site"%string, 1.5); ("Historic Building"%string, 1);
     ("Entertainment"%string, 2); ("Nature"%string, 1); ("Outdoor"%string, 2);
     ("Cultural"%string, 2); ("Food & Drink"%string, 1.5);
     ("Family"%string, 2.5); ("Adventure"%string, 3); ("Park"%string, 1);
     ("Attraction"%string, 1.5)].

Section Geometry.

(** See [Utils.findClosestPointOnRoute]. *)
Variable calculateDistance : Q -> Q -> Q -> Q -> Q.

(** The loop of [findClosestPointOnRoute]: [coordinates] is the part of
    the array from index [i] on. *)
Fixpoint findClosestPointOnRoute_from (coordinates : list (Q * Q))
    (targetDistance currentDistance : Q) (i : nat) : option Candidate.t :=
  match coordinates with
  | (lon1, lat1) :: (((lon2, lat2) :: _) as rest) =>
      let segmentDistance := calculateDistance lat1 lon1 lat2 lon2 in
      if JS.ge (currentDistance + segmentDistance) targetDistance
      then
        let ratio := JS.div (targetDistance - currentDistance) segmentDistance in
        let lat := JS.lerp lat1 lat2 ratio in
        let lon := JS.lerp lon1 lon2 ratio in
        Some {| Candidate.lat := lat;
                Candidate.lon := lon;
                Candidate.distanceFromStart := targetDistance;
                Candidate.index := i |}
      else
        findClosestPointOnRoute_from rest targetDistance
                                     (currentDistance + segmentDistance) (S i)
  | _ => None
  end.

Definition findClosestPointOnRoute (coordinates : list (Q * Q))
    (targetDistance : Q) : option Candidate.t :=
  findClosestPointOnRoute_from coordinates targetDistance 0 0.

End Geometry.

(** [selectOptimalStops(accommodationStops, idealDailyDistance,
    idealDailyDuration, days)].  The first component of the result is the
    caller's array after the call (it is sorted in place), the second the
    returned array.  The constant [totalStops = days - 1] and the parameter
    [idealDailyDuration] are never read. *)
Definition selectOptimalStops (accommodationStops : list Stop.t)
    (idealDailyDistance idealDailyDuration : Q) (days : nat)
  : list Stop.t * list Stop.t :=
  let accommodationStops :=
    JS.sort (fun a b =>
      let aDistanceScore := Qabs (Stop.distanceFromStart a - idealDailyDistance) in
      let bDistanceScore := Qabs (Stop.distanceFromStart b - idealDailyDistance) in
      if negb (Z.eqb (Stop.accommodationScore a) (Stop.accommodationScore b))
      then inject_Z (Stop.accommodationScore b - Stop.accommodationScore a)
      else aDistanceScore - bDistanceScore) accommodationStops in
  let selectedStops :=
    fold_left (fun selectedStops d =>
      let targetDistance := idealDailyDistance * JS.ofNat d in
      let tolerance := idealDailyDistance * 0.4 in
      let candidateStops :=
        JS.filter (fun stop =>
          JS.le (Qabs (Stop.distanceFromStart stop - targetDistance)) tolerance
          && negb (JS.some (fun selected =>
               JS.lt (Qabs (Stop.distanceFromStart selected
                            - Stop.distanceFromStart stop))
                     (idealDailyDistance * 0.2)) selectedStops))
          accommodationStops in
      match candidateStops with
      | first :: _ => selectedStops ++ [first]
      | [] =>
          let closestStop :=
            JS.find (fun stop =>
              negb (JS.some (fun selected =>
                JS.lt (Qabs (Stop.distanceFromStart selected
                             - Stop.distanceFromStart stop))
                      (idealDailyDistance * 0.2)) selectedStops))
              accommodationStops in
          match closestStop with
          | Some stop => selectedStops ++ [stop]
          | None => selectedStops
          end
      end) (seq 1 (days - 1)) [] in
  (accommodationStops,
   JS.sort (fun a b => Stop.distanceFromStart a - Stop.distanceFromStart b)
           selectedStops).

(** [selectOvernightStops(overnightStops, idealDailyDistance, days)]:
    first component the caller's array after the call, second the
    returned array. *)
Definition selectOvernightStops (overnightStops : list Stop.t)
    (idealDailyDistance : Q) (days : nat) : list Stop.t * list Stop.t :=
  if Nat.eqb (length overnightStops) 0 then (overnightStops, [])
  else
  let overnightStops :=
    JS.sort (fun a b =>
      let aDistanceScore := Qabs (Stop.distanceFromStart a - idealDailyDistance) in
      let bDistanceScore := Qabs (Stop.distanceFromStart b - idealDailyDistance) in
      if negb (Z.eqb (Stop.accommodationScore a) (Stop.accommodationScore b))
      then inject_Z (Stop.accommodationScore b - Stop.accommodationScore a)
      else aDistanceScore - bDistanceScore) overnightStops in
  let tolerance := idealDailyDistance * 0.5 in
  let selectedStops :=
    fold_left (fun selectedStops d =>
      let targetDistance := idealDailyDistance * JS.ofNat d in
      let candidateStops :=
        JS.filter (fun stop =>
          JS.le (Qabs (Stop.distanceFromStart stop - targetDistance)) tolerance
          && negb (JS.some (fun selected =>
               JS.lt (Qabs (Stop.distanceFromStart selected
                            - Stop.distanceFromStart stop))
                     (idealDailyDistance * 0.3)) selectedStops))
          overnightStops in
      match candidateStops with
      | first :: _ => selectedStops ++ [first]
      | [] =>
          let closestStop :=
            JS.find (fun stop =>
              negb (JS.some (fun selected =>
                JS.lt (Qabs (Stop.distanceFromStart selected
                             - Stop.distanceFromStart stop))
                      (idealDailyDistance * 0.3)) selectedStops))
              overnightStops in
          match closestStop with
          | Some stop => selectedStops ++ [stop]
          | None => selectedStops
          end
      end) (seq 1 (days - 1)) [] in
  (overnightStops,
   JS.sort (fun a b => Stop.distanceFromStart a - Stop.distanceFromStart b)
           selectedStops).

(** [createGenericPois(lat, lon)]; the six calls of [Math.random] are
    numbered in evaluation order. *)
Definition createGenericPois (random : nat -> Q) (lat lon : Q) : list Poi.t :=
  let genericAttractions :=
    [ {| Poi.title := "Local Park";
         Poi.distanceMeters := 0;
         Poi.lat := lat + (random 0%nat - 0.5) * 0.01;
         Poi.lon := lon + (random 1%nat - 0.5) * 0.01;
         Poi.url := MapsQuery lat lon;
         Poi.source := "generic";
         Poi.category := "Park" |};
      {| Poi.title := "Historic Site";
         Poi.distanceMeters := 1000;
         Poi.lat := lat + (random 2%nat - 0.5) * 0.01;
         Poi.lon := lon + (random 3%nat - 0.5) * 0.01;
         Poi.url := MapsQuery lat lon;
         Poi.source := "generic";
         Poi.category := "Historic Site" |};
      {| Poi.title := "Local Restaurant";
         Poi.distanceMeters := 500;
         Poi.lat := lat + (random 4%nat - 0.5) * 0.01;
         Poi.lon := lon + (random 5%nat - 0.5) * 0.01;
         Poi.url := MapsQuery lat lon;
         Poi.source := "generic";
         Poi.category := "Food & Drink" |} ] in
  genericAttractions.

(** [ACTIVITY_TIME_ESTIMATES[attraction.category] || 1] *)
Definition timeEstimate (attraction : Poi.t) : Q :=
  JS.orElse (ACTIVITY_TIME_ESTIMATES !! Poi.category attraction) 1.

Section Itinerary.

Variable calculateDistance : Q -> Q -> Q -> Q -> Q.
Variable services : Services.t.

(** The fallback of [createSmartItinerary] when no overnight stop was
    selected: basic stops at the ideal distances, one day each. *)
Definition createSmartItinerary_basic (coordinates : list (Q * Q))
    (totalDistance idealDailyDistance : Q) (days : nat) : Itinerary.t :=
  let '(basicStops, basicItineraryDays) :=
    fold_left (fun '(basicStops, basicItineraryDays) d =>
      let targetDistance := idealDailyDistance * JS.ofNat d in
      let closestPoint :=
        findClosestPointOnRoute calculateDistance coordinates targetDistance in
      match closestPoint with
      | Some closestPoint =>
          let locationInfo :=
            Services.reverseGeocode services (Candidate.lat closestPoint)
                                    (Candidate.lon closestPoint) in
          let basicStop :=
            {| Stop.lat := Candidate.lat closestPoint;
               Stop.lon := Candidate.lon closestPoint;
               Stop.distanceFromStart := Candidate.distanceFromStart closestPoint;
               Stop.index := Candidate.index closestPoint;
               Stop.name := match locationInfo with
                            | Some info => LocationInfo.name info
                            | None => "Stop " +:+ pretty d
                            end;
               Stop.fullAddress := option_map LocationInfo.fullAddress locationInfo;
               Stop.accommodations := [];
               Stop.accommodationScore := 0;
               Stop.attractions := [];
               Stop.type := Stop.basic |} in
          (basicStops ++ [basicStop],
           basicItineraryDays ++
             [ {| Day.day := d;
                  Day.overnightStop := Some basicStop;
                  Day.roadsideStops := [];
                  Day.foodOptions := [];
                  Day.totalActivityTime := 2;
                  Day.drivingTime := 6;
                  Day.drivingDistance := idealDailyDistance |} ])
      | None => (basicStops, basicItineraryDays)
      end) (seq 1 (days - 1)) ([], []) in
  {| Itinerary.stops := basicStops;
     Itinerary.roadsideStops := [];
     Itinerary.totalDistance := Some totalDistance;
     Itinerary.days := basicItineraryDays |}.

(** The roadside stops of a day before the budget check:
    [roadsideStops.filter(...).slice(0, config.maxRoadsideStops)]. *)
Definition dayRoadsideStops (roadsideStops : list Stop.t) (config : PaceConfig.t)
    (idealDailyDistance : Q) (day : nat) : list Stop.t :=
  let dayStart := (JS.ofNat day - 1) * idealDailyDistance in
  let dayEnd := JS.ofNat day * idealDailyDistance in
  JS.slice0 (PaceConfig.maxRoadsideStops config)
    (JS.filter (fun stop =>
       JS.ge (Stop.distanceFromStart stop) dayStart
       && JS.le (Stop.distanceFromStart stop) dayEnd) roadsideStops).

(** [dayRoadsideStops.reduce(...)]: the activity time of a day. *)
Definition totalActivityTime (dayRoadsideStops : list Stop.t) : Q :=
  fold_left (fun total stop =>
    total + fold_left (fun stopTotal attraction =>
              stopTotal + timeEstimate attraction) (Stop.attractions stop) 0)
    dayRoadsideStops 0.

(** The body of the loop [for (let day = 1; day <= days; day++)]. *)
Definition planDay (selectedOvernightStops roadsideStops : list Stop.t)
    (config : PaceConfig.t) (idealDailyDistance : Q) (day : nat) : Day.t :=
  let dayStart := (JS.ofNat day - 1) * idealDailyDistance in
  let dayEnd := JS.ofNat day * idealDailyDistance in
  let overnightStop :=
    match JS.find (fun stop =>
            JS.ge (Stop.distanceFromStart stop) dayStart
            && JS.le (Stop.distanceFromStart stop) dayEnd)
          selectedOvernightStops with
    | Some stop => Some stop
    | None => selectedOvernightStops !! (day - 1)%nat
    end in
  let dayRoadsideStops :=
    dayRoadsideStops roadsideStops config idealDailyDistance day in
  let dayFoodOptions :=
    match overnightStop with
    | Some stop =>
        match Services.fetchRestaurants services (Stop.lat stop) (Stop.lon stop)
                                        10000 with
        | Some restaurants => restaurants
        | None => []
        end
    | None => []
    end in
  let totalActivityTime := totalActivityTime dayRoadsideStops in
  let maxActivityTime := PaceConfig.maxDailyDrivingHours config * 0.6 in
  let feasibleRoadsideStops :=
    if JS.le totalActivityTime maxActivityTime
    then dayRoadsideStops
    else JS.slice0 (JS.floor (inject_Z (PaceConfig.maxRoadsideStops config) * 0.7))
                   dayRoadsideStops in
  let dayDrivingDistance :=
    if Nat.eqb day 1
    then match overnightStop with
         | Some stop => Stop.distanceFromStart stop
         | None => idealDailyDistance
         end
    else match overnightStop with
         | Some stop =>
             Stop.distanceFromStart stop
             - JS.orElse (option_map Stop.distanceFromStart
                            (selectedOvernightStops !! (day - 2)%nat)) 0
         | None => idealDailyDistance
         end in
  {| Day.day := day;
     Day.overnightStop := overnightStop;
     Day.roadsideStops := feasibleRoadsideStops;
     Day.foodOptions := dayFoodOptions;
     Day.totalActivityTime := totalActivityTime;
     Day.drivingTime := PaceConfig.maxDailyDrivingHours config;
     Day.drivingDistance := dayDrivingDistance |}.

(** [createSmartItinerary(route, days, overnightStops, roadsideStops,
    config, progressCallback)]; the progress callback has no effect on
    the result.  Every caller passes [days >= 1]. *)
Definition createSmartItinerary (route : Route.t) (days : nat)
    (overnightStops roadsideStops : list Stop.t) (config : PaceConfig.t)
  : Itinerary.t :=
  let coordinates := Route.coordinates route in
  let totalDistance := Route.distance route in
  let idealDailyDistance := totalDistance / JS.ofNat days in
  let selectedOvernightStops :=
    snd (selectOvernightStops overnightStops idealDailyDistance days) in
  if Nat.eqb (length selectedOvernightStops) 0
  then createSmartItinerary_basic coordinates totalDistance idealDailyDistance days
  else
    let itineraryDays :=
      map (planDay selectedOvernightStops roadsideStops config idealDailyDistance)
          (seq 1 days) in
    {| Itinerary.stops := selectedOvernightStops;
       Itinerary.roadsideStops := concat (map Day.roadsideStops itineraryDays);
       Itinerary.totalDistance := None;
       Itinerary.days := itineraryDays |}.

End Itinerary.

(** [categorizePoi(title)] of the application script. *)
Definition categorizePoi (title : string) : string :=
  let titleLower := JS.toLowerCase title in
  if JS.includes titleLower "museum" || JS.includes titleLower "gallery"
  then "Museum"
  else if JS.includes titleLower "park" || JS.includes titleLower "garden"
  then "Park"
  else if JS.includes titleLower "zoo" || JS.includes titleLower "aquarium"
  then "Zoo/Aquarium"
  else if JS.includes titleLower "historic" || JS.includes titleLower "monument"
          || JS.includes titleLower "memorial"
  then "Historic Site"
  else if JS.includes titleLower "theater" || JS.includes titleLower "theatre"
          || JS.includes titleLower "stadium"
  then "Entertainment"
  else if JS.includes titleLower "beach" || JS.includes titleLower "lake"
          || JS.includes titleLower "waterfall"
  then "Nature"
  else if JS.includes titleLower "winery" || JS.includes titleLower "brewery"
  then "Food & Drink"
  else if JS.includes titleLower "castle" || JS.includes titleLower "palace"
          || JS.includes titleLower "fort"
  then "Historic Building"
  else "Attraction".

(** [categoryPriority] inside the comparator of [filterAndRankPois]. *)
Definition categoryPriority : gmap string Q :=
  list_to_map
    [("Museum"%string, 5); ("Zoo/Aquarium"%string, 4); ("Historic Site"%string, 4);
     ("Historic Building"%string, 4); ("Entertainment"%string, 3);
     ("Nature"%string, 3); ("Outdoor"%string, 4); ("Cultural"%string, 5);
     ("Food & Drink"%string, 3); ("Family"%string, 4); ("Adventure"%string, 3);
     ("Park"%string, 2); ("Attraction"%string, 1)].

(** The comparator of [filterAndRankPois]. *)
Definition rankCompare (a b : Ranked.t) : Q :=
  let aPreferenceBoost := if Ranked.preferenceMatch a then 10 else 0 in
  let bPreferenceBoost := if Ranked.preferenceMatch b then 10 else 0 in
  if negb (Qeq_bool aPreferenceBoost bPreferenceBoost)
  then bPreferenceBoost - aPreferenceBoost
  else
    let aPriority :=
      JS.orElse (categoryPriority !! Poi.category (Ranked.poi a)) 1 in
    let bPriority :=
      JS.orElse (categoryPriority !! Poi.category (Ranked.poi b)) 1 in
    if negb (Qeq_bool aPriority bPriority)
    then bPriority - aPriority
    else Poi.distanceMeters (Ranked.poi a) - Poi.distanceMeters (Ranked.poi b).

(** One call of the [pois.forEach] callback of [filterAndRankPois]; the
    state is [(uniquePois, seenTitles)]. *)
Definition filterAndRankPois_body
    (st : list Ranked.t * gset string) (poi : Ranked.t) : list Ranked.t * gset string :=
  let '(uniquePois, seenTitles) := st in
  let normalizedTitle := JS.trim (JS.toLowerCase (Poi.title (Ranked.poi poi))) in
  if bool_decide (normalizedTitle ∈ seenTitles)
  then st
  else (uniquePois ++ [poi], seenTitles ∪ {[normalizedTitle]}).

(** [filterAndRankPois(pois, centerLat, centerLon, preferences)]; the
    last three parameters are never read. *)
Definition filterAndRankPois (pois : list Ranked.t) (centerLat centerLon : Q)
    (preferences : list string) : list Ranked.t :=
  let uniquePois := fst (fold_left filterAndRankPois_body pois ([], ∅)) in
  JS.sort rankCompare uniquePois.

Section Sampling.

Variable calculateDistance : Q -> Q -> Q -> Q -> Q.
Variable services : Services.t.

(** The sampling loop that [findAccommodationStops], [findOvernightStops]
    and [findRoadsideStops] share word for word: [coordinates] is the part
    of the array from index [i] on; the result is what the loop appends to
    [samplePoints]. *)
Fixpoint samplePoints_from (sampleInterval : Q) (coordinates : list (Q * Q))
    (currentDistance : Q) (i : nat) : list Sample.t :=
  match coordinates with
  | (lon1, lat1) :: (((lon2, lat2) :: _) as rest) =>
      let segmentDistance := calculateDistance lat1 lon1 lat2 lon2 in
      if JS.ge currentDistance sampleInterval
      then
        {| Sample.lat := lat1;
           Sample.lon := lon1;
           Sample.distanceFromStart := currentDistance;
           Sample.index := i |}
        :: samplePoints_from sampleInterval rest (0 + segmentDistance) (S i)
      else
        samplePoints_from sampleInterval rest (currentDistance + segmentDistance) (S i)
  | _ => []
  end.

(** [findOvernightStops(route, days, config, progressCallback)] of the
    first part.  [Promise.race] with the timer is rejected when the search
    is rejected or the timer wins: both are the answer [None] of the
    service. *)
Definition findOvernightStops (route : Route.t) (days : nat) (config : PaceConfig.t)
  : list Stop.t :=
  let coordinates := Route.coordinates route in
  let totalDistance := Route.distance route in
  let sampleInterval := JS.max 15000 (totalDistance / 15) in
  let samplePoints := samplePoints_from sampleInterval coordinates 0 0 in
  let maxSamples := Nat.min (length samplePoints) (days * 2) in
  fold_left (fun overnightStops point =>
    match Services.findNearbyAccommodations services
            (JS.Finite (Sample.lat point)) (JS.Finite (Sample.lon point))
            (PaceConfig.accommodationRadius config) with
    | Some accommodations =>
        if Nat.ltb 0 (length accommodations)
        then
          let locationInfo :=
            Services.reverseGeocode services (JS.Finite (Sample.lat point))
                                    (JS.Finite (Sample.lon point)) in
          overnightStops ++
            [ {| Stop.lat := JS.Finite (Sample.lat point);
                 Stop.lon := JS.Finite (Sample.lon point);
                 Stop.distanceFromStart := Sample.distanceFromStart point;
                 Stop.index := Sample.index point;
                 Stop.name := match locationInfo with
                              | Some info => LocationInfo.name info
                              | None => "Accommodation Available"
                              end;
                 Stop.fullAddress := option_map LocationInfo.fullAddress locationInfo;
                 Stop.accommodations := accommodations;
                 Stop.accommodationScore := Z.of_nat (length accommodations);
                 Stop.attractions := [];
                 Stop.type := Stop.overnight |} ]
        else overnightStops
    | None => overnightStops
    end) (take maxSamples samplePoints) [].

(** [createBasicStopsAlongRoute(route, days)]; when the reverse geocoder
    is rejected the stop built is the one built for the answer [null]. *)
Definition createBasicStopsAlongRoute (route : Route.t) (days : nat) : list Stop.t :=
  let coordinates := Route.coordinates route in
  let totalDistance := Route.distance route in
  let idealDailyDistance := totalDistance / JS.ofNat days in
  fold_left (fun basicStops d =>
    let targetDistance := idealDailyDistance * JS.ofNat d in
    let closestPoint :=
      findClosestPointOnRoute calculateDistance coordinates targetDistance in
    match closestPoint with
    | Some closestPoint =>
        let locationInfo :=
          Services.reverseGeocode services (Candidate.lat closestPoint)
                                  (Candidate.lon closestPoint) in
        basicStops ++
          [ {| Stop.lat := Candidate.lat closestPoint;
               Stop.lon := Candidate.lon closestPoint;
               Stop.distanceFromStart := Candidate.distanceFromStart closestPoint;
               Stop.index := Candidate.index closestPoint;
               Stop.name := match locationInfo with
                            | Some info => LocationInfo.name info
                            | None => "Stop " +:+ pretty d
                            end;
               Stop.fullAddress := option_map LocationInfo.fullAddress locationInfo;
               Stop.accommodations := [];
               Stop.accommodationScore := 0;
               Stop.attractions := [];
               Stop.type := Stop.basic |} ]
    | None => basicStops
    end) (seq 1 (days - 1)) [].

End Sampling.

End App.

(** ** Application script, second part

    Further down the same script several functions are declared again. *)

Module App2.

(** [removeDuplicatePois]: [pois.filter] with a callback that updates the
    set [seen] as it goes. *)
Fixpoint removeDuplicatePois_filter (seen : gset string) (pois : list Poi.t)
  : list Poi.t :=
  match pois with
  | [] => []
  | poi :: rest =>
      let key := JS.trim (JS.toLowerCase (Poi.title poi)) in
      if bool_decide (key ∈ seen)
      then removeDuplicatePois_filter seen rest
      else poi :: removeDuplicatePois_filter (seen ∪ {[key]}) rest
  end.

Definition removeDuplicatePois (pois : list Poi.t) : list Poi.t :=
  removeDuplicatePois_filter ∅ pois.

(** The escalation loop of [fetchPoisSimple],
    [for (const searchRadius of searchRadii)]: the radii searched, in
    order (one [Searching within ... radius] line of the console log
    each), and [pois] after the loop. *)
Fixpoint fetchPoisSimple_search (services : Services.t) (lat lon : Q) (limit : Z)
    (searchRadii : list Q) (pois : list Poi.t) : list Q * list Poi.t :=
  match searchRadii with
  | [] => ([], pois)
  | searchRadius :: rest =>
      let pois :=
        match Services.fetchWikipediaAttractions services lat lon searchRadius limit with
        | Some wikiPois =>
            if Nat.ltb 0 (length wikiPois) then pois ++ wikiPois else pois
        | None => pois
        end in
      let pois :=
        match Services.fetchOverpassAttractions services lat lon searchRadius limit with
        | Some overpassPois =>
            if Nat.ltb 0 (length overpassPois) then pois ++ overpassPois else pois
        | None => pois
        end in
      if Nat.ltb 0 (length pois)
      then ([searchRadius], pois)
      else
        let '(searched, pois) :=
          fetchPoisSimple_search services lat lon limit rest pois in
        (searchRadius :: searched, pois)
  end.

Definition targetRadius : Q := 16000.
Definition searchRadii : list Q := [targetRadius; targetRadius * 2; targetRadius * 3].

(** The first half of [fetchPoisSimple]: the escalation and, when it
    found nothing, the generic attractions. *)
Definition fetchPoisSimple_collect (services : Services.t) (lat lon : Q) (limit : Z)
  : list Q * list Poi.t :=
  let '(searched, pois) :=
    fetchPoisSimple_search services lat lon limit searchRadii [] in
  let pois :=
    if Nat.eqb (length pois) 0
    then pois ++ App.createGenericPois (Services.random services) lat lon
    else pois in
  (searched, pois).

(** The callback of [preferences.some] inside the preference filter. *)
Definition matchesPreference (category pref : string) : bool :=
  if String.eqb pref "outdoor" then
    JS.includes category "park" || JS.includes category "nature"
    || JS.includes category "outdoor"
  else if String.eqb pref "cultural" then
    JS.includes category "museum" || JS.includes category "historic"
    || JS.includes category "cultural"
  else if String.eqb pref "entertainment" then
    JS.includes category "entertainment" || JS.includes category "theater"
  else if String.eqb pref "food" then
    JS.includes category "food" || JS.includes category "restaurant"
  else if String.eqb pref "family" then
    JS.includes category "family" || JS.includes category "zoo"
    || JS.includes category "aquarium"
  else if String.eqb pref "adventure" then
    JS.includes category "adventure" || JS.includes category "sports"
  else true.

(** [pois.filter(poi => ...)]: the POIs matching some preference. *)
Definition preferenceFilter (pois : list Poi.t) (preferences : list string)
  : list Poi.t :=
  JS.filter (fun poi =>
    let category := JS.toLowerCase (Poi.category poi) in
    JS.some (fun pref => matchesPreference category pref) preferences) pois.

(** The preference stage of [fetchPoisSimple]: [filteredPois]. *)
Definition fetchPoisSimple_filter (pois : list Poi.t) (preferences : list string)
  : list Poi.t :=
  if Nat.ltb 0 (length preferences)
  then
    let filteredPois := preferenceFilter pois preferences in
    if Nat.eqb (length filteredPois) 0 then pois else filteredPois
  else pois.

(** [fetchPoisSimple(lat, lon, radiusMeters, limit, preferences)]: the
    radii searched and the returned POIs.  The parameter [radiusMeters]
    is only written to the console. *)
Definition fetchPoisSimple (services : Services.t) (lat lon radiusMeters : Q)
    (limit : Z) (preferences : list string) : list Q * list Poi.t :=
  let '(searched, pois) := fetchPoisSimple_collect services lat lon limit in
  let filteredPois := fetchPoisSimple_filter pois preferences in
  let uniquePois := removeDuplicatePois filteredPois in
  (searched, JS.slice0 limit uniquePois).

Section Sampling.

Variable calculateDistance : Q -> Q -> Q -> Q -> Q.
Variable services : Services.t.

(** [findOvernightStops(route, config, progressCallback)]: the stops
    found, and the candidate points sampled along the route, in order
    (for each of them the accommodation search was called). *)
Definition findOvernightStops (route : Route.t) (config : PaceConfig.t)
  : list Stop.t * list Candidate.t :=
  let coordinates := Route.coordinates route in
  let totalDistance := Route.distance route in
  let samplePoints := 20%nat in
  fold_left (fun '(overnightStops, sampled) i =>
    let targetDistance := (totalDistance / JS.ofNat samplePoints) * JS.ofNat i in
    let closestPoint :=
      App.findClosestPointOnRoute calculateDistance coordinates targetDistance in
    match closestPoint with
    | Some closestPoint =>
        let sampled := sampled ++ [closestPoint] in
        match Services.findNearbyAccommodations services
                (Candidate.lat closestPoint) (Candidate.lon closestPoint)
                (PaceConfig.accommodationRadius config) with
        | Some accommodations =>
            if Nat.ltb 0 (length accommodations)
            then
              let locationInfo :=
                Services.reverseGeocode services (Candidate.lat closestPoint)
                                        (Candidate.lon closestPoint) in
              let stop :=
                {| Stop.lat := Candidate.lat closestPoint;
                   Stop.lon := Candidate.lon closestPoint;
                   Stop.index := Candidate.index closestPoint;
                   Stop.name := match locationInfo with
                                | Some info => LocationInfo.name info
                                | None => "Stop " +:+ pretty i
                                end;
                   Stop.fullAddress :=
                     option_map LocationInfo.fullAddress locationInfo;
                   Stop.distanceFromStart := targetDistance;
                   Stop.accommodations := accommodations;
                   Stop.accommodationScore := Z.of_nat (length accommodations);
                   Stop.attractions := [];
                   Stop.type := Stop.overnight |} in
              (overnightStops ++ [stop], sampled)
            else (overnightStops, sampled)
        | None => (overnightStops, sampled)
        end
    | None => (overnightStops, sampled)
    end) (seq 1 samplePoints) ([], []).

End Sampling.

(** [selectOvernightStops(overnightStops, idealDailyDistance, days)] as
    declared again: 40% tolerance, 20% spacing, no guard on an empty
    array.  The constant [totalStops = days - 1] is never read. *)
Definition selectOvernightStops (overnightStops : list Stop.t)
    (idealDailyDistance : Q) (days : nat) : list Stop.t * list Stop.t :=
  let overnightStops :=
    JS.sort (fun a b =>
      let aDistanceScore := Qabs (Stop.distanceFromStart a - idealDailyDistance) in
      let bDistanceScore := Qabs (Stop.distanceFromStart b - idealDailyDistance) in
      if negb (Z.eqb (Stop.accommodationScore a) (Stop.accommodationScore b))
      then inject_Z (Stop.accommodationScore b - Stop.accommodationScore a)
      else aDistanceScore - bDistanceScore) overnightStops in
  let selectedStops :=
    fold_left (fun selectedStops d =>
      let targetDistance := idealDailyDistance * JS.ofNat d in
      let tolerance := idealDailyDistance * 0.4 in
      let candidateStops :=
        JS.filter (fun stop =>
          JS.le (Qabs (Stop.distanceFromStart stop - targetDistance)) tolerance
          && negb (JS.some (fun selected =>
               JS.lt (Qabs (Stop.distanceFromStart selected
                            - Stop.distanceFromStart stop))
                     (idealDailyDistance * 0.2)) selectedStops))
          overnightStops in
      match candidateStops with
      | first :: _ => selectedStops ++ [first]
      | [] =>
          let closestStop :=
            JS.find (fun stop =>
              negb (JS.some (fun selected =>
                JS.lt (Qabs (Stop.distanceFromStart selected
                             - Stop.distanceFromStart stop))
                      (idealDailyDistance * 0.2)) selectedStops))
              overnightStops in
          match closestStop with
          | Some stop => selectedStops ++ [stop]
          | None => selectedStops
          end
      end) (seq 1 (days - 1)) [] in
  (overnightStops,
   JS.sort (fun a b => Stop.distanceFromStart a - Stop.distanceFromStart b)
           selectedStops).

End App2.

(** ** Application script: the roadside stops

    [findRoadsideStops] of the first part calls [fetchPoisSimple], which
    the script declares in its second part. *)

Module AppRoadside.

Section Roadside.

Variable calculateDistance : Q -> Q -> Q -> Q -> Q.
Variable services : Services.t.

(** What the page and the clock contribute: [getUserPreferences()] as read
    for the sample of index [i], and whether the five-second timer wins
    the [Promise.race] against [fetchPoisSimple] for that sample. *)
Variable getUserPreferences : nat -> list string.
Variable timedOut : nat -> bool.

(** The body of the loop over the samples; the state is
    [(roadsideStops, i)]. *)
Definition findRoadsideStops_body (config : PaceConfig.t)
    (st : list Stop.t * nat) (point : Sample.t) : list Stop.t * nat :=
  let '(roadsideStops, i) := st in
  let preferences := getUserPreferences i in
  if timedOut i then (roadsideStops, S i)
  else
    let attractions :=
      snd (App2.fetchPoisSimple services (Sample.lat point) (Sample.lon point)
                                20000 4 preferences) in
    let suitableAttractions :=
      JS.filter (fun attraction =>
        let timeEstimate := App.timeEstimate attraction in
        JS.ge timeEstimate (PaceConfig.minActivityTime config)) attractions in
    if Nat.ltb 0 (length suitableAttractions)
    then
      let locationInfo :=
        Services.reverseGeocode services (JS.Finite (Sample.lat point))
                                (JS.Finite (Sample.lon point)) in
      (roadsideStops ++
         [ {| Stop.lat := JS.Finite (Sample.lat point);
              Stop.lon := JS.Finite (Sample.lon point);
              Stop.distanceFromStart := Sample.distanceFromStart point;
              Stop.index := Sample.index point;
              Stop.name := match locationInfo with
                           | Some info => LocationInfo.name info
                           | None => "Attractions Available"
                           end;
              Stop.fullAddress := option_map LocationInfo.fullAddress locationInfo;
              Stop.accommodations := [];
              Stop.accommodationScore := 0;
              Stop.attractions := suitableAttractions;
              Stop.type := Stop.roadside |} ], S i)
    else (roadsideStops, S i).

(** [findRoadsideStops(route, config, progressCallback)] of the first
    part. *)
Definition findRoadsideStops (route : Route.t) (config : PaceConfig.t) : list Stop.t :=
  let coordinates := Route.coordinates route in
  let totalDistance := Route.distance route in
  let sampleInterval := JS.max 8000 (totalDistance / 30) in
  let samplePoints :=
    App.samplePoints_from calculateDistance sampleInterval coordinates 0 0 in
  let maxSamples := Nat.min (length samplePoints) 12 in
  fst (fold_left (findRoadsideStops_body config) (take maxSamples samplePoints)
                 ([], 0%nat)).

End Roadside.

End AppRoadside.

(** ** Trip-planner module (ui.js) *)

Module TripPlanner.

(** [createGenericPois(lat, lon)] reads as in the application script. *)
Definition createGenericPois := App.createGenericPois.

(** [fetchPoisSimple] reads as in the application script, with each
    provider call guarded by [typeof ... === 'function'] (both providers
    are imported functions, so the guards pass) and with
    [removeDuplicatePois] imported from utils.js. *)
Definition fetchPoisSimple (services : Services.t) (lat lon radiusMeters : Q)
    (limit : Z) (preferences : list string) : list Q * list Poi.t :=
  let '(searched, pois) := App2.fetchPoisSimple_collect services lat lon limit in
  let filteredPois := App2.fetchPoisSimple_filter pois preferences in
  let uniquePois := Utils.removeDuplicatePois filteredPois in
  (searched, JS.slice0 limit uniquePois).

(** [selectOvernightStops(overnightStops, idealDailyDistance, days)]:
    for each day boundary the unselected stop with the lowest combined
    score within 50% of the ideal distance; no fallback and no final
    sort.  First component: the caller's array after the call.  The
    constant [totalStops = days - 1] is never read. *)
Definition selectOvernightStops (overnightStops : list Stop.t)
    (idealDailyDistance : Q) (days : nat) : list Stop.t * list Stop.t :=
  let overnightStops :=
    JS.sort (fun a b =>
      let aDistanceScore := Qabs (Stop.distanceFromStart a - idealDailyDistance) in
      let bDistanceScore := Qabs (Stop.distanceFromStart b - idealDailyDistance) in
      if negb (Z.eqb (Stop.accommodationScore a) (Stop.accommodationScore b))
      then inject_Z (Stop.accommodationScore b - Stop.accommodationScore a)
      else aDistanceScore - bDistanceScore) overnightStops in
  let selectedStops :=
    fold_left (fun selectedStops d =>
      let targetDistance := idealDailyDistance * JS.ofNat d in
      let '(bestStop, bestScore) :=
        fold_left (fun '(bestStop, bestScore) stop =>
          let distanceFromTarget :=
            Qabs (Stop.distanceFromStart stop - targetDistance) in
          if JS.gt distanceFromTarget (idealDailyDistance * 0.5)
          then (bestStop, bestScore)
          else
            let tooClose :=
              JS.some (fun selected =>
                JS.lt (Qabs (Stop.distanceFromStart selected
                             - Stop.distanceFromStart stop))
                      (idealDailyDistance * 0.3)) selectedStops in
            if tooClose then (bestStop, bestScore)
            else
              let score :=
                JS.sub (JS.div distanceFromTarget idealDailyDistance)
                       (inject_Z (Stop.accommodationScore stop) * 0.1) in
              if JS.num_lt score bestScore
              then (Some stop, score)
              else (bestStop, bestScore))
          overnightStops (None, JS.PosInf) in
      match bestStop with
      | Some stop => selectedStops ++ [stop]
      | None => selectedStops
      end) (seq 1 (days - 1)) [] in
  (overnightStops, selectedStops).

End TripPlanner.

(** ** The common shape of the overnight-stop selectors

    The three selectors of the application script differ in their
    tolerance and spacing factors only; their loop body is [Shape.pick]. *)

Module Shape.

(** Comparator of the in-place sort: more accommodations first, then
    closer to the ideal daily distance. *)
Definition byScore (idealDailyDistance : Q) (a b : Stop.t) : Q :=
  let aDistanceScore := Qabs (Stop.distanceFromStart a - idealDailyDistance) in
  let bDistanceScore := Qabs (Stop.distanceFromStart b - idealDailyDistance) in
  if negb (Z.eqb (Stop.accommodationScore a) (Stop.accommodationScore b))
  then inject_Z (Stop.accommodationScore b - Stop.accommodationScore a)
  else aDistanceScore - bDistanceScore.

(** Comparator of the final sort. *)
Definition byDistance (a b : Stop.t) : Q :=
  Stop.distanceFromStart a - Stop.distanceFromStart b.

(** [stop] lies closer than [gap] to a stop selected already. *)
Definition tooClose (gap : Q) (selectedStops : list Stop.t) (stop : Stop.t) : bool :=
  JS.some (fun selected =>
    JS.lt (Qabs (Stop.distanceFromStart selected - Stop.distanceFromStart stop))
          gap) selectedStops.

(** One day boundary: the first stop within the tolerance that keeps the
    spacing, else the first stop that keeps the spacing, else nothing. *)
Definition pick (tolerance gap idealDailyDistance : Q) (stops : list Stop.t)
    (selectedStops : list Stop.t) (d : nat) : list Stop.t :=
  let targetDistance := idealDailyDistance * JS.ofNat d in
  match JS.filter (fun stop =>
          JS.le (Qabs (Stop.distanceFromStart stop - targetDistance)) tolerance
          && negb (tooClose gap selectedStops stop)) stops with
  | first :: _ => selectedStops ++ [first]
  | [] =>
      match JS.find (fun stop => negb (tooClose gap selectedStops stop)) stops with
      | Some stop => selectedStops ++ [stop]
      | None => selectedStops
      end
  end.

Definition select (tolerance gap idealDailyDistance : Q) (stops : list Stop.t)
    (days : nat) : list Stop.t :=
  JS.sort byDistance
    (fold_left (pick tolerance gap idealDailyDistance stops) (seq 1 (days - 1)) []).

(** The trip-planner module's search for the best stop of one day
    boundary: one step of the scan over the array, and the scan. *)
Definition bestStep (idealDailyDistance : Q) (selectedStops : list Stop.t)
    (targetDistance : Q) (best : option Stop.t * JS.num)
  : Stop.t -> option Stop.t * JS.num :=
  let '(bestStop, bestScore) := best in
  fun stop =>
  let distanceFromTarget := Qabs (Stop.distanceFromStart stop - targetDistance) in
  if JS.gt distanceFromTarget (idealDailyDistance * 0.5)
  then (bestStop, bestScore)
  else
    if tooClose (idealDailyDistance * 0.3) selectedStops stop
    then (bestStop, bestScore)
    else
      let score :=
        JS.sub (JS.div distanceFromTarget idealDailyDistance)
               (inject_Z (Stop.accommodationScore stop) * 0.1) in
      if JS.num_lt score bestScore
      then (Some stop, score)
      else (bestStop, bestScore).

Definition pickBest (idealDailyDistance : Q) (stops : list Stop.t)
    (selectedStops : list Stop.t) (d : nat) : list Stop.t :=
  let targetDistance := idealDailyDistance * JS.ofNat d in
  let '(bestStop, bestScore) :=
    fold_left (bestStep idealDailyDistance selectedStops targetDistance)
              stops (None, JS.PosInf) in
  match bestStop with
  | Some stop => selectedStops ++ [stop]
  | None => selectedStops
  end.

(** All pairs of a list are related by [R]. *)
Fixpoint pairwise {A} (R : A -> A -> Prop) (l : list A) : Prop :=
  match l with
  | [] => True
  | x :: l' => Forall (R x) l' /\ pairwise R l'
  end.

(** Two stops lie at least [gap] apart. *)
Definition apart (gap : Q) (a b : Stop.t) : Prop :=
  gap <= Qabs (Stop.distanceFromStart a - Stop.distanceFromStart b).

(** Ascending by distance from the start. *)
Definition ascending (a b : Stop.t) : Prop :=
  Stop.distanceFromStart a <= Stop.distanceFromStart b.

(** Any two entries of [out] at different positions lie at least [gap]
    apart. *)
Definition spaced (gap : Q) (out : list Stop.t) : Prop :=
  forall (i j : nat) (a b : Stop.t),
    i <> j -> out !! i = Some a -> out !! j = Some b -> apart gap a b.

(** What the trip-planner module's scan may return: a stop of the array
    within half an ideal day of the target that keeps the spacing. *)
Definition eligible (I : Q) (stops selected : list Stop.t) (target : Q)
    (c : Stop.t) : Prop :=
  c ∈ stops
  /\ tooClose (I * 0.3) selected c = false
  /\ Qabs (Stop.distanceFromStart c - target) <= I * 0.5.

(** Loop invariant of the trip-planner module's selection before day
    boundary [d]: the stops selected so far ascend and lie at most half an
    ideal day beyond the previous boundary. *)
Definition inOrderUpTo (I : Q) (d : nat) (selected : list Stop.t) : Prop :=
  Sorted ascending selected
  /\ (forall x, x ∈ selected -> Stop.distanceFromStart x <= I * JS.ofNat d - I * 0.5)
  /\ (selected <> [] -> 0 <= I).

End Shape.

(** ** Notions used in the statements about the route and the scout *)

Module Polyline.

Section Measure.

Variable calculateDistance : Q -> Q -> Q -> Q -> Q.

(** The lengths of the segments of a polyline, in order. *)
Fixpoint segments (coordinates : list (Q * Q)) : list Q :=
  match coordinates with
  | (lon1, lat1) :: (((lon2, lat2) :: _) as rest) =>
      calculateDistance lat1 lon1 lat2 lon2 :: segments rest
  | _ => []
  end.

(** The distance accumulated over the first [i] segments, added up in
    the order of the loop. *)
Definition cumulative (coordinates : list (Q * Q)) (i : nat) : Q :=
  fold_left Qplus (take i (segments coordinates)) 0.

(** The length of the polyline. *)
Definition total (coordinates : list (Q * Q)) : Q :=
  fold_left Qplus (segments coordinates) 0.

End Measure.

(** A number is finite and equal to [q]. *)
Definition finite_eq (n : JS.num) (q : Q) : Prop :=
  match n with
  | JS.Finite r => r == q
  | _ => False
  end.

End Polyline.

Module Scout.

(** Some provider answers a non-empty list for the radius [r]. *)
Definition found (services : Services.t) (lat lon : Q) (limit : Z) (r : Q) : bool :=
  match Services.fetchWikipediaAttractions services lat lon r limit with
  | Some (_ :: _) => true
  | _ => match Services.fetchOverpassAttractions services lat lon r limit with
         | Some (_ :: _) => true
         | _ => false
         end
  end.

(** The radii of an escalation that stops at the first radius with a
    non-empty answer. *)
Fixpoint tried (found : Q -> bool) (radii : list Q) : list Q :=
  match radii with
  | [] => []
  | r :: rest => if found r then [r] else r :: tried found rest
  end.

End Scout.

Module Series.

(** The sum of a list of numbers (hours, segment lengths). *)
Definition sum (l : list Q) : Q := fold_right Qplus 0 l.

End Series.

Module Built.

(** The overnight stop that the interval sampler builds from a sample
    point. *)
Definition overnight (stop : Stop.t) (point : Sample.t) : Prop :=
  Stop.accommodations stop <> []
  /\ Stop.accommodationScore stop = Z.of_nat (length (Stop.accommodations stop))
  /\ Stop.type stop = Stop.overnight
  /\ Stop.distanceFromStart stop = Sample.distanceFromStart point
  /\ Stop.index stop = Sample.index point
  /\ Stop.lat stop = JS.Finite (Sample.lat point)
  /\ Stop.lon stop = JS.Finite (Sample.lon point).

(** The roadside stop that the sampler builds from a sample point under
    a pace configuration. *)
Definition roadside (config : PaceConfig.t) (stop : Stop.t) (point : Sample.t) : Prop :=
  Stop.attractions stop <> []
  /\ (forall a, a ∈ Stop.attractions stop ->
        PaceConfig.minActivityTime config <= App.timeEstimate a)
  /\ (length (Stop.attractions stop) <= 4)%nat
  /\ NoDup (map Utils.normalizedTitle (Stop.attractions stop))
  /\ Stop.type stop = Stop.roadside
  /\ Stop.distanceFromStart stop = Sample.distanceFromStart point
  /\ Stop.index stop = Sample.index point
  /\ Stop.lat stop = JS.Finite (Sample.lat point)
  /\ Stop.lon stop = JS.Finite (Sample.lon point).

End Built.

Module Rank.

(** The category priority the comparator reads for a POI. *)
Definition priority (x : Ranked.t) : Q :=
  JS.orElse (App.categoryPriority !! Poi.category (Ranked.poi x)) 1.

(** [a] may stand in front of [b] in the ranking: a preference match
    before a POI without one; among equals the higher category priority;
    among equals again the shorter distance. *)
Definition ordered (a b : Ranked.t) : Prop :=
  (Ranked.preferenceMatch b = true -> Ranked.preferenceMatch a = true)
  /\ (Ranked.preferenceMatch a = Ranked.preferenceMatch b ->
      priority b <= priority a
      /\ (priority a == priority b ->
          Poi.distanceMeters (Ranked.poi a) <= Poi.distanceMeters (Ranked.poi b))).

(** The deduplication of [filterAndRankPois] as a recursion over the
    input. *)
Fixpoint dedup (seen : gset string) (pois : list Ranked.t) : list Ranked.t :=
  match pois with
  | [] => []
  | x :: rest =>
      let key := JS.trim (JS.toLowerCase (Poi.title (Ranked.poi x))) in
      if bool_decide (key ∈ seen) then dedup seen rest
      else x :: dedup (seen ∪ {[key]}) rest
  end.

End Rank.

(** ** Sample data *)

Module Samples.

Definition city_museum_a : Poi.t :=
  Poi.mk "City Museum" 1200 48.2 16.37 (Href "https://en.wikipedia.org/?curid=1")
         "wikipedia" "Museum".
Definition city_museum_b : Poi.t :=
  Poi.mk "city museum " 1250 48.2001 16.3702 (Href "https://www.openstreetmap.org/node/7")
         "overpass" "Attraction".

(** An overnight stop at distance [d] (metres) with [n] accommodations
    found. *)
Definition overnightAt (d : Q) (n : Z) : Stop.t :=
  Stop.mk (JS.Finite 48) (JS.Finite 16) d 0 "Stop" None [] n [] Stop.overnight.

(** All services down: every promise is rejected, the reverse geocoder
    answers [null]; [Math.random] yields 0.5. *)
Definition offline : Services.t :=
  {| Services.reverseGeocode := fun _ _ => None;
     Services.fetchRestaurants := fun _ _ _ => None;
     Services.findNearbyAccommodations := fun _ _ _ => None;
     Services.fetchWikipediaAttractions := fun _ _ _ _ => None;
     Services.fetchOverpassAttractions := fun _ _ _ _ => None;
     Services.random := fun _ => 0.5 |}.

(** The encyclopedia knows one museum, within 32 km only; an inn is
    found everywhere. *)
Definition online : Services.t :=
  {| Services.reverseGeocode := fun _ _ => None;
     Services.fetchRestaurants := fun _ _ _ => Some [];
     Services.findNearbyAccommodations := fun _ _ _ =>
       Some [Lodging.mk "Inn" "hotel" 150 48 16 "https://www.openstreetmap.org/node/1"];
     Services.fetchWikipediaAttractions := fun _ _ r _ =>
       if JS.ge r 32000 then Some [city_museum_a] else Some [];
     Services.fetchOverpassAttractions := fun _ _ _ _ => None;
     Services.random := fun _ => 0.25 |}.

(** A distance function for evaluation: 111195 m per degree along the
    axes (the haversine value for one degree on the equator or on a
    meridian is 111194.93 m). *)
Definition flatDistance (lat1 lon1 lat2 lon2 : Q) : Q :=
  111195 * (Qabs (lat2 - lat1) + Qabs (lon2 - lon1)).

(** A route of two degrees along the equator, as [[lon, lat]] pairs. *)
Definition equator : list (Q * Q) := [(0, 0); (1, 0); (2, 0)].

(** A route of nine degrees along the equator (about 1000 km). *)
Definition highway : Route.t :=
  Route.mk [(0, 0); (3, 0); (6, 0); (9, 0)] 1000000.

(** A roadside stop at distance [d] with the given attractions. *)
Definition roadsideAt (d : Q) (attractions : list Poi.t) : Stop.t :=
  Stop.mk (JS.Finite 48) (JS.Finite 16) d 0 "Attractions Available" None [] 0
          attractions Stop.roadside.

Definition attraction (title category : string) : Poi.t :=
  Poi.mk title 100 48 16 (Href "https://en.wikipedia.org/?curid=2") "wikipedia"
         category.

(** Three roadside stops of five activity hours in all. *)
Definition busyDay : list Stop.t :=
  [roadsideAt 50000 [attraction "Town Museum" "Museum"];
   roadsideAt 120000 [attraction "River Park" "Park"];
   roadsideAt 200000 [attraction "Old Brewery" "Food & Drink"]].

(** Three POIs on their way into the ranking. *)
Definition ranked : list Ranked.t :=
  [Ranked.mk (attraction "River Park" "Park") false;
   Ranked.mk (attraction "Old Brewery" "Food & Drink") true;
   Ranked.mk (attraction "Town Museum" "Museum") false].

(** A park that the encyclopedia knows and a museum that the map
    database knows, at every radius. *)
Definition river_park : Poi.t :=
  Poi.mk "River Park" 300 48.21 16.38 (Href "https://en.wikipedia.org/?curid=3")
         "wikipedia" "Park".
Definition town_museum : Poi.t :=
  Poi.mk "Town Museum" 900 48.2 16.36 (Href "https://www.openstreetmap.org/node/9")
         "overpass" "Museum".
Definition guide : Services.t :=
  {| Services.reverseGeocode := fun _ _ => None;
     Services.fetchRestaurants := fun _ _ _ => Some [];
     Services.findNearbyAccommodations := fun _ _ _ => Some [];
     Services.fetchWikipediaAttractions := fun _ _ _ _ => Some [river_park];
     Services.fetchOverpassAttractions := fun _ _ _ _ => Some [town_museum];
     Services.random := fun _ => 0.25 |}.

(** Five candidates along a 1000 km route. *)
Definition candidates : list Stop.t :=
  [overnightAt 100000 1; overnightAt 650000 2; overnightAt 320000 2;
   overnightAt 700000 5; overnightAt 360000 2].

End Samples.

(** ** Deduplication by normalized title *)

Section Dedup.

Implicit Types (pois out : list Poi.t) (seen : gset string).

Lemma utils_dedup_fold pois : forall acc seen,
  fold_left Utils.removeDuplicatePois_body pois (acc, seen)
  = (acc ++ App2.removeDuplicatePois_filter seen pois,
     seen ∪ list_to_set (map Utils.normalizedTitle pois)).
Proof.
  induction pois as [|p pois IH]; intros acc seen; simpl.
  - rewrite app_nil_r. f_equal. set_solver.
  - fold (Utils.normalizedTitle p).
    destruct (bool_decide (Utils.normalizedTitle p ∈ seen)) eqn:E.
    + rewrite IH. f_equal. apply bool_decide_eq_true in E. set_solver.
    + rewrite IH. rewrite <- app_assoc. simpl. f_equal. set_solver.
Qed.

Lemma utils_dedup_is_app_dedup pois :
  Utils.removeDuplicatePois pois = App2.removeDuplicatePois pois.
Proof.
  unfold Utils.removeDuplicatePois, App2.removeDuplicatePois.
  now rewrite utils_dedup_fold.
Qed.

Lemma dedup_filter_sublist pois : forall seen,
  sublist (App2.removeDuplicatePois_filter seen pois) pois.
Proof.
  induction pois as [|p pois IH]; intros seen; simpl.
  - constructor.
  - destruct (bool_decide _).
    + apply sublist_cons, IH.
    + apply sublist_skip, IH.
Qed.

Lemma dedup_filter_fresh pois : forall seen q,
  q ∈ App2.removeDuplicatePois_filter seen pois ->
  Utils.normalizedTitle q ∉ seen.
Proof.
  induction pois as [|p pois IH]; intros seen q; simpl.
  - intros H. inversion H.
  - fold (Utils.normalizedTitle p).
    destruct (bool_decide (Utils.normalizedTitle p ∈ seen)) eqn:E.
    + apply IH.
    + apply bool_decide_eq_false in E.
      intros H. apply elem_of_cons in H as [-> | H]; [exact E|].
      apply IH in H. set_solver.
Qed.

Lemma dedup_filter_NoDup pois : forall seen,
  NoDup (map Utils.normalizedTitle (App2.removeDuplicatePois_filter seen pois)).
Proof.
  induction pois as [|p pois IH]; intros seen; simpl.
  - constructor.
  - fold (Utils.normalizedTitle p).
    destruct (bool_decide (Utils.normalizedTitle p ∈ seen)) eqn:E.
    + apply IH.
    + simpl. constructor; [|apply IH].
      intros Hin. apply list_elem_of_fmap in Hin as (q & Hq & Hin).
      apply dedup_filter_fresh in Hin. set_solver.
Qed.

Lemma dedup_filter_covers pois : forall seen p,
  p ∈ pois -> Utils.normalizedTitle p ∉ seen ->
  exists q, q ∈ App2.removeDuplicatePois_filter seen pois
            /\ Utils.normalizedTitle q = Utils.normalizedTitle p.
Proof.
  induction pois as [|p0 pois IH]; intros seen p Hin Hfresh; simpl.
  - inversion Hin.
  - fold (Utils.normalizedTitle p0).
    destruct (bool_decide (Utils.normalizedTitle p0 ∈ seen)) eqn:E.
    + apply bool_decide_eq_true in E.
      apply elem_of_cons in Hin as [-> | Hin]; [contradiction|].
      now apply IH.
    + destruct (decide (Utils.normalizedTitle p = Utils.normalizedTitle p0))
        as [Heq | Hne].
      * exists p0. split; [left | congruence].
      * apply elem_of_cons in Hin as [-> | Hin]; [congruence|].
        destruct (IH (seen ∪ {[Utils.normalizedTitle p0]}) p Hin) as (q & Hq & Hn).
        { set_solver. }
        exists q. split; [now right | exact Hn].
Qed.

(** In a list whose keys are pairwise different, a key that occurs has
    exactly one carrier. *)
Lemma NoDup_key_count {A} (key : A -> string) (l : list A) (k : string) :
  NoDup (map key l) -> (exists q, q ∈ l /\ key q = k) ->
  length (List.filter (fun q => bool_decide (key q = k)) l) = 1%nat.
Proof.
  induction l as [|x l IH]; intros Hnd (q & Hq & Hk); simpl.
  - inversion Hq.
  - apply NoDup_cons in Hnd as [Hx Hnd].
    destruct (bool_decide (key x = k)) eqn:E.
    + apply bool_decide_eq_true in E. simpl. f_equal.
      destruct (List.filter _ l) as [|y ys] eqn:F; [reflexivity|].
      exfalso. assert (Hy : In y (List.filter (fun q0 => bool_decide (key q0 = k)) l))
        by (rewrite F; now left).
      apply filter_In in Hy as [Hy1 Hy2]. apply bool_decide_eq_true in Hy2.
      apply Hx. apply list_elem_of_fmap. exists y. split; [congruence|].
      now apply list_elem_of_In.
    + apply bool_decide_eq_false in E.
      apply IH; [exact Hnd|]. exists q. split; [|exact Hk].
      apply elem_of_cons in Hq as [-> | Hq]; [contradiction | exact Hq].
Qed.

(** C5. Deduplication is by normalized title (lower-cased, trimmed): the
    loop version and the filter version agree; the result is a sub-list
    of the input (POIs are dropped, never merged or altered); no two
    retained POIs share a normalized title; and for every input POI
    exactly one retained POI carries its normalized title.  Two POIs
    titled "City Museum" and "city museum " leave exactly one, the
    first. *)
Theorem removeDuplicatePois_one_per_title pois :
  let out := Utils.removeDuplicatePois pois in
  App2.removeDuplicatePois pois = out
  /\ sublist out pois
  /\ NoDup (map Utils.normalizedTitle out)
  /\ (forall p, p ∈ pois ->
       length (List.filter
                 (fun q => bool_decide
                    (Utils.normalizedTitle q = Utils.normalizedTitle p)) out)
       = 1%nat)
  /\ (forall a b, Poi.title a = "City Museum"%string ->
                  Poi.title b = "city museum "%string ->
                  Utils.removeDuplicatePois [a; b] = [a]).
Proof.
  cbv zeta. rewrite utils_dedup_is_app_dedup. unfold App2.removeDuplicatePois.
  split; [reflexivity|].
  split; [apply dedup_filter_sublist|].
  split; [apply dedup_filter_NoDup|].
  split.
  - intros p Hp. apply NoDup_key_count; [apply dedup_filter_NoDup|].
    apply dedup_filter_covers; [exact Hp | set_solver].
  - intros a b Ha Hb. rewrite utils_dedup_is_app_dedup.
    unfold App2.removeDuplicatePois. simpl. rewrite Ha, Hb.
    reflexivity.
Qed.

Lemma removeDuplicatePois_one_per_title_witness :
  Utils.removeDuplicatePois [Samples.city_museum_a; Samples.city_museum_b] = [Samples.city_museum_a]
  /\ length (List.filter
               (fun q => bool_decide
                  (Utils.normalizedTitle q = Utils.normalizedTitle Samples.city_museum_b))
               (Utils.removeDuplicatePois [Samples.city_museum_a; Samples.city_museum_b]))
     = 1%nat.
Proof.
  pose proof (removeDuplicatePois_one_per_title [Samples.city_museum_a; Samples.city_museum_b])
    as (_ & _ & _ & Hone & Hpair).
  split.
  - apply Hpair; reflexivity.
  - apply Hone. right. left.
Defined.

End Dedup.

(** ** Array.prototype.sort *)

Section SortFacts.

Context {A : Type} (cmp : A -> A -> Q).

Lemma insert_perm x (l : list A) : Permutation (JS.insert cmp x l) (x :: l).
Proof.
  induction l as [|y l IH]; simpl.
  - reflexivity.
  - destruct (Qle_bool (cmp x y) 0).
    + reflexivity.
    + rewrite IH. apply perm_swap.
Qed.

Lemma sort_perm (l : list A) : Permutation (JS.sort cmp l) l.
Proof.
  induction l as [|x l IH]; simpl.
  - reflexivity.
  - rewrite insert_perm. now constructor.
Qed.

Lemma sort_length (l : list A) : length (JS.sort cmp l) = length l.
Proof. apply Permutation_length, sort_perm. Qed.

Lemma sort_elem x (l : list A) : x ∈ JS.sort cmp l <-> x ∈ l.
Proof. now rewrite (sort_perm l). Qed.

Local Abbreviation before := (JS.before cmp).

Hypothesis cmp_total : forall x y, ~ cmp x y <= 0 -> cmp y x <= 0.

Lemma insert_sorted x (l : list A) :
  Sorted before l -> Sorted before (JS.insert cmp x l).
Proof.
  induction l as [|y l IH]; intros Hs; simpl.
  - repeat constructor.
  - destruct (Qle_bool (cmp x y) 0) eqn:E.
    + apply Qle_bool_iff in E. constructor; [exact Hs | now constructor].
    + assert (Hyx : before y x).
      { apply cmp_total. intros H. apply Qle_bool_iff in H. congruence. }
      apply Sorted_inv in Hs as [Hs Hhd].
      constructor; [now apply IH|].
      destruct l as [|z l]; simpl.
      * now constructor.
      * destruct (Qle_bool (cmp x z) 0); constructor; [exact Hyx|].
        now inversion Hhd.
Qed.

Lemma sort_sorted (l : list A) : Sorted before (JS.sort cmp l).
Proof.
  induction l as [|x l IH]; simpl.
  - constructor.
  - now apply insert_sorted.
Qed.

End SortFacts.

(** ** The selectors of the application script are instances of one shape *)

Section SelectorShape.

Implicit Types (stops selected : list Stop.t) (I tol gap : Q).

Lemma selectOptimalStops_shape stops I dur days :
  App.selectOptimalStops stops I dur days
  = (JS.sort (Shape.byScore I) stops,
     Shape.select (I * 0.4) (I * 0.2) I (JS.sort (Shape.byScore I) stops) days).
Proof. reflexivity. Qed.

Lemma selectOvernightStops_shape stops I days :
  stops <> [] ->
  App.selectOvernightStops stops I days
  = (JS.sort (Shape.byScore I) stops,
     Shape.select (I * 0.5) (I * 0.3) I (JS.sort (Shape.byScore I) stops) days).
Proof. destruct stops; [congruence | reflexivity]. Qed.

Lemma selectOvernightStops_empty I days :
  App.selectOvernightStops [] I days = ([], []).
Proof. reflexivity. Qed.

Lemma selectOvernightStops2_shape stops I days :
  App2.selectOvernightStops stops I days
  = (JS.sort (Shape.byScore I) stops,
     Shape.select (I * 0.4) (I * 0.2) I (JS.sort (Shape.byScore I) stops) days).
Proof. reflexivity. Qed.

Lemma tripPlanner_selectOvernightStops_shape stops I days :
  TripPlanner.selectOvernightStops stops I days
  = (JS.sort (Shape.byScore I) stops,
     fold_left (Shape.pickBest I (JS.sort (Shape.byScore I) stops))
               (seq 1 (days - 1)) []).
Proof. reflexivity. Qed.

End SelectorShape.

(** ** Pairwise relations on lists *)

Section Pairwise.

Context {A : Type} (R : A -> A -> Prop).

Lemma pairwise_snoc (l : list A) x :
  Shape.pairwise R l -> Forall (fun y => R y x) l -> Shape.pairwise R (l ++ [x]).
Proof.
  induction l as [|y l IH]; simpl; intros Hp Hx.
  - split; constructor.
  - destruct Hp as [Hy Hp]. apply Forall_cons in Hx as [Hyx Hx].
    split; [|now apply IH].
    apply Forall_app. split; [exact Hy | now constructor].
Qed.

Lemma pairwise_lookup (l : list A) : forall i j a b,
  Shape.pairwise R l -> (i < j)%nat ->
  l !! i = Some a -> l !! j = Some b -> R a b.
Proof.
  induction l as [|x l IH]; intros i j a b Hp Hij Ha Hb.
  - discriminate.
  - destruct Hp as [Hx Hp]. destruct j as [|j]; [lia|].
    destruct i as [|i]; simpl in *.
    + injection Ha as <-. rewrite Forall_forall in Hx.
      apply Hx. eapply list_elem_of_lookup_2. exact Hb.
    + apply (IH i j); auto with arith.
Qed.

Hypothesis R_sym : forall x y, R x y -> R y x.

Lemma pairwise_perm (l l' : list A) :
  Permutation l l' -> Shape.pairwise R l -> Shape.pairwise R l'.
Proof.
  induction 1 as [|x l l' Hperm IH|x y l|l l' l'' _ IH1 _ IH2]; simpl.
  - auto.
  - intros [Hx Hp]. split; [|auto]. now rewrite <- Hperm.
  - intros [Hy [Hx Hp]]. apply Forall_cons in Hy as [Hyx Hy].
    repeat split; auto.
  - auto.
Qed.

Lemma pairwise_lookup_ne (l : list A) i j a b :
  Shape.pairwise R l -> i <> j ->
  l !! i = Some a -> l !! j = Some b -> R a b.
Proof.
  intros Hp Hij Ha Hb.
  destruct (Nat.lt_total i j) as [Hlt | [Heq | Hgt]]; [|contradiction|].
  - eapply pairwise_lookup; eauto.
  - apply R_sym. eapply pairwise_lookup; eauto.
Qed.

End Pairwise.

(** ** One day boundary of the selection *)

Section Pick.

Variables (tol gap I : Q) (stops : list Stop.t).

Implicit Types (selected : list Stop.t) (d : nat).

Lemma tooClose_false selected c :
  Shape.tooClose gap selected c = false ->
  Forall (fun s => Shape.apart gap s c) selected.
Proof.
  unfold Shape.tooClose, JS.some. intros H.
  apply Forall_forall. intros s Hs. apply list_elem_of_In in Hs.
  assert (Hlt : JS.lt (Qabs (Stop.distanceFromStart s - Stop.distanceFromStart c)) gap
                = false).
  { destruct (JS.lt _ _) eqn:E; [|reflexivity].
    assert (existsb (fun x : Stop.t =>
              JS.lt (Qabs (Stop.distanceFromStart x
                           - Stop.distanceFromStart c)) gap) selected = true)
      by (apply existsb_exists; eauto).
    congruence. }
  unfold JS.lt in Hlt. apply negb_false_iff, Qle_bool_iff in Hlt. exact Hlt.
Qed.

(** Either nothing is added, or a stop of the array that keeps the
    spacing. *)
Lemma pick_cases selected d :
  Shape.pick tol gap I stops selected d = selected
  \/ exists c, c ∈ stops /\ Shape.tooClose gap selected c = false
               /\ Shape.pick tol gap I stops selected d = selected ++ [c].
Proof.
  unfold Shape.pick, JS.filter, JS.find.
  destruct (List.filter _ stops) as [|c cs] eqn:F.
  - destruct (List.find _ stops) as [c|] eqn:G; [|now left].
    right. exists c. apply find_some in G as [Hin Hc].
    apply negb_true_iff in Hc. rewrite list_elem_of_In. auto.
  - right. exists c.
    assert (Hin : In c (List.filter
              (fun stop =>
                 JS.le (Qabs (Stop.distanceFromStart stop - I * JS.ofNat d)) tol
                 && negb (Shape.tooClose gap selected stop)) stops))
      by (rewrite F; now left).
    apply filter_In in Hin as [Hin Hc].
    apply andb_true_iff in Hc as [_ Hc]. apply negb_true_iff in Hc.
    rewrite list_elem_of_In. auto.
Qed.

(** With nothing selected yet, a non-empty array always yields a stop. *)
Lemma pick_first d :
  stops <> [] -> exists c, Shape.pick tol gap I stops [] d = [c].
Proof.
  intros Hne. unfold Shape.pick, JS.filter, JS.find.
  destruct (List.filter _ stops) as [|c cs]; [|now exists c].
  destruct stops as [|s rest]; [congruence|]. simpl. now exists s.
Qed.

Lemma pick_length selected d :
  (length selected <= length (Shape.pick tol gap I stops selected d)
   <= S (length selected))%nat.
Proof.
  destruct (pick_cases selected d) as [-> | (c & _ & _ & ->)].
  - lia.
  - rewrite length_app. simpl. lia.
Qed.

Lemma pick_elem selected d x :
  x ∈ Shape.pick tol gap I stops selected d -> x ∈ selected \/ x ∈ stops.
Proof.
  destruct (pick_cases selected d) as [-> | (c & Hc & _ & ->)]; [auto|].
  rewrite elem_of_app, list_elem_of_singleton. intros [H | ->]; auto.
Qed.

Lemma pick_apart selected d :
  Shape.pairwise (Shape.apart gap) selected ->
  Shape.pairwise (Shape.apart gap) (Shape.pick tol gap I stops selected d).
Proof.
  intros Hp. destruct (pick_cases selected d) as [-> | (c & _ & Hc & ->)]; [exact Hp|].
  apply pairwise_snoc; [exact Hp|]. now apply tooClose_false.
Qed.

(** The loop over the day boundaries. *)
Lemma picks_length ds : forall selected,
  (length selected
   <= length (fold_left (Shape.pick tol gap I stops) ds selected)
   <= length selected + length ds)%nat.
Proof.
  induction ds as [|d ds IH]; intros selected; simpl.
  - lia.
  - specialize (IH (Shape.pick tol gap I stops selected d)).
    pose proof (pick_length selected d). lia.
Qed.

Lemma picks_elem ds : forall selected x,
  x ∈ fold_left (Shape.pick tol gap I stops) ds selected ->
  x ∈ selected \/ x ∈ stops.
Proof.
  induction ds as [|d ds IH]; intros selected x; simpl.
  - auto.
  - intros H. apply IH in H as [H | H]; [|auto]. now apply pick_elem in H.
Qed.

Lemma picks_apart ds : forall selected,
  Shape.pairwise (Shape.apart gap) selected ->
  Shape.pairwise (Shape.apart gap) (fold_left (Shape.pick tol gap I stops) ds selected).
Proof.
  induction ds as [|d ds IH]; intros selected Hp; simpl.
  - exact Hp.
  - apply IH. now apply pick_apart.
Qed.

Lemma picks_nonempty ds :
  stops <> [] -> ds <> [] ->
  (1 <= length (fold_left (Shape.pick tol gap I stops) ds []))%nat.
Proof.
  intros Hs Hds. destruct ds as [|d ds]; [congruence|]. simpl.
  destruct (pick_first d Hs) as [c ->].
  pose proof (picks_length ds [c]). simpl in *. lia.
Qed.

End Pick.

(** ** One day boundary of the trip-planner module's selection *)

Section PickBest.

Variables (I : Q) (stops : list Stop.t).

Implicit Types (selected : list Stop.t) (d : nat).

Local Abbreviation eligible := (Shape.eligible I stops).
Local Abbreviation inOrderUpTo := (Shape.inOrderUpTo I).

Lemma bestStep_eligible selected target best c :
  c ∈ stops ->
  (forall b, fst best = Some b -> eligible selected target b) ->
  forall b, fst (Shape.bestStep I selected target best c) = Some b ->
            eligible selected target b.
Proof.
  intros Hc Hbest b. destruct best as [bestStop bestScore]. unfold Shape.bestStep.
  destruct (JS.gt _ _) eqn:G; [apply Hbest|].
  destruct (Shape.tooClose _ _ _) eqn:T; [apply Hbest|].
  destruct (JS.num_lt _ _); [|apply Hbest].
  simpl. intros [= <-]. repeat split; auto.
  unfold JS.gt in G. now apply negb_false_iff, Qle_bool_iff in G.
Qed.

Lemma scan_eligible selected target l : forall best,
  (forall x, x ∈ l -> x ∈ stops) ->
  (forall b, fst best = Some b -> eligible selected target b) ->
  forall b, fst (fold_left (Shape.bestStep I selected target) l best) = Some b ->
            eligible selected target b.
Proof.
  induction l as [|x l IH]; intros best Hl Hbest; simpl.
  - exact Hbest.
  - apply IH.
    + intros y Hy. apply Hl. now right.
    + apply bestStep_eligible; [apply Hl; left | exact Hbest].
Qed.

Lemma pickBest_cases selected d :
  Shape.pickBest I stops selected d = selected
  \/ exists c, eligible selected (I * JS.ofNat d) c
               /\ Shape.pickBest I stops selected d = selected ++ [c].
Proof.
  unfold Shape.pickBest.
  pose proof (scan_eligible selected (I * JS.ofNat d) stops (None, JS.PosInf)) as H.
  destruct (fold_left _ stops _) as [[c|] bestScore]; [|now left].
  right. exists c. split; [|reflexivity].
  apply H; auto. discriminate.
Qed.

Lemma pickBest_length selected d :
  (length (Shape.pickBest I stops selected d) <= S (length selected))%nat.
Proof.
  destruct (pickBest_cases selected d) as [-> | (c & _ & ->)].
  - lia.
  - rewrite length_app. simpl. lia.
Qed.

Lemma pickBest_elem selected d x :
  x ∈ Shape.pickBest I stops selected d -> x ∈ selected \/ x ∈ stops.
Proof.
  destruct (pickBest_cases selected d) as [-> | (c & (Hc & _) & ->)]; [auto|].
  rewrite elem_of_app, list_elem_of_singleton. intros [H | ->]; auto.
Qed.

Lemma pickBest_apart selected d :
  Shape.pairwise (Shape.apart (I * 0.3)) selected ->
  Shape.pairwise (Shape.apart (I * 0.3)) (Shape.pickBest I stops selected d).
Proof.
  intros Hp.
  destruct (pickBest_cases selected d) as [-> | (c & (_ & Hc & _) & ->)]; [exact Hp|].
  apply pairwise_snoc; [exact Hp|]. now apply tooClose_false.
Qed.

Lemma picksBest_length ds : forall selected,
  (length (fold_left (Shape.pickBest I stops) ds selected)
   <= length selected + length ds)%nat.
Proof.
  induction ds as [|d ds IH]; intros selected; simpl.
  - lia.
  - specialize (IH (Shape.pickBest I stops selected d)).
    pose proof (pickBest_length selected d). lia.
Qed.

Lemma picksBest_elem ds : forall selected x,
  x ∈ fold_left (Shape.pickBest I stops) ds selected ->
  x ∈ selected \/ x ∈ stops.
Proof.
  induction ds as [|d ds IH]; intros selected x; simpl.
  - auto.
  - intros H. apply IH in H as [H | H]; [|auto]. now apply pickBest_elem in H.
Qed.

Lemma picksBest_apart ds : forall selected,
  Shape.pairwise (Shape.apart (I * 0.3)) selected ->
  Shape.pairwise (Shape.apart (I * 0.3))
                 (fold_left (Shape.pickBest I stops) ds selected).
Proof.
  induction ds as [|d ds IH]; intros selected Hp; simpl.
  - exact Hp.
  - apply IH. now apply pickBest_apart.
Qed.

(** The stops come out in ascending order without a final sort. *)

Lemma Sorted_snoc (l : list Stop.t) c :
  Sorted Shape.ascending l ->
  (forall x, x ∈ l -> Shape.ascending x c) ->
  Sorted Shape.ascending (l ++ [c]).
Proof.
  induction l as [|x l IH]; simpl; intros Hs Hc.
  - repeat constructor.
  - apply Sorted_inv in Hs as [Hs Hhd]. constructor.
    + apply IH; [exact Hs|]. intros y Hy. apply Hc. now right.
    + destruct l as [|y l]; simpl.
      * constructor. apply Hc. left.
      * constructor. now inversion Hhd.
Qed.

Lemma ofNat_succ d : JS.ofNat (S d) == JS.ofNat d + 1.
Proof.
  unfold JS.ofNat. rewrite Nat2Z.inj_succ. unfold Z.succ.
  now rewrite inject_Z_plus.
Qed.

Lemma pickBest_inOrder selected d :
  inOrderUpTo d selected ->
  inOrderUpTo (S d) (Shape.pickBest I stops selected d).
Proof.
  intros (Hs & Hb & Hi).
  destruct (pickBest_cases selected d) as [-> | (c & (_ & _ & Hc) & ->)].
  - repeat split; auto.
    intros x Hx. assert (0 <= I) by (apply Hi; intros ->; inversion Hx).
    specialize (Hb x Hx). rewrite ofNat_succ. lra.
  - assert (HI : 0 <= I) by (pose proof (Qabs_nonneg
      (Stop.distanceFromStart c - I * JS.ofNat d)); lra).
    apply Qabs_Qle_condition in Hc as [Hlo Hhi].
    repeat split; auto.
    + apply Sorted_snoc; [exact Hs|]. intros x Hx. specialize (Hb x Hx).
      unfold Shape.ascending. lra.
    + intros x Hx. rewrite ofNat_succ.
      apply elem_of_app in Hx as [Hx | Hx].
      * specialize (Hb x Hx). lra.
      * apply list_elem_of_singleton in Hx as ->. lra.
Qed.

Lemma picksBest_inOrder n : forall d selected,
  inOrderUpTo d selected ->
  inOrderUpTo (d + n) (fold_left (Shape.pickBest I stops) (seq d n) selected).
Proof.
  induction n as [|n IH]; intros d selected H; simpl.
  - now rewrite Nat.add_0_r.
  - replace (d + S n)%nat with (S d + n)%nat by lia.
    apply IH. now apply pickBest_inOrder.
Qed.

End PickBest.

(** ** Overnight-stop selection: count, order, spacing, effect on the array *)

Section Selection.

Implicit Types (stops out : list Stop.t) (I : Q) (days : nat).

Lemma byScore_total I (x y : Stop.t) :
  ~ Shape.byScore I x y <= 0 -> Shape.byScore I y x <= 0.
Proof.
  unfold Shape.byScore. rewrite (Z.eqb_sym (Stop.accommodationScore y)).
  destruct (Z.eqb _ _); simpl; intros H.
  - lra.
  - unfold Qle, inject_Z in *. simpl in *. lia.
Qed.

Lemma byDistance_total (x y : Stop.t) :
  ~ Shape.byDistance x y <= 0 -> Shape.byDistance y x <= 0.
Proof. unfold Shape.byDistance. lra. Qed.

Lemma byDistance_sorted out :
  Sorted Shape.ascending (JS.sort Shape.byDistance out).
Proof.
  pose proof (sort_sorted Shape.byDistance byDistance_total out) as H.
  induction H as [|a l _ IH Hhd]; constructor; [exact IH|].
  destruct Hhd as [|b l Hab]; constructor.
  unfold JS.before, Shape.byDistance in Hab. unfold Shape.ascending. lra.
Qed.

Lemma apart_sym gap (a b : Stop.t) : Shape.apart gap a b -> Shape.apart gap b a.
Proof. unfold Shape.apart. now rewrite (Qabs_Qminus (Stop.distanceFromStart b)). Qed.

(** Stops that keep 30% of the ideal distance keep 20% of it. *)
Lemma apart_weaken I (a b : Stop.t) :
  Shape.apart (I * 0.3) a b -> Shape.apart (I * 0.2) a b.
Proof.
  unfold Shape.apart. intros H.
  pose proof (Qabs_nonneg (Stop.distanceFromStart a - Stop.distanceFromStart b)).
  destruct (Qlt_le_dec I 0); lra.
Qed.

Lemma pairwise_weaken {A} (R R' : A -> A -> Prop) (l : list A) :
  (forall x y, R x y -> R' x y) -> Shape.pairwise R l -> Shape.pairwise R' l.
Proof.
  intros HR. induction l as [|x l IH]; simpl; [auto|].
  intros [Hx Hp]. split; [|auto]. eapply Forall_impl; eauto.
Qed.

Lemma pairwise_spaced gap out :
  Shape.pairwise (Shape.apart gap) out -> Shape.spaced gap out.
Proof.
  intros Hp i j a b Hij Ha Hb.
  eapply (pairwise_lookup_ne (Shape.apart gap)); eauto using apart_sym.
Qed.

Lemma select_length tol gap I stops days :
  (length (Shape.select tol gap I stops days) <= days - 1)%nat.
Proof.
  unfold Shape.select. rewrite sort_length.
  pose proof (picks_length tol gap I stops (seq 1 (days - 1)) []) as H.
  rewrite length_seq in H. simpl in H. lia.
Qed.

Lemma select_nonempty tol gap I stops days :
  stops <> [] -> (2 <= days)%nat ->
  (1 <= length (Shape.select tol gap I stops days))%nat.
Proof.
  intros Hs Hd. unfold Shape.select. rewrite sort_length.
  apply picks_nonempty; [exact Hs|].
  destruct days as [|[|days]]; [lia | lia | simpl; discriminate].
Qed.

Lemma select_elem tol gap I stops days x :
  x ∈ Shape.select tol gap I stops days -> x ∈ stops.
Proof.
  unfold Shape.select. rewrite sort_elem. intros H.
  apply picks_elem in H as [H | H]; [inversion H | exact H].
Qed.

Lemma select_apart tol gap I stops days :
  Shape.pairwise (Shape.apart gap) (Shape.select tol gap I stops days).
Proof.
  unfold Shape.select.
  eapply pairwise_perm; [apply apart_sym | symmetry; apply sort_perm |].
  apply picks_apart. exact Logic.I.
Qed.

(** C1 (as amended).  The overnight selector of the application script
    returns at most [days - 1] stops, sorted ascending by
    [distanceFromStart], and at least one stop when the candidate array
    is non-empty and there are two days or more; the trip-planner
    module's selector returns at most [days - 1] stops in ascending
    order.  This holds for every ideal daily distance, [D / n] included. *)
Theorem selectOvernightStops_at_most_sorted stops I days :
  let out := snd (App.selectOvernightStops stops I days) in
  let out' := snd (TripPlanner.selectOvernightStops stops I days) in
  (length out <= days - 1)%nat
  /\ Sorted Shape.ascending out
  /\ (stops <> [] -> (2 <= days)%nat -> (1 <= length out)%nat)
  /\ (length out' <= days - 1)%nat
  /\ Sorted Shape.ascending out'.
Proof.
  cbv zeta. rewrite tripPlanner_selectOvernightStops_shape. cbn [snd].
  assert (Hui : Shape.inOrderUpTo I (1 + (days - 1))
            (fold_left (Shape.pickBest I (JS.sort (Shape.byScore I) stops))
                       (seq 1 (days - 1)) [])).
  { apply picksBest_inOrder. repeat split; [constructor | | congruence].
    intros x Hx. inversion Hx. }
  pose proof (picksBest_length I (JS.sort (Shape.byScore I) stops)
                (seq 1 (days - 1)) []) as Hlen.
  rewrite length_seq in Hlen. simpl in Hlen.
  assert (Happ :
    (length (snd (App.selectOvernightStops stops I days)) <= days - 1)%nat
    /\ Sorted Shape.ascending (snd (App.selectOvernightStops stops I days))
    /\ (stops <> [] -> (2 <= days)%nat ->
        (1 <= length (snd (App.selectOvernightStops stops I days)))%nat)).
  { destruct stops as [|s stops].
    - rewrite selectOvernightStops_empty. simpl.
      split; [lia|]. split; [constructor | congruence].
    - rewrite selectOvernightStops_shape by discriminate. cbn [snd].
      split; [apply select_length|].
      split; [apply byDistance_sorted|].
      intros _ Hd. apply select_nonempty; [|exact Hd].
      intros Hnil.
      pose proof (sort_length (Shape.byScore I) (s :: stops)) as HL.
      rewrite Hnil in HL. discriminate. }
  destruct Happ as (H1 & H2 & H3).
  split; [exact H1|]. split; [exact H2|]. split; [exact H3|].
  split; [exact Hlen | apply Hui].
Qed.

Lemma selectOvernightStops_at_most_sorted_witness :
  (1 <= length (snd (App.selectOvernightStops Samples.candidates (1000000 / 3) 3)))%nat.
Proof.
  apply (selectOvernightStops_at_most_sorted Samples.candidates (1000000 / 3) 3).
  - discriminate.
  - lia.
Defined.

(** C1 as stated fails: with a single candidate and three days the
    selector returns one stop, not two. *)
Lemma selectOvernightStops_count_counterexample :
  [Samples.overnightAt 300000 2] <> []
  /\ snd (App.selectOvernightStops [Samples.overnightAt 300000 2] (900000 / 3) 3)
     = [Samples.overnightAt 300000 2]
  /\ length (snd (App.selectOvernightStops
                    [Samples.overnightAt 300000 2] (900000 / 3) 3))
     <> (3 - 1)%nat.
Proof.
  split; [discriminate|]. split; [vm_compute; reflexivity|].
  vm_compute. discriminate.
Qed.

(** C2.  Any two stops at different positions of a selector's output lie
    at least [idealDailyDistance * 0.2] apart; this holds for the three
    selectors of the application script and for the trip-planner
    module's selector. *)
Theorem selected_stops_min_spacing stops I dur days :
  Shape.spaced (I * 0.2) (snd (App.selectOptimalStops stops I dur days))
  /\ Shape.spaced (I * 0.2) (snd (App.selectOvernightStops stops I days))
  /\ Shape.spaced (I * 0.2) (snd (App2.selectOvernightStops stops I days))
  /\ Shape.spaced (I * 0.2) (snd (TripPlanner.selectOvernightStops stops I days)).
Proof.
  rewrite selectOptimalStops_shape, selectOvernightStops2_shape,
    tripPlanner_selectOvernightStops_shape. cbn [snd].
  split; [apply pairwise_spaced, select_apart|].
  split; [|split; [apply pairwise_spaced, select_apart|]].
  - destruct stops as [|s stops].
    + rewrite selectOvernightStops_empty. intros i j a b _ Ha. discriminate.
    + rewrite selectOvernightStops_shape by discriminate. cbn [snd].
      apply pairwise_spaced.
      eapply pairwise_weaken; [apply apart_weaken | apply select_apart].
  - apply pairwise_spaced.
    eapply pairwise_weaken; [apply apart_weaken|].
    apply picksBest_apart. exact Logic.I.
Qed.

Lemma selected_stops_min_spacing_witness :
  (1000000 / 3) * 0.2
  <= Qabs (Stop.distanceFromStart (Samples.overnightAt 320000 2)
           - Stop.distanceFromStart (Samples.overnightAt 700000 5)).
Proof.
  pose proof (selected_stops_min_spacing Samples.candidates (1000000 / 3) 7 3)
    as (_ & H & _).
  apply (H 0%nat 1%nat); [lia | reflexivity | reflexivity].
Defined.

(** C10.  Each [selectOvernightStops] leaves the caller's array sorted by
    its comparator (more accommodations first, then closer to the ideal
    daily distance): the array after the call is the stable sort of the
    array before it, a permutation of it; and every returned stop is an
    element of that array. *)
Theorem selectOvernightStops_sorts_in_place stops I days :
  (fst (App.selectOvernightStops stops I days) = JS.sort (Shape.byScore I) stops
   /\ fst (App2.selectOvernightStops stops I days) = JS.sort (Shape.byScore I) stops
   /\ fst (TripPlanner.selectOvernightStops stops I days)
      = JS.sort (Shape.byScore I) stops)
  /\ Permutation (JS.sort (Shape.byScore I) stops) stops
  /\ Sorted (JS.before (Shape.byScore I)) (JS.sort (Shape.byScore I) stops)
  /\ (forall x, x ∈ snd (App.selectOvernightStops stops I days) -> x ∈ stops)
  /\ (forall x, x ∈ snd (App2.selectOvernightStops stops I days) -> x ∈ stops)
  /\ (forall x, x ∈ snd (TripPlanner.selectOvernightStops stops I days) -> x ∈ stops).
Proof.
  rewrite selectOvernightStops2_shape, tripPlanner_selectOvernightStops_shape.
  cbn [fst]. cbn [snd].
  assert (Happ : App.selectOvernightStops stops I days
                 = (JS.sort (Shape.byScore I) stops,
                    snd (App.selectOvernightStops stops I days))
                 /\ forall x, x ∈ snd (App.selectOvernightStops stops I days)
                              -> x ∈ stops).
  { destruct stops as [|s stops].
    - rewrite selectOvernightStops_empty. split; [reflexivity|]. simpl. auto.
    - rewrite selectOvernightStops_shape by discriminate. split; [reflexivity|].
      cbn [snd]. intros x Hx. apply select_elem in Hx.
      now apply sort_elem in Hx. }
  destruct Happ as [Hfst Hin].
  split; [repeat split; auto; now rewrite Hfst|].
  split; [apply sort_perm|].
  split; [apply sort_sorted, byScore_total|].
  split; [exact Hin|].
  split.
  - intros x Hx. apply select_elem in Hx. now apply sort_elem in Hx.
  - intros x Hx. apply picksBest_elem in Hx as [Hx | Hx]; [inversion Hx|].
    now apply sort_elem in Hx.
Qed.

Lemma selectOvernightStops_sorts_in_place_witness :
  fst (App.selectOvernightStops Samples.candidates (1000000 / 3) 3)
  <> Samples.candidates
  /\ Samples.overnightAt 700000 5 ∈ Samples.candidates.
Proof.
  pose proof (selectOvernightStops_sorts_in_place Samples.candidates (1000000 / 3) 3)
    as ((Hfst & _) & _ & _ & Hin & _).
  split.
  - rewrite Hfst. vm_compute. discriminate.
  - apply Hin. vm_compute. right. left.
Defined.

End Selection.

(** ** The activity budget of a day *)

Section DayBudget.

Variables (calculateDistance : Q -> Q -> Q -> Q -> Q) (services : Services.t).

Implicit Types (config : PaceConfig.t) (day : nat) (I : Q).

Lemma slice0_take {A} (e : Z) (l : list A) :
  (0 <= e)%Z -> JS.slice0 e l = take (Z.to_nat e) l.
Proof.
  intros He. unfold JS.slice0.
  destruct (Z.ltb_spec e 0); [lia | reflexivity].
Qed.

(** The days of the regular itinerary are the loop bodies of day 1 to
    day [days]. *)
Lemma createSmartItinerary_days route days overnightStops roadsideStops config :
  let I := Route.distance route / JS.ofNat days in
  let selected := snd (App.selectOvernightStops overnightStops I days) in
  selected <> [] ->
  Itinerary.days (App.createSmartItinerary calculateDistance services route days
                    overnightStops roadsideStops config)
  = map (App.planDay services selected roadsideStops config I) (seq 1 days).
Proof.
  cbv zeta. intros Hsel. unfold App.createSmartItinerary.
  destruct (snd (App.selectOvernightStops _ _ _)) as [|s sel] eqn:E;
    [congruence | reflexivity].
Qed.

Lemma sum_fold_left (l : list Q) : forall acc,
  fold_left Qplus l acc == acc + Series.sum l.
Proof.
  induction l as [|x l IH]; intros acc; simpl.
  - lra.
  - rewrite IH. lra.
Qed.

Lemma sum_app (l l' : list Q) : Series.sum (l ++ l') == Series.sum l + Series.sum l'.
Proof.
  induction l as [|x l IH]; simpl; [lra | rewrite IH; lra].
Qed.

Lemma stop_activity_sum (attractions : list Poi.t) : forall acc,
  fold_left (fun stopTotal attraction => stopTotal + App.timeEstimate attraction)
            attractions acc
  == acc + Series.sum (map App.timeEstimate attractions).
Proof.
  induction attractions as [|a l IH]; intros acc; simpl.
  - lra.
  - rewrite IH. lra.
Qed.

Lemma totalActivityTime_sum (stops : list Stop.t) :
  App.totalActivityTime stops
  == Series.sum (map App.timeEstimate (concat (map Stop.attractions stops))).
Proof.
  unfold App.totalActivityTime.
  assert (H : forall acc,
    fold_left (fun total stop =>
      total + fold_left (fun stopTotal attraction =>
                stopTotal + App.timeEstimate attraction) (Stop.attractions stop) 0)
      stops acc
    == acc + Series.sum (map App.timeEstimate (concat (map Stop.attractions stops)))).
  { induction stops as [|s stops IH]; intros acc; simpl.
    - lra.
    - rewrite IH, stop_activity_sum, map_app, sum_app. lra. }
  rewrite H. lra.
Qed.

End DayBudget.

(** ** The POI scout *)

Section Scouting.

Variables (services : Services.t) (lat lon : Q) (limit : Z).

Implicit Types (pois : list Poi.t) (preferences : list string).

Local Abbreviation found := (Scout.found services lat lon limit).

Lemma search_step (r : Q) (radii : list Q) :
  (found r = true ->
   fst (App2.fetchPoisSimple_search services lat lon limit (r :: radii) []) = [r]
   /\ snd (App2.fetchPoisSimple_search services lat lon limit (r :: radii) []) <> [])
  /\ (found r = false ->
      App2.fetchPoisSimple_search services lat lon limit (r :: radii) []
      = let '(searched, pois) :=
          App2.fetchPoisSimple_search services lat lon limit radii [] in
        (r :: searched, pois)).
Proof.
  simpl. unfold Scout.found.
  destruct (Services.fetchWikipediaAttractions services lat lon r limit)
    as [[|w ws]|];
  destruct (Services.fetchOverpassAttractions services lat lon r limit)
    as [[|o os]|]; simpl;
  (split; intros H; try discriminate H; try reflexivity);
  (split; [reflexivity | discriminate]).
Qed.

(** The escalation searches the radii up to the first one with a
    non-empty answer, and ends with an empty list exactly when no radius
    had one. *)
Lemma search_tried (radii : list Q) :
  fst (App2.fetchPoisSimple_search services lat lon limit radii [])
  = Scout.tried found radii
  /\ (snd (App2.fetchPoisSimple_search services lat lon limit radii []) = []
      <-> forall r, r ∈ radii -> found r = false).
Proof.
  induction radii as [|r radii [IH1 IH2]].
  - simpl. split; [reflexivity|]. split; [|reflexivity].
    intros _ r Hr. inversion Hr.
  - destruct (search_step r radii) as [Hyes Hno].
    cbn [Scout.tried]. destruct (found r) eqn:F.
    + destruct (Hyes eq_refl) as [Hfst Hsnd]. split; [exact Hfst|].
      split; [contradiction|].
      intros H. specialize (H r (list_elem_of_here _ _)). congruence.
    + rewrite (Hno eq_refl).
      destruct (App2.fetchPoisSimple_search services lat lon limit radii [])
        as [searched pois]. cbn [fst snd] in *.
      split; [now rewrite IH1|].
      rewrite IH2. split.
      * intros H x Hx. apply elem_of_cons in Hx as [-> | Hx]; [exact F | now apply H].
      * intros H x Hx. apply H. now right.
Qed.

Lemma collect_spec :
  fst (App2.fetchPoisSimple_collect services lat lon limit)
  = Scout.tried found App2.searchRadii
  /\ snd (App2.fetchPoisSimple_collect services lat lon limit) <> []
  /\ ((forall r, r ∈ App2.searchRadii -> found r = false) ->
      snd (App2.fetchPoisSimple_collect services lat lon limit)
      = App.createGenericPois (Services.random services) lat lon).
Proof.
  unfold App2.fetchPoisSimple_collect.
  destruct (search_tried App2.searchRadii) as [Hfst Hsnd].
  destruct (App2.fetchPoisSimple_search services lat lon limit App2.searchRadii [])
    as [searched pois]. cbn [fst snd] in *.
  split; [exact Hfst|]. split.
  - destruct pois; simpl; discriminate.
  - intros Hnone. apply Hsnd in Hnone. subst pois. reflexivity.
Qed.

Lemma filter_stage_elem pois preferences p :
  p ∈ App2.fetchPoisSimple_filter pois preferences -> p ∈ pois.
Proof.
  unfold App2.fetchPoisSimple_filter, App2.preferenceFilter, JS.filter.
  destruct (Nat.ltb 0 (length preferences)); [|auto].
  destruct (Nat.eqb _ 0); [auto|].
  rewrite !list_elem_of_In. intros H. now apply filter_In in H.
Qed.

Lemma filter_stage_nonempty pois preferences :
  pois <> [] -> App2.fetchPoisSimple_filter pois preferences <> [].
Proof.
  intros Hne. unfold App2.fetchPoisSimple_filter.
  destruct (Nat.ltb 0 (length preferences)); [|exact Hne].
  destruct (App2.preferenceFilter pois preferences) eqn:E; simpl;
    [exact Hne | discriminate].
Qed.

(** Fail-open: when the filter leaves nothing, the unfiltered list goes
    on. *)
Lemma filter_stage_waived pois preferences :
  App2.preferenceFilter pois preferences = [] ->
  App2.fetchPoisSimple_filter pois preferences = pois.
Proof.
  intros H. unfold App2.fetchPoisSimple_filter. rewrite H. simpl.
  now destruct (Nat.ltb 0 (length preferences)).
Qed.

Lemma filter_stage_no_preferences pois : App2.fetchPoisSimple_filter pois [] = pois.
Proof. reflexivity. Qed.

Lemma dedup_nonempty pois : pois <> [] -> App2.removeDuplicatePois pois <> [].
Proof.
  destruct pois as [|p pois]; [congruence|]. intros _.
  unfold App2.removeDuplicatePois. simpl. discriminate.
Qed.

Lemma dedup_elem pois p : p ∈ App2.removeDuplicatePois pois -> p ∈ pois.
Proof.
  intros H. eapply elem_of_sublist; [exact H|]. apply dedup_filter_sublist.
Qed.

Lemma slice0_sublist {A} (e : Z) (l : list A) : sublist (JS.slice0 e l) l.
Proof. unfold JS.slice0. destruct (Z.ltb e 0); apply sublist_take. Qed.

Lemma slice0_elem {A} (e : Z) (l : list A) x : x ∈ JS.slice0 e l -> x ∈ l.
Proof.
  unfold JS.slice0. destruct (Z.ltb e 0); intros H;
    (eapply elem_of_sublist; [exact H | apply sublist_take]).
Qed.

Lemma slice0_nonempty {A} (e : Z) (l : list A) :
  (1 <= e)%Z -> l <> [] -> JS.slice0 e l <> [].
Proof.
  intros He Hl. rewrite slice0_take by lia.
  destruct l as [|x l]; [congruence|].
  destruct (Z.to_nat e) as [|n] eqn:E; [lia | discriminate].
Qed.

Lemma slice0_all {A} (e : Z) (l : list A) :
  (Z.of_nat (length l) <= e)%Z -> JS.slice0 e l = l.
Proof.
  intros He. rewrite slice0_take by lia. apply take_ge. lia.
Qed.

Lemma generic_sources (random : nat -> Q) p :
  p ∈ App.createGenericPois random lat lon -> Poi.source p = "generic"%string.
Proof.
  unfold App.createGenericPois. intros H.
  repeat (apply elem_of_cons in H as [-> | H]; [reflexivity|]).
  inversion H.
Qed.

(** The three generic placeholders have different titles. *)
Lemma dedup_generic (random : nat -> Q) :
  App2.removeDuplicatePois (App.createGenericPois random lat lon)
  = App.createGenericPois random lat lon.
Proof. vm_compute. reflexivity. Qed.

Lemma tripPlanner_fetch_is_app_fetch radiusMeters preferences :
  TripPlanner.fetchPoisSimple services lat lon radiusMeters limit preferences
  = App2.fetchPoisSimple services lat lon radiusMeters limit preferences.
Proof.
  unfold TripPlanner.fetchPoisSimple, App2.fetchPoisSimple.
  destruct (App2.fetchPoisSimple_collect services lat lon limit) as [searched pois].
  now rewrite utils_dedup_is_app_dedup.
Qed.

Lemma fetch_unfold radiusMeters preferences :
  App2.fetchPoisSimple services lat lon radiusMeters limit preferences
  = (fst (App2.fetchPoisSimple_collect services lat lon limit),
     JS.slice0 limit
       (App2.removeDuplicatePois
          (App2.fetchPoisSimple_filter
             (snd (App2.fetchPoisSimple_collect services lat lon limit))
             preferences))).
Proof.
  unfold App2.fetchPoisSimple.
  now destruct (App2.fetchPoisSimple_collect services lat lon limit).
Qed.

(** C3 (as amended).  Whatever radius is requested, the scout searches
    16 km, then 32 km, then 48 km, and stops at the first of them for
    which a provider answers a non-empty list.  When all three come up
    empty from both providers every returned POI is one of the three
    generic placeholders, tagged with the source "generic" (all three of
    them when no preference is set and the limit is at least three).
    With a limit of at least one the result is never empty.  The
    trip-planner module's scout returns the same. *)
Theorem scout_escalates_then_generic radiusMeters preferences :
  let run := App2.fetchPoisSimple services lat lon radiusMeters limit preferences in
  fst run = Scout.tried found [16000; 16000 * 2; 16000 * 3]
  /\ ((1 <= limit)%Z -> snd run <> [])
  /\ ((forall r, r ∈ App2.searchRadii -> found r = false) ->
      fst run = [16000; 16000 * 2; 16000 * 3]
      /\ (forall p, p ∈ snd run ->
            p ∈ App.createGenericPois (Services.random services) lat lon
            /\ Poi.source p = "generic"%string)
      /\ (preferences = [] -> (3 <= limit)%Z ->
          snd run = App.createGenericPois (Services.random services) lat lon))
  /\ TripPlanner.fetchPoisSimple services lat lon radiusMeters limit preferences = run.
Proof.
  cbv zeta. rewrite tripPlanner_fetch_is_app_fetch, fetch_unfold. cbn [fst snd].
  destruct collect_spec as (Hfst & Hne & Hgen).
  split; [exact Hfst|]. split; [|split; [|reflexivity]].
  - intros Hlimit.
    apply slice0_nonempty, dedup_nonempty, filter_stage_nonempty; assumption.
  - intros Hnone. specialize (Hgen Hnone). split; [|split].
    + rewrite Hfst. unfold App2.searchRadii, App2.targetRadius. simpl.
      rewrite !Hnone; [reflexivity | ..]; unfold App2.searchRadii, App2.targetRadius;
        set_solver.
    + intros p Hp. apply slice0_elem, dedup_elem, filter_stage_elem in Hp.
      rewrite Hgen in Hp. split; [exact Hp | now apply generic_sources in Hp].
    + intros -> Hlimit. rewrite filter_stage_no_preferences, Hgen, dedup_generic.
      rewrite slice0_all; [reflexivity | simpl; lia].
Qed.

(** C4 (as amended).  The list the scout filters is never empty; when
    the preference filter would leave none of its POIs, the list goes on
    unfiltered.  The scout then returns the first [limit] entries of the
    deduplicated unfiltered list, in the order in which the providers
    delivered them (nothing is ranked): the whole deduplicated list when
    the limit allows, never an empty list for a limit of at least one,
    and exactly what it returns without preferences. *)
Theorem preference_filter_fails_open radiusMeters preferences :
  let pois := snd (App2.fetchPoisSimple_collect services lat lon limit) in
  let result :=
    snd (App2.fetchPoisSimple services lat lon radiusMeters limit preferences) in
  pois <> []
  /\ (preferences <> [] -> App2.preferenceFilter pois preferences = [] ->
      App2.fetchPoisSimple_filter pois preferences = pois
      /\ result = JS.slice0 limit (App2.removeDuplicatePois pois)
      /\ sublist result pois
      /\ ((Z.of_nat (length (App2.removeDuplicatePois pois)) <= limit)%Z ->
          result = App2.removeDuplicatePois pois)
      /\ ((1 <= limit)%Z -> result <> [])
      /\ App2.fetchPoisSimple services lat lon radiusMeters limit preferences
         = App2.fetchPoisSimple services lat lon radiusMeters limit []
      /\ TripPlanner.fetchPoisSimple services lat lon radiusMeters limit preferences
         = TripPlanner.fetchPoisSimple services lat lon radiusMeters limit [])
  /\ (forall input, input <> [] -> App2.preferenceFilter input preferences = [] ->
        App2.fetchPoisSimple_filter input preferences = input)
  /\ (forall input, input <> [] -> App2.fetchPoisSimple_filter input preferences <> []).
Proof.
  cbv zeta. destruct collect_spec as (_ & Hne & _).
  split; [exact Hne|]. split; [|split].
  - intros _ Hnone. rewrite !tripPlanner_fetch_is_app_fetch, !fetch_unfold.
    cbn [snd]. rewrite (filter_stage_waived _ _ Hnone), filter_stage_no_preferences.
    split; [reflexivity|]. split; [reflexivity|]. split; [|split; [|split]].
    + etransitivity; [apply slice0_sublist | apply dedup_filter_sublist].
    + intros Hall. now apply slice0_all.
    + intros Hlimit. apply slice0_nonempty; [exact Hlimit|].
      apply dedup_nonempty, Hne.
    + split; reflexivity.
  - intros input _ Hnone. now apply filter_stage_waived.
  - intros input. apply filter_stage_nonempty.
Qed.

End Scouting.

Lemma scout_escalates_then_generic_witness :
  fst (App2.fetchPoisSimple Samples.offline 48 16 20000 4 []) = [16000; 16000 * 2; 16000 * 3]
  /\ snd (App2.fetchPoisSimple Samples.offline 48 16 20000 4 [])
     = App.createGenericPois (Services.random Samples.offline) 48 16
  /\ snd (App2.fetchPoisSimple Samples.online 48 16 20000 4 []) <> [].
Proof.
  pose proof (scout_escalates_then_generic Samples.offline 48 16 4 20000 [])
    as (_ & _ & Hnone & _).
  pose proof (scout_escalates_then_generic Samples.online 48 16 4 20000 [])
    as (_ & Hsome & _).
  destruct Hnone as (Hfst & _ & Hall).
  - intros r _. reflexivity.
  - split; [exact Hfst|]. split; [apply Hall; [reflexivity | lia] | apply Hsome; lia].
Defined.

(** C3 as stated fails: asked for 20 km the scout first searches 16 km,
    not 20 km, and goes on to 32 km and 48 km, not 40 km and 60 km; and
    with a limit of zero its result is empty. *)
Lemma scout_radius_counterexample :
  let R := 20000 in
  exists r1 r2 r3,
    fst (App2.fetchPoisSimple Samples.offline 48 16 R 4 []) = [r1; r2; r3]
    /\ r1 == 16000 /\ ~ r1 == R
    /\ r2 == 32000 /\ ~ r2 == 2 * R
    /\ r3 == 48000 /\ ~ r3 == 3 * R
    /\ snd (App2.fetchPoisSimple Samples.offline 48 16 R 0 []) = [].
Proof.
  cbv zeta. eexists _, _, _. split; [vm_compute; reflexivity|].
  repeat split; try reflexivity; try (vm_compute; discriminate).
Qed.

Lemma preference_filter_fails_open_witness :
  snd (App2.fetchPoisSimple Samples.online 48 16 20000 4 ["adventure"%string])
  = [Samples.city_museum_a]
  /\ App2.fetchPoisSimple Samples.online 48 16 20000 4 ["adventure"%string]
     = App2.fetchPoisSimple Samples.online 48 16 20000 4 [].
Proof.
  pose proof (preference_filter_fails_open Samples.online 48 16 4 20000
                ["adventure"%string]) as (_ & Hwaived & _).
  destruct Hwaived as (_ & Hsnd & _ & _ & _ & Hsame & _).
  - discriminate.
  - vm_compute. reflexivity.
  - split; [rewrite Hsnd; vm_compute; reflexivity | exact Hsame].
Defined.

(** C4 as stated fails: the list returned after the filter is waived is
    neither ranked nor the whole unfiltered input.  A park from the
    encyclopedia and a museum from the map database, neither matching
    the preference: the scout returns them park first, where the ranking
    of [filterAndRankPois] puts the museum first; and with a limit of
    one it returns the park alone. *)
Lemma preference_filter_unranked_counterexample :
  let preferences := ["adventure"%string] in
  let pois := snd (App2.fetchPoisSimple_collect Samples.guide 48 16 4) in
  let ranked :=
    map Ranked.poi
        (App.filterAndRankPois (map (fun poi => Ranked.mk poi false) pois) 48 16
                               preferences) in
  pois = [Samples.river_park; Samples.town_museum]
  /\ App2.preferenceFilter pois preferences = []
  /\ ranked = [Samples.town_museum; Samples.river_park]
  /\ snd (App2.fetchPoisSimple Samples.guide 48 16 20000 4 preferences)
     = [Samples.river_park; Samples.town_museum]
  /\ snd (App2.fetchPoisSimple Samples.guide 48 16 20000 4 preferences) <> ranked
  /\ snd (App2.fetchPoisSimple_collect Samples.guide 48 16 1)
     = [Samples.river_park; Samples.town_museum]
  /\ snd (App2.fetchPoisSimple Samples.guide 48 16 20000 1 preferences)
     = [Samples.river_park]
  /\ snd (TripPlanner.fetchPoisSimple Samples.guide 48 16 20000 1 preferences)
     = [Samples.river_park].
Proof.
  cbv zeta. repeat split; try (vm_compute; reflexivity).
  vm_compute. discriminate.
Qed.

(** ** Points on the route *)

Section RouteGeometry.

Variable calculateDistance : Q -> Q -> Q -> Q -> Q.

Local Abbreviation segments := (Polyline.segments calculateDistance).
Local Abbreviation cumulative := (Polyline.cumulative calculateDistance).
Local Abbreviation total := (Polyline.total calculateDistance).
Local Abbreviation find_from := (App.findClosestPointOnRoute_from calculateDistance).

Implicit Types (coords : list (Q * Q)) (t cur : Q) (i : nat).

(** The utility module's function returns the same point, without the
    segment index. *)
Lemma utils_closest_from coords : forall t cur i,
  Utils.findClosestPointOnRoute_from calculateDistance coords t cur
  = option_map (fun c => Point.mk (Candidate.lat c) (Candidate.lon c)
                                  (Candidate.distanceFromStart c))
               (find_from coords t cur i).
Proof.
  induction coords as [|[lon1 lat1] coords IH]; intros t cur i; [reflexivity|].
  destruct coords as [|[lon2 lat2] rest]; [reflexivity|].
  cbn [Utils.findClosestPointOnRoute_from App.findClosestPointOnRoute_from].
  destruct (JS.ge _ _); [reflexivity | apply IH].
Qed.

Lemma sum_cons (x : Q) (l : list Q) : Series.sum (x :: l) = x + Series.sum l.
Proof. reflexivity. Qed.

Lemma sum_nonneg (l : list Q) : Forall (fun d => 0 <= d) l -> 0 <= Series.sum l.
Proof.
  induction 1 as [|x l Hx _ IHl]; [apply Qle_refl|].
  rewrite sum_cons. lra.
Qed.

(** Where the loop stops: at the first segment whose end lies at or
    beyond the target. *)
Lemma closest_from_stop coords : forall t cur i p,
  find_from coords t cur i = Some p ->
  exists k lon1 lat1 lon2 lat2,
    coords !! k = Some (lon1, lat1) /\ coords !! S k = Some (lon2, lat2)
    /\ Candidate.index p = (i + k)%nat
    /\ (forall j, (j < k)%nat -> fold_left Qplus (take (S j) (segments coords)) cur < t)
    /\ t <= fold_left Qplus (take k (segments coords)) cur
            + calculateDistance lat1 lon1 lat2 lon2
    /\ Candidate.distanceFromStart p = t
    /\ Candidate.lat p
       = JS.lerp lat1 lat2
           (JS.div (t - fold_left Qplus (take k (segments coords)) cur)
                   (calculateDistance lat1 lon1 lat2 lon2))
    /\ Candidate.lon p
       = JS.lerp lon1 lon2
           (JS.div (t - fold_left Qplus (take k (segments coords)) cur)
                   (calculateDistance lat1 lon1 lat2 lon2)).
Proof.
  induction coords as [|[lon1 lat1] coords IH]; intros t cur i p; [discriminate|].
  destruct coords as [|[lon2 lat2] rest]; [discriminate|].
  cbn [App.findClosestPointOnRoute_from].
  destruct (JS.ge _ _) eqn:G.
  - intros [= <-]. exists 0%nat, lon1, lat1, lon2, lat2.
    unfold JS.ge in G. apply Qle_bool_iff in G.
    repeat split; try reflexivity; simpl; auto with arith.
    intros j Hj. lia.
  - intros H. apply IH in H
      as (k & lo1 & la1 & lo2 & la2 & Hk & HSk & Hidx & Hbefore & Hstop & Hd & Hlat & Hlon).
    exists (S k), lo1, la1, lo2, la2.
    change (segments ((lon1, lat1) :: (lon2, lat2) :: rest))
      with (calculateDistance lat1 lon1 lat2 lon2 :: segments ((lon2, lat2) :: rest)).
    cbn [take fold_left].
    repeat split; auto.
    + rewrite Hidx. lia.
    + intros [|j] Hj.
      * cbn [take fold_left]. unfold JS.ge in G.
        destruct (Qlt_le_dec (cur + calculateDistance lat1 lon1 lat2 lon2) t) as [|Hle];
          [assumption|].
        apply Qle_bool_iff in Hle. congruence.
      * apply (Hbefore j). lia.
Qed.

Lemma closest_from_beyond coords : forall t cur i,
  Forall (fun d => 0 <= d) (segments coords) ->
  cur + Series.sum (segments coords) < t ->
  find_from coords t cur i = None.
Proof.
  induction coords as [|[lon1 lat1] coords IH]; intros t cur i Hpos Ht; [reflexivity|].
  destruct coords as [|[lon2 lat2] rest]; [reflexivity|].
  cbn [App.findClosestPointOnRoute_from].
  change (segments ((lon1, lat1) :: (lon2, lat2) :: rest))
    with (calculateDistance lat1 lon1 lat2 lon2 :: segments ((lon2, lat2) :: rest))
    in Hpos, Ht.
  apply Forall_cons in Hpos as [Hd Hpos]. rewrite sum_cons in Ht.
  pose proof (sum_nonneg _ Hpos) as Hrest.
  destruct (JS.ge _ _) eqn:G.
  - unfold JS.ge in G. apply Qle_bool_iff in G. lra.
  - apply IH; [exact Hpos|]. lra.
Qed.

Lemma closest_from_within coords : forall t cur i,
  (2 <= length coords)%nat ->
  t <= cur + Series.sum (segments coords) ->
  exists p, find_from coords t cur i = Some p.
Proof.
  induction coords as [|[lon1 lat1] coords IH]; intros t cur i Hlen Ht;
    [simpl in Hlen; lia|].
  destruct coords as [|[lon2 lat2] rest]; [simpl in Hlen; lia|].
  cbn [App.findClosestPointOnRoute_from].
  change (segments ((lon1, lat1) :: (lon2, lat2) :: rest))
    with (calculateDistance lat1 lon1 lat2 lon2 :: segments ((lon2, lat2) :: rest))
    in Ht.
  rewrite sum_cons in Ht.
  destruct (JS.ge _ _) eqn:G; [eauto|].
  destruct rest as [|c rest].
  - exfalso. destruct (Qlt_le_dec (cur + calculateDistance lat1 lon1 lat2 lon2) t)
      as [Hlt|Hle].
    + simpl in Ht. lra.
    + unfold JS.ge in G. apply Qle_bool_iff in Hle. congruence.
  - apply IH; [simpl; lia|]. lra.
Qed.

(** At the exact length of a polyline without degenerate segments the
    loop stops on the last segment, at its far end. *)
Lemma closest_from_end coords : forall t cur i,
  (2 <= length coords)%nat ->
  Forall (fun d => 0 < d) (segments coords) ->
  t == cur + Series.sum (segments coords) ->
  exists p lonN latN,
    last coords = Some (lonN, latN)
    /\ find_from coords t cur i = Some p
    /\ Polyline.finite_eq (Candidate.lat p) latN
    /\ Polyline.finite_eq (Candidate.lon p) lonN
    /\ Candidate.index p = (i + (length coords - 2))%nat.
Proof.
  induction coords as [|[lon1 lat1] coords IH]; intros t cur i Hlen Hpos Ht;
    [simpl in Hlen; lia|].
  destruct coords as [|[lon2 lat2] rest]; [simpl in Hlen; lia|].
  cbn [App.findClosestPointOnRoute_from].
  change (segments ((lon1, lat1) :: (lon2, lat2) :: rest))
    with (calculateDistance lat1 lon1 lat2 lon2 :: segments ((lon2, lat2) :: rest))
    in Hpos, Ht.
  apply Forall_cons in Hpos as [Hd Hpos]. rewrite sum_cons in Ht.
  destruct rest as [|c rest].
  - simpl in Ht.
    assert (G : JS.ge (cur + calculateDistance lat1 lon1 lat2 lon2) t = true)
      by (unfold JS.ge; apply Qle_bool_iff; lra).
    rewrite G. eexists _, lon2, lat2. split; [reflexivity|]. split; [reflexivity|].
    cbn [Candidate.lat Candidate.lon Candidate.index]. unfold JS.div.
    assert (Hz : Qeq_bool (calculateDistance lat1 lon1 lat2 lon2) 0 = false).
    { destruct (Qeq_bool _ 0) eqn:E; [|reflexivity].
      apply Qeq_bool_iff in E. lra. }
    rewrite Hz. simpl.
    assert (Hr : (t - cur) / calculateDistance lat1 lon1 lat2 lon2 == 1).
    { apply Qeq_bool_neq in Hz. field_simplify_eq; [lra | exact Hz]. }
    repeat split; try (rewrite Hr; ring). lia.
  - assert (Hrest : 0 < Series.sum (segments ((lon2, lat2) :: c :: rest))).
    { destruct c as [lon3 lat3].
      change (segments ((lon2, lat2) :: (lon3, lat3) :: rest))
        with (calculateDistance lat2 lon2 lat3 lon3 :: segments ((lon3, lat3) :: rest))
        in *.
      apply Forall_cons in Hpos as [Hd2 Hpos]. rewrite sum_cons.
      assert (0 <= Series.sum (segments ((lon3, lat3) :: rest))).
      { apply sum_nonneg. eapply Forall_impl; [exact Hpos|].
        intros x Hx. simpl in Hx. lra. }
      lra. }
    assert (G : JS.ge (cur + calculateDistance lat1 lon1 lat2 lon2) t = false).
    { unfold JS.ge. destruct (Qle_bool _ _) eqn:E; [|reflexivity].
      apply Qle_bool_iff in E. lra. }
    rewrite G.
    destruct (IH t (cur + calculateDistance lat1 lon1 lat2 lon2) (S i))
      as (p & lonN & latN & Hlast & Hfind & Hlat & Hlon & Hidx).
    + simpl. lia.
    + exact Hpos.
    + lra.
    + exists p, lonN, latN. repeat split; auto.
      rewrite Hidx. simpl. lia.
Qed.

Lemma total_sum coords : total coords == Series.sum (segments coords).
Proof. unfold Polyline.total. rewrite sum_fold_left. lra. Qed.

Lemma lerp_finite (x y r d : Q) :
  ~ d == 0 -> JS.lerp x y (JS.div r d) = JS.Finite (x + (y - x) * (r / d)).
Proof.
  intros Hd. unfold JS.div.
  destruct (Qeq_bool d 0) eqn:E; [|reflexivity].
  apply Qeq_bool_iff in E. contradiction.
Qed.

(** C6 (as amended).  On a polyline of at least two vertices:
    interpolating at [t = 0] returns the first vertex when the first
    segment is not degenerate; interpolating at the length of the
    polyline (the sum of its segment distances) returns the last vertex
    when no segment is degenerate; beyond that length there is no point
    ([null]); up to it there is one.  A returned point lies on the first
    segment [i] with [t <= cumulative[i] + d_i], and for [d_i <> 0] it is
    [lat1 + (lat2 - lat1) * ratio], [lon1 + (lon2 - lon1) * ratio] with
    [ratio = (t - cumulative[i]) / d_i].  The utility module's function
    returns the same point without the segment index. *)
Theorem closest_point_interpolates coords t :
  let find := App.findClosestPointOnRoute calculateDistance coords in
  Utils.findClosestPointOnRoute calculateDistance coords t
  = option_map (fun c => Point.mk (Candidate.lat c) (Candidate.lon c)
                                  (Candidate.distanceFromStart c)) (find t)
  /\ (forall lon1 lat1 lon2 lat2 rest,
        coords = (lon1, lat1) :: (lon2, lat2) :: rest ->
        0 < calculateDistance lat1 lon1 lat2 lon2 ->
        exists p, find 0 = Some p
                  /\ Polyline.finite_eq (Candidate.lat p) lat1
                  /\ Polyline.finite_eq (Candidate.lon p) lon1
                  /\ Candidate.index p = 0%nat)
  /\ ((2 <= length coords)%nat -> Forall (fun d => 0 < d) (segments coords) ->
      t == total coords ->
      exists p lonN latN,
        last coords = Some (lonN, latN) /\ find t = Some p
        /\ Polyline.finite_eq (Candidate.lat p) latN
        /\ Polyline.finite_eq (Candidate.lon p) lonN
        /\ Candidate.index p = (length coords - 2)%nat)
  /\ (Forall (fun d => 0 <= d) (segments coords) -> total coords < t -> find t = None)
  /\ ((2 <= length coords)%nat -> t <= total coords -> exists p, find t = Some p)
  /\ (forall p, find t = Some p ->
        exists i lon1 lat1 lon2 lat2,
          coords !! i = Some (lon1, lat1) /\ coords !! S i = Some (lon2, lat2)
          /\ Candidate.index p = i
          /\ (forall j, (j < i)%nat -> cumulative coords (S j) < t)
          /\ t <= cumulative coords i + calculateDistance lat1 lon1 lat2 lon2
          /\ Candidate.distanceFromStart p = t
          /\ (~ calculateDistance lat1 lon1 lat2 lon2 == 0 ->
              let ratio := (t - cumulative coords i)
                           / calculateDistance lat1 lon1 lat2 lon2 in
              Candidate.lat p = JS.Finite (lat1 + (lat2 - lat1) * ratio)
              /\ Candidate.lon p = JS.Finite (lon1 + (lon2 - lon1) * ratio))).
Proof.
  cbv zeta. unfold App.findClosestPointOnRoute, Utils.findClosestPointOnRoute.
  split; [apply utils_closest_from|].
  split; [|split; [|split; [|split]]].
  - intros lon1 lat1 lon2 lat2 rest -> Hd.
    cbn [App.findClosestPointOnRoute_from].
    assert (G : JS.ge (0 + calculateDistance lat1 lon1 lat2 lon2) 0 = true)
      by (unfold JS.ge; apply Qle_bool_iff; lra).
    rewrite G. eexists. split; [reflexivity|].
    cbn [Candidate.lat Candidate.lon Candidate.index].
    rewrite !lerp_finite by lra. simpl.
    repeat split; unfold Qdiv; ring.
  - intros Hlen Hpos Ht.
    destruct (closest_from_end coords t 0 0 Hlen Hpos)
      as (p & lonN & latN & H); [rewrite Ht, total_sum; lra|].
    exists p, lonN, latN. exact H.
  - intros Hpos Ht. apply closest_from_beyond; [exact Hpos|].
    rewrite <- total_sum. lra.
  - intros Hlen Ht. apply closest_from_within; [exact Hlen|].
    rewrite <- total_sum. lra.
  - intros p Hp. apply closest_from_stop in Hp
      as (k & lon1 & lat1 & lon2 & lat2 & Hk & HSk & Hidx & Hbefore & Hstop & Hd
          & Hlat & Hlon).
    exists k, lon1, lat1, lon2, lat2. repeat split; auto.
    + now rewrite Hlat, lerp_finite.
    + now rewrite Hlon, lerp_finite.
Qed.

(** The sampled candidates do not depend on what the loop does with
    them. *)
Lemma fold_left_sampled {A B C} (f : list A * list B -> C -> list A * list B)
    (g : C -> option B) :
  (forall a b c, snd (f (a, b) c) = b ++ match g c with Some x => [x] | None => [] end) ->
  forall (l : list C) a b, snd (fold_left f l (a, b)) = b ++ omap g l.
Proof.
  intros Hf. induction l as [|c l IH]; intros a b; simpl.
  - now rewrite app_nil_r.
  - specialize (Hf a b c). destruct (f (a, b) c) as [a' b']. simpl in Hf.
    rewrite IH, Hf. destruct (g c); simpl; [now rewrite <- app_assoc|].
    now rewrite app_nil_r.
Qed.

(** C9.  The candidate sequence that the sampler draws from a route is
    the same in every run, whatever the services answer: it is the
    sequence of the points found at the distances [D / 20 * i],
    [i = 1 .. 20], in this order, each with that [distanceFromStart]. *)
Theorem sampling_is_deterministic services1 services2 route config :
  let sampled := fun services =>
    snd (App2.findOvernightStops calculateDistance services route config) in
  sampled services1 = sampled services2
  /\ sampled services1
     = omap (fun i => App.findClosestPointOnRoute calculateDistance
                        (Route.coordinates route)
                        (Route.distance route / JS.ofNat 20 * JS.ofNat i))
            (seq 1 20)
  /\ (forall c, c ∈ sampled services1 ->
        exists i, (1 <= i <= 20)%nat
                  /\ Candidate.distanceFromStart c
                     = Route.distance route / JS.ofNat 20 * JS.ofNat i).
Proof.
  cbv zeta.
  assert (Hsampled : forall services,
    snd (App2.findOvernightStops calculateDistance services route config)
    = omap (fun i => App.findClosestPointOnRoute calculateDistance
                       (Route.coordinates route)
                       (Route.distance route / JS.ofNat 20 * JS.ofNat i))
           (seq 1 20)).
  { intros services. unfold App2.findOvernightStops.
    rewrite (fold_left_sampled _
      (fun i => App.findClosestPointOnRoute calculateDistance
                  (Route.coordinates route)
                  (Route.distance route / JS.ofNat 20 * JS.ofNat i)));
      [reflexivity|].
    intros a b i.
    destruct (App.findClosestPointOnRoute _ _ _) as [c|]; [|now rewrite app_nil_r].
    destruct (Services.findNearbyAccommodations _ _ _ _) as [acc|]; [|reflexivity].
    destruct (Nat.ltb 0 (length acc)); reflexivity. }
  split; [now rewrite !Hsampled|]. split; [apply Hsampled|].
  intros c Hc. rewrite Hsampled in Hc.
  apply list_elem_of_omap in Hc as (i & Hi & Hc).
  apply list_elem_of_In, in_seq in Hi. exists i. split; [lia|].
  apply closest_from_stop in Hc as (k & lon1 & lat1 & lon2 & lat2 & H).
  apply H.
Qed.

End RouteGeometry.

Lemma closest_point_interpolates_witness :
  exists p, App.findClosestPointOnRoute Samples.flatDistance Samples.equator 222390 = Some p
            /\ Polyline.finite_eq (Candidate.lat p) 0
            /\ Polyline.finite_eq (Candidate.lon p) 2
            /\ Candidate.index p = 1%nat.
Proof.
  pose proof (closest_point_interpolates Samples.flatDistance Samples.equator 222390)
    as (_ & _ & Hend & _).
  destruct Hend as (p & lonN & latN & Hlast & Hfind & Hlat & Hlon & Hidx).
  - simpl. lia.
  - vm_compute. repeat constructor.
  - vm_compute. reflexivity.
  - injection Hlast as <- <-. exists p. auto.
Defined.

(** C6 as stated fails: beyond the length of the polyline (two degrees
    along the equator, 222390 m) there is no point at all, not the last
    vertex; and at [t = 0] a route that starts with a repeated vertex
    yields coordinates that are not numbers. *)
Lemma closest_point_beyond_counterexample :
  (2 <= length Samples.equator)%nat
  /\ Polyline.total Samples.flatDistance Samples.equator <= 250000
  /\ App.findClosestPointOnRoute Samples.flatDistance Samples.equator 250000 = None
  /\ Utils.findClosestPointOnRoute Samples.flatDistance Samples.equator 250000 = None
  /\ option_map Candidate.lat
       (App.findClosestPointOnRoute Samples.flatDistance [(0, 0); (0, 0); (1, 0)] 0)
     = Some JS.NaN.
Proof.
  split; [simpl; lia|]. split; [vm_compute; discriminate|].
  split; [vm_compute; reflexivity|]. split; vm_compute; reflexivity.
Qed.

Lemma sampling_is_deterministic_witness :
  snd (App2.findOvernightStops Samples.flatDistance Samples.offline
         (Route.mk Samples.equator 222390) Config.balanced)
  = snd (App2.findOvernightStops Samples.flatDistance Samples.online
           (Route.mk Samples.equator 222390) Config.balanced)
  /\ exists i, (1 <= i <= 20)%nat
               /\ (222390 # 20 : Q) = 222390 / JS.ofNat 20 * JS.ofNat i.
Proof.
  pose proof (sampling_is_deterministic Samples.flatDistance Samples.offline
                Samples.online (Route.mk Samples.equator 222390) Config.balanced)
    as (Hsame & _ & Hdist).
  split; [exact Hsame|].
  destruct (Hdist (Candidate.mk (JS.Finite (0 # 2223900)) (JS.Finite (222390 # 2223900))
                                (222390 / JS.ofNat 20 * JS.ofNat 1) 0))
    as (i & Hi & _).
  - vm_compute. apply list_elem_of_here.
  - exists 1%nat. split; [lia | vm_compute; reflexivity].
Defined.

(** ** Further properties of the deduplication and of the POI scout *)

Section ScoutMore.

Variables (services : Services.t) (lat lon : Q) (limit : Z).

Implicit Types (pois : list Poi.t) (preferences : list string).

(** A list whose normalized titles are pairwise different and unseen
    passes the filter unchanged. *)
Lemma dedup_filter_fixpoint pois : forall (seen : gset string),
  NoDup (map Utils.normalizedTitle pois) ->
  (forall p, p ∈ pois -> Utils.normalizedTitle p ∉ seen) ->
  App2.removeDuplicatePois_filter seen pois = pois.
Proof.
  induction pois as [|p pois IH]; intros seen Hnd Hfresh; [reflexivity|].
  simpl. fold (Utils.normalizedTitle p).
  apply NoDup_cons in Hnd as [Hp Hnd].
  rewrite bool_decide_eq_false_2 by (apply Hfresh; left).
  f_equal. apply IH; [exact Hnd|].
  intros q Hq. apply not_elem_of_union. split; [apply Hfresh; now right|].
  intros Heq. apply elem_of_singleton in Heq. apply Hp.
  rewrite <- Heq. apply list_elem_of_fmap. eauto.
Qed.

(** Deduplicating twice changes nothing more, in either version; and the
    first POI of the input is always retained, in first place. *)
Theorem removeDuplicatePois_idempotent pois :
  Utils.removeDuplicatePois (Utils.removeDuplicatePois pois)
  = Utils.removeDuplicatePois pois
  /\ App2.removeDuplicatePois (App2.removeDuplicatePois pois)
     = App2.removeDuplicatePois pois
  /\ head (Utils.removeDuplicatePois pois) = head pois.
Proof.
  rewrite !utils_dedup_is_app_dedup.
  assert (H : App2.removeDuplicatePois (App2.removeDuplicatePois pois)
              = App2.removeDuplicatePois pois).
  { unfold App2.removeDuplicatePois at 1. apply dedup_filter_fixpoint.
    - apply dedup_filter_NoDup.
    - intros p _. apply not_elem_of_empty. }
  repeat split; try exact H.
  destruct pois as [|p pois]; reflexivity.
Qed.

Lemma sublist_NoDup_map {A B} (f : A -> B) (l1 l2 : list A) :
  sublist l1 l2 -> NoDup (map f l2) -> NoDup (map f l1).
Proof.
  intros Hs Hnd. eapply sublist_NoDup; [exact Hnd|]. now apply fmap_sublist.
Qed.

(** The scout never returns more than [limit] POIs (for a limit that is
    not negative), and no two of the returned POIs share a normalized
    title. *)
Theorem fetchPoisSimple_bounded_distinct radiusMeters preferences :
  let result :=
    snd (App2.fetchPoisSimple services lat lon radiusMeters limit preferences) in
  ((0 <= limit)%Z -> (Z.of_nat (length result) <= limit)%Z)
  /\ NoDup (map Utils.normalizedTitle result).
Proof.
  cbv zeta. rewrite fetch_unfold. cbn [snd]. split.
  - intros Hl. rewrite slice0_take by exact Hl. rewrite length_take. lia.
  - eapply sublist_NoDup_map; [apply slice0_sublist | apply dedup_filter_NoDup].
Qed.

Lemma preferenceFilter_elem pois preferences p :
  p ∈ App2.preferenceFilter pois preferences ->
  p ∈ pois
  /\ JS.some (App2.matchesPreference (JS.toLowerCase (Poi.category p))) preferences
     = true.
Proof.
  unfold App2.preferenceFilter, JS.filter. rewrite !list_elem_of_In.
  intros H. apply filter_In in H. exact H.
Qed.

Lemma preferenceFilter_no_preferences pois : App2.preferenceFilter pois [] = [].
Proof.
  unfold App2.preferenceFilter, JS.filter, JS.some.
  induction pois as [|p pois IH]; [reflexivity | exact IH].
Qed.

(** When some collected POI matches the preferences, every returned POI
    matches one of them. *)
Theorem fetchPoisSimple_respects_preferences radiusMeters preferences :
  let pois := snd (App2.fetchPoisSimple_collect services lat lon limit) in
  App2.preferenceFilter pois preferences <> [] ->
  forall p,
    p ∈ snd (App2.fetchPoisSimple services lat lon radiusMeters limit preferences) ->
    JS.some (App2.matchesPreference (JS.toLowerCase (Poi.category p))) preferences
    = true.
Proof.
  cbv zeta. intros Hsome p Hp. rewrite fetch_unfold in Hp. cbn [snd] in Hp.
  apply slice0_elem, dedup_elem in Hp.
  destruct preferences as [|pref prefs].
  - exfalso. apply Hsome, preferenceFilter_no_preferences.
  - unfold App2.fetchPoisSimple_filter in Hp. cbn [length Nat.ltb Nat.leb] in Hp.
    destruct (App2.preferenceFilter _ (pref :: prefs)) as [|q qs] eqn:E;
      [congruence|].
    cbn [length Nat.eqb] in Hp. rewrite <- E in Hp.
    now apply preferenceFilter_elem in Hp.
Qed.

(** A preference that is none of the six known names matches every POI:
    with such a preference in the list nothing is filtered. *)
Theorem unknown_preference_disables_filter radiusMeters preferences pref :
  pref ∈ preferences ->
  pref <> "outdoor"%string -> pref <> "cultural"%string ->
  pref <> "entertainment"%string -> pref <> "food"%string ->
  pref <> "family"%string -> pref <> "adventure"%string ->
  App2.fetchPoisSimple services lat lon radiusMeters limit preferences
  = App2.fetchPoisSimple services lat lon radiusMeters limit [].
Proof.
  intros Hin H1 H2 H3 H4 H5 H6. rewrite !fetch_unfold. do 3 f_equal.
  rewrite filter_stage_no_preferences.
  assert (Hall : forall pois, App2.preferenceFilter pois preferences = pois).
  { intros pois. unfold App2.preferenceFilter, JS.filter.
    apply forallb_filter_id. apply forallb_forall. intros p _.
    unfold JS.some. apply existsb_exists. exists pref.
    split; [now apply list_elem_of_In|].
    unfold App2.matchesPreference.
    repeat match goal with
    | |- context [String.eqb pref ?s] =>
        destruct (String.eqb_spec pref s) as [->|_]; [congruence|]
    end.
    reflexivity. }
  unfold App2.fetchPoisSimple_filter. rewrite Hall.
  destruct (Nat.ltb 0 (length preferences)); [|reflexivity].
  destruct (snd (App2.fetchPoisSimple_collect services lat lon limit));
    reflexivity.
Qed.

(** The generic placeholders lie within 0.005 degrees of the place asked
    for, in latitude and in longitude, as [Math.random] yields numbers of
    [0, 1). *)
Theorem createGenericPois_near (random : nat -> Q) p :
  (forall k, 0 <= random k /\ random k < 1) ->
  p ∈ App.createGenericPois random lat lon ->
  Qabs (Poi.lat p - lat) <= 0.005 /\ Qabs (Poi.lon p - lon) <= 0.005.
Proof.
  intros Hr Hp. unfold App.createGenericPois in Hp.
  pose proof (Hr 0%nat). pose proof (Hr 1%nat). pose proof (Hr 2%nat).
  pose proof (Hr 3%nat). pose proof (Hr 4%nat). pose proof (Hr 5%nat).
  repeat (apply elem_of_cons in Hp as [-> | Hp];
          [cbn [Poi.lat Poi.lon]; split; apply Qabs_Qle_condition; split; lra|]).
  inversion Hp.
Qed.

End ScoutMore.

(** ** Further properties of the points on the route *)

Section RouteMore.

Variable calculateDistance : Q -> Q -> Q -> Q -> Q.

Local Abbreviation segments := (Polyline.segments calculateDistance).
Local Abbreviation find := (App.findClosestPointOnRoute calculateDistance).

Implicit Types (coords : list (Q * Q)) (t : Q).

Lemma segments_lookup coords : forall k lon1 lat1 lon2 lat2,
  coords !! k = Some (lon1, lat1) -> coords !! S k = Some (lon2, lat2) ->
  segments coords !! k = Some (calculateDistance lat1 lon1 lat2 lon2).
Proof.
  induction coords as [|[lo1 la1] coords IH]; intros k lon1 lat1 lon2 lat2 Hk HSk;
    [discriminate|].
  destruct coords as [|[lo2 la2] rest]; [discriminate|].
  change (segments ((lo1, la1) :: (lo2, la2) :: rest))
    with (calculateDistance la1 lo1 la2 lo2 :: segments ((lo2, la2) :: rest)).
  destruct k as [|k].
  - simpl in Hk, HSk. injection Hk as -> ->. injection HSk as -> ->. reflexivity.
  - simpl. apply IH; assumption.
Qed.

Lemma cumulative_succ (l : list Q) k d :
  l !! k = Some d ->
  fold_left Qplus (take (S k) l) 0 = fold_left Qplus (take k l) 0 + d.
Proof.
  intros H. rewrite (take_S_r _ _ _ H), fold_left_app. reflexivity.
Qed.

(** The segment found for a larger target distance is never an earlier
    one. *)
Theorem closest_point_index_monotone coords t1 t2 p1 p2 :
  t1 <= t2 ->
  find coords t1 = Some p1 -> find coords t2 = Some p2 ->
  (Candidate.index p1 <= Candidate.index p2)%nat.
Proof.
  intros Ht H1 H2.
  apply closest_from_stop in H1
    as (k1 & lo1 & la1 & lo2 & la2 & _ & _ & Hi1 & Hbefore1 & _).
  apply closest_from_stop in H2
    as (k2 & lo3 & la3 & lo4 & la4 & Hk2 & HSk2 & Hi2 & _ & Hstop2 & _).
  rewrite Hi1, Hi2. simpl.
  destruct (Nat.le_gt_cases k1 k2) as [Hle | Hgt]; [exact Hle | exfalso].
  specialize (Hbefore1 k2 Hgt).
  rewrite (cumulative_succ _ _ _ (segments_lookup _ _ _ _ _ _ Hk2 HSk2)) in Hbefore1.
  lra.
Qed.

(** For a target distance that is not negative, on a route without
    degenerate segments, the point returned lies between the two vertices
    of the segment it is found on, in latitude and in longitude. *)
Theorem closest_point_within_segment coords t p :
  0 <= t ->
  Forall (fun d => 0 < d) (segments coords) ->
  find coords t = Some p ->
  exists lon1 lat1 lon2 lat2 la lo,
    coords !! Candidate.index p = Some (lon1, lat1)
    /\ coords !! S (Candidate.index p) = Some (lon2, lat2)
    /\ Candidate.lat p = JS.Finite la /\ Candidate.lon p = JS.Finite lo
    /\ Qmin lat1 lat2 <= la <= Qmax lat1 lat2
    /\ Qmin lon1 lon2 <= lo <= Qmax lon1 lon2.
Proof.
  intros Ht Hpos Hp.
  apply closest_from_stop in Hp
    as (k & lon1 & lat1 & lon2 & lat2 & Hk & HSk & Hidx & Hbefore & Hstop & _
        & Hlat & Hlon).
  simpl in Hidx. rewrite Hidx.
  pose proof (segments_lookup _ _ _ _ _ _ Hk HSk) as Hseg.
  assert (Hd : 0 < calculateDistance lat1 lon1 lat2 lon2).
  { rewrite Forall_forall in Hpos. apply Hpos.
    eapply list_elem_of_lookup_2. exact Hseg. }
  set (d := calculateDistance lat1 lon1 lat2 lon2) in *.
  set (c := fold_left Qplus (take k (segments coords)) 0) in *.
  assert (Hc : c <= t).
  { destruct k as [|j]; [exact Ht|].
    specialize (Hbefore j (Nat.lt_succ_diag_r j)). subst c. lra. }
  assert (Hr : 0 <= (t - c) / d <= 1).
  { split.
    - apply Qle_shift_div_l; [exact Hd | lra].
    - apply Qle_shift_div_r; [exact Hd | lra]. }
  rewrite lerp_finite in Hlat, Hlon by lra.
  exists lon1, lat1, lon2, lat2, (lat1 + (lat2 - lat1) * ((t - c) / d)),
    (lon1 + (lon2 - lon1) * ((t - c) / d)).
  repeat split; auto.
  all: set (r := (t - c) / d) in *; clearbody r.
  - destruct (Q.min_spec lat1 lat2) as [[? ->] | [? ->]]; nra.
  - destruct (Q.max_spec lat1 lat2) as [[? ->] | [? ->]]; nra.
  - destruct (Q.min_spec lon1 lon2) as [[? ->] | [? ->]]; nra.
  - destruct (Q.max_spec lon1 lon2) as [[? ->] | [? ->]]; nra.
Qed.

End RouteMore.

Lemma closest_point_within_segment_witness :
  exists p,
    App.findClosestPointOnRoute Samples.flatDistance Samples.equator 150000 = Some p
    /\ exists lon1 lat1 lon2 lat2 la lo,
         Samples.equator !! Candidate.index p = Some (lon1, lat1)
         /\ Samples.equator !! S (Candidate.index p) = Some (lon2, lat2)
         /\ Candidate.lat p = JS.Finite la /\ Candidate.lon p = JS.Finite lo
         /\ Qmin lat1 lat2 <= la <= Qmax lat1 lat2
         /\ Qmin lon1 lon2 <= lo <= Qmax lon1 lon2.
Proof.
  eexists. split; [vm_compute; reflexivity|].
  apply (closest_point_within_segment Samples.flatDistance Samples.equator 150000).
  - lra.
  - vm_compute. repeat constructor.
  - vm_compute. reflexivity.
Defined.

Lemma closest_point_index_monotone_witness :
  exists p1 p2,
    App.findClosestPointOnRoute Samples.flatDistance Samples.equator 100000 = Some p1
    /\ App.findClosestPointOnRoute Samples.flatDistance Samples.equator 150000 = Some p2
    /\ (Candidate.index p1 <= Candidate.index p2)%nat.
Proof.
  eexists _, _. split; [vm_compute; reflexivity|]. split; [vm_compute; reflexivity|].
  apply (closest_point_index_monotone Samples.flatDistance Samples.equator
           100000 150000).
  - vm_compute. discriminate.
  - vm_compute. reflexivity.
  - vm_compute. reflexivity.
Defined.

Lemma fetchPoisSimple_bounded_distinct_witness :
  (Z.of_nat (length (snd (App2.fetchPoisSimple Samples.offline 48 16 20000 2 [])))
   <= 2)%Z.
Proof.
  apply (fetchPoisSimple_bounded_distinct Samples.offline 48 16 2 20000 []). lia.
Defined.

Lemma fetchPoisSimple_respects_preferences_witness :
  JS.some (App2.matchesPreference
             (JS.toLowerCase (Poi.category Samples.city_museum_a)))
          ["cultural"%string] = true.
Proof.
  apply (fetchPoisSimple_respects_preferences Samples.online 48 16 4 20000
           ["cultural"%string]).
  - vm_compute. discriminate.
  - vm_compute. apply list_elem_of_here.
Defined.

Lemma unknown_preference_disables_filter_witness :
  App2.fetchPoisSimple Samples.online 48 16 20000 4 ["food"%string; "shopping"%string]
  = App2.fetchPoisSimple Samples.online 48 16 20000 4 [].
Proof.
  apply (unknown_preference_disables_filter Samples.online 48 16 4 20000
           ["food"%string; "shopping"%string] "shopping"%string);
    [right; left | discriminate ..].
Defined.

Lemma createGenericPois_near_witness :
  exists p, head (App.createGenericPois (Services.random Samples.online) 48 16) = Some p
            /\ Qabs (Poi.lat p - 48) <= 0.005 /\ Qabs (Poi.lon p - 16) <= 0.005.
Proof.
  eexists. split; [reflexivity|].
  apply (createGenericPois_near 48 16 (Services.random Samples.online)).
  - intros k. simpl. split; [discriminate | reflexivity].
  - apply list_elem_of_here.
Defined.

(** ** Further properties of the selection *)

Section SelectionMore.

Implicit Types (stops selected : list Stop.t) (I : Q) (days : nat).

Lemma picksBest_near I stops ds : forall selected x,
  x ∈ fold_left (Shape.pickBest I stops) ds selected ->
  x ∈ selected
  \/ exists d, d ∈ ds /\ x ∈ stops
               /\ Qabs (Stop.distanceFromStart x - I * JS.ofNat d) <= I * 0.5.
Proof.
  induction ds as [|d ds IH]; intros selected x; simpl; [auto|].
  intros H. apply IH in H as [H | (d' & Hd' & Hx)].
  - destruct (pickBest_cases I stops selected d) as [Heq | (c & (Hc & _ & Hnear) & Heq)];
      rewrite Heq in H; [auto|].
    apply elem_of_app in H as [H | H]; [auto|].
    apply list_elem_of_singleton in H as ->.
    right. exists d. split; [left | auto].
  - right. exists d'. split; [now right | exact Hx].
Qed.

(** Every stop that the trip-planner module's selector returns lies
    within half an ideal day of one of the day boundaries
    [idealDailyDistance * d], [d = 1 .. days - 1]; so with an ideal
    distance that is negative it returns nothing. *)
Theorem tripPlanner_selected_near_boundary stops I days :
  (forall x, x ∈ snd (TripPlanner.selectOvernightStops stops I days) ->
     exists d, (1 <= d <= days - 1)%nat
               /\ Qabs (Stop.distanceFromStart x - I * JS.ofNat d) <= I * 0.5)
  /\ (I < 0 -> snd (TripPlanner.selectOvernightStops stops I days) = []).
Proof.
  rewrite tripPlanner_selectOvernightStops_shape. cbn [snd].
  assert (Hnear : forall x,
    x ∈ fold_left (Shape.pickBest I (JS.sort (Shape.byScore I) stops))
                  (seq 1 (days - 1)) [] ->
    exists d, (1 <= d <= days - 1)%nat
              /\ Qabs (Stop.distanceFromStart x - I * JS.ofNat d) <= I * 0.5).
  { intros x Hx. apply picksBest_near in Hx as [Hx | (d & Hd & _ & Hx)];
      [inversion Hx|].
    exists d. split; [|exact Hx]. apply list_elem_of_In, in_seq in Hd. lia. }
  split; [exact Hnear|].
  intros HI.
  destruct (fold_left _ (seq 1 (days - 1)) []) as [|x l] eqn:E; [reflexivity|].
  destruct (Hnear x (list_elem_of_here _ _)) as (d & _ & Hd).
  pose proof (Qabs_nonneg (Stop.distanceFromStart x - I * JS.ofNat d)). lra.
Qed.

End SelectionMore.

Lemma tripPlanner_selected_near_boundary_witness :
  exists d, (1 <= d <= 3 - 1)%nat
            /\ Qabs (Stop.distanceFromStart (Samples.overnightAt 700000 5)
                     - (1000000 / 3) * JS.ofNat d) <= (1000000 / 3) * 0.5.
Proof.
  apply (tripPlanner_selected_near_boundary Samples.candidates (1000000 / 3) 3).
  vm_compute. right. left.
Defined.

(** ** Categories, hours and the ranking *)

Section Categories.

Ltac case_categories :=
  repeat match goal with
         | |- context [if ?b then _ else _] => destruct b
         end.

(** Whatever the title, the category that [categorizePoi] assigns has an
    entry in the table of activity hours and in the table of category
    priorities, so a POI categorized this way never takes a default: in
    the application script with its own tables, in the utility module
    with the table of the configuration module. *)
Theorem categorized_poi_never_defaults (title : string) :
  (exists hours, App.ACTIVITY_TIME_ESTIMATES !! App.categorizePoi title = Some hours
                 /\ 1 <= hours <= 3
                 /\ forall p, Poi.category p = App.categorizePoi title ->
                              App.timeEstimate p = hours)
  /\ (exists priority, App.categoryPriority !! App.categorizePoi title = Some priority
                       /\ 1 <= priority <= 5)
  /\ (exists hours, Config.ACTIVITY_TIME_ESTIMATES !! Utils.categorizePoi title
                    = Some hours
                    /\ (1 # 2) <= hours <= 3).
Proof.
  split; [|split].
  - unfold App.categorizePoi. case_categories.
    all: eexists; split; [vm_compute; reflexivity|];
         split; [split; vm_compute; discriminate|];
         intros p Hp; unfold App.timeEstimate; rewrite Hp; vm_compute; reflexivity.
  - unfold App.categorizePoi. case_categories.
    all: eexists; split; [vm_compute; reflexivity|]; split; vm_compute; discriminate.
  - unfold Utils.categorizePoi. case_categories.
    all: eexists; split; [vm_compute; reflexivity|]; split; vm_compute; discriminate.
Qed.

End Categories.

Lemma categorized_poi_never_defaults_witness :
  App.timeEstimate
    (Poi.mk "Old Fort" 10 48 16 (Href "https://en.wikipedia.org/?curid=3") "wikipedia"
            (App.categorizePoi "Old Fort"))
  = 1.
Proof.
  destruct (categorized_poi_never_defaults "Old Fort") as ((hours & Hh & _ & Hp) & _).
  transitivity hours; [apply Hp; reflexivity|].
  vm_compute in Hh. injection Hh as <-. reflexivity.
Defined.

Section Ranking.

Implicit Types (a b c : Ranked.t) (pois : list Ranked.t).

(** The comparator by cases: the preference matches decide, then the
    priorities, then the distances. *)
Lemma rankCompare_cases a b :
  App.rankCompare a b
  = if negb (Bool.eqb (Ranked.preferenceMatch a) (Ranked.preferenceMatch b))
    then (if Ranked.preferenceMatch b then 10 else 0)
         - (if Ranked.preferenceMatch a then 10 else 0)
    else if negb (Qeq_bool (Rank.priority a) (Rank.priority b))
         then Rank.priority b - Rank.priority a
         else Poi.distanceMeters (Ranked.poi a) - Poi.distanceMeters (Ranked.poi b).
Proof.
  unfold App.rankCompare, Rank.priority.
  destruct (Ranked.preferenceMatch a), (Ranked.preferenceMatch b); reflexivity.
Qed.

Lemma rankCompare_total a b :
  ~ App.rankCompare a b <= 0 -> App.rankCompare b a <= 0.
Proof.
  rewrite !rankCompare_cases.
  destruct (Ranked.preferenceMatch a), (Ranked.preferenceMatch b);
    cbn [Bool.eqb negb]; try lra.
  all: destruct (Qeq_bool (Rank.priority a) (Rank.priority b)) eqn:E;
       [apply Qeq_bool_iff in E | apply Qeq_bool_neq in E];
       destruct (Qeq_bool (Rank.priority b) (Rank.priority a)) eqn:E';
       [apply Qeq_bool_iff in E' | apply Qeq_bool_neq in E'
       |apply Qeq_bool_iff in E' | apply Qeq_bool_neq in E'];
       cbn [negb]; try lra; try (exfalso; apply E; lra); try (exfalso; apply E'; lra).
Qed.

Lemma rankCompare_ordered a b : JS.before App.rankCompare a b -> Rank.ordered a b.
Proof.
  unfold JS.before, Rank.ordered. rewrite rankCompare_cases.
  destruct (Ranked.preferenceMatch a), (Ranked.preferenceMatch b);
    cbn [Bool.eqb negb]; try (intros; split; [auto | intros; discriminate]);
    try lra.
  all: destruct (Qeq_bool (Rank.priority a) (Rank.priority b)) eqn:E;
       [apply Qeq_bool_iff in E | apply Qeq_bool_neq in E]; cbn [negb];
       intros H; (split; [auto|]); intros _; (split; [lra|]); intros Heq;
       try lra; contradiction.
Qed.

Lemma rankCompare_trans a b c :
  JS.before App.rankCompare a b -> JS.before App.rankCompare b c ->
  JS.before App.rankCompare a c.
Proof.
  unfold JS.before. rewrite !rankCompare_cases.
  destruct (Ranked.preferenceMatch a), (Ranked.preferenceMatch b),
    (Ranked.preferenceMatch c); cbn [Bool.eqb negb]; try lra.
  all: destruct (Qeq_bool (Rank.priority a) (Rank.priority b)) eqn:E1;
       [apply Qeq_bool_iff in E1 | apply Qeq_bool_neq in E1];
       destruct (Qeq_bool (Rank.priority b) (Rank.priority c)) eqn:E2;
       [apply Qeq_bool_iff in E2 | apply Qeq_bool_neq in E2
       |apply Qeq_bool_iff in E2 | apply Qeq_bool_neq in E2];
       destruct (Qeq_bool (Rank.priority a) (Rank.priority c)) eqn:E3;
       [apply Qeq_bool_iff in E3 | apply Qeq_bool_neq in E3
       |apply Qeq_bool_iff in E3 | apply Qeq_bool_neq in E3
       |apply Qeq_bool_iff in E3 | apply Qeq_bool_neq in E3
       |apply Qeq_bool_iff in E3 | apply Qeq_bool_neq in E3];
       cbn [negb]; intros H1 H2; try lra;
       try (exfalso; apply E3; lra); try (exfalso; apply E1; lra);
       try (exfalso; apply E2; lra).
Qed.

Lemma StronglySorted_lookup {A} (R : A -> A -> Prop) (l : list A) : forall i j x y,
  StronglySorted R l -> (i < j)%nat -> l !! i = Some x -> l !! j = Some y -> R x y.
Proof.
  induction l as [|z l IH]; intros i j x y Hs Hij Hx Hy; [discriminate|].
  apply StronglySorted_inv in Hs as [Hs Hz].
  destruct j as [|j]; [lia|]. destruct i as [|i]; simpl in *.
  - injection Hx as <-. rewrite Forall_forall in Hz. apply Hz.
    eapply list_elem_of_lookup_2. exact Hy.
  - apply (IH i j); auto with arith.
Qed.

Lemma rank_dedup_fold pois : forall acc (seen : gset string),
  fst (fold_left App.filterAndRankPois_body pois (acc, seen))
  = acc ++ Rank.dedup seen pois.
Proof.
  induction pois as [|x pois IH]; intros acc seen; simpl.
  - now rewrite app_nil_r.
  - destruct (bool_decide _); [apply IH|].
    rewrite IH, <- app_assoc. reflexivity.
Qed.

Lemma rank_dedup_pois pois : forall (seen : gset string),
  map Ranked.poi (Rank.dedup seen pois)
  = App2.removeDuplicatePois_filter seen (map Ranked.poi pois).
Proof.
  induction pois as [|x pois IH]; intros seen; simpl; [reflexivity|].
  destruct (bool_decide _); simpl; now rewrite IH.
Qed.

(** [filterAndRankPois] returns the POIs that the deduplication by
    normalized title retains, reordered: of any two returned POIs the
    earlier one may stand in front of the later one, that is, preference
    matches come first, then the higher category priority, then the
    shorter distance. *)
Theorem filterAndRankPois_ranks pois centerLat centerLon preferences :
  let out := App.filterAndRankPois pois centerLat centerLon preferences in
  Permutation (map Ranked.poi out)
              (Utils.removeDuplicatePois (map Ranked.poi pois))
  /\ (forall i j a b, (i < j)%nat -> out !! i = Some a -> out !! j = Some b ->
        Rank.ordered a b).
Proof.
  cbv zeta. unfold App.filterAndRankPois. rewrite rank_dedup_fold. simpl app.
  split.
  - rewrite utils_dedup_is_app_dedup. unfold App2.removeDuplicatePois.
    rewrite <- rank_dedup_pois. apply Permutation_map, sort_perm.
  - intros i j a b Hij Ha Hb. apply rankCompare_ordered.
    eapply StronglySorted_lookup; eauto.
    apply Sorted_StronglySorted.
    + intros x y z. apply rankCompare_trans.
    + apply sort_sorted, rankCompare_total.
Qed.

End Ranking.

Lemma filterAndRankPois_ranks_witness :
  Rank.ordered (Ranked.mk (Samples.attraction "Old Brewery" "Food & Drink") true)
               (Ranked.mk (Samples.attraction "Town Museum" "Museum") false).
Proof.
  pose proof (filterAndRankPois_ranks Samples.ranked 48 16 []) as [_ H].
  apply (H 0%nat 1%nat); [lia | vm_compute; reflexivity ..].
Defined.

(** ** The interval samplers *)

Section IntervalSampling.

Variable calculateDistance : Q -> Q -> Q -> Q -> Q.

Local Abbreviation segments := (Polyline.segments calculateDistance).
Local Abbreviation samples := (App.samplePoints_from calculateDistance).

Implicit Types (coords : list (Q * Q)) (interval cur : Q) (i : nat).

Lemma samples_step interval lon1 lat1 lon2 lat2 (rest : list (Q * Q)) cur i :
  samples interval ((lon1, lat1) :: (lon2, lat2) :: rest) cur i
  = if JS.ge cur interval
    then Sample.mk lat1 lon1 cur i
         :: samples interval ((lon2, lat2) :: rest)
                    (0 + calculateDistance lat1 lon1 lat2 lon2) (S i)
    else samples interval ((lon2, lat2) :: rest)
                 (cur + calculateDistance lat1 lon1 lat2 lon2) (S i).
Proof. reflexivity. Qed.

(** A sample is a vertex of the route, reached with at least the interval
    on the counter. *)
Lemma samples_spec interval coords : forall cur i s,
  s ∈ samples interval coords cur i ->
  interval <= Sample.distanceFromStart s
  /\ (i <= Sample.index s)%nat
  /\ (cur < interval -> (i < Sample.index s)%nat)
  /\ coords !! (Sample.index s - i)%nat = Some (Sample.lon s, Sample.lat s).
Proof.
  induction coords as [|[lon1 lat1] coords IH]; intros cur i s Hs; [inversion Hs|].
  destruct coords as [|[lon2 lat2] rest]; [inversion Hs|].
  rewrite samples_step in Hs.
  destruct (JS.ge cur interval) eqn:G.
  - unfold JS.ge in G. apply Qle_bool_iff in G.
    apply elem_of_cons in Hs as [-> | Hs].
    + cbn [Sample.distanceFromStart Sample.index Sample.lon Sample.lat].
      rewrite Nat.sub_diag. repeat split; auto. lra.
    + apply IH in Hs as (H1 & H2 & _ & H4).
      repeat split; [exact H1 | lia | lia |].
      replace (Sample.index s - i)%nat with (S (Sample.index s - S i)) by lia.
      exact H4.
  - apply IH in Hs as (H1 & H2 & _ & H4).
    repeat split; [exact H1 | lia | lia |].
    replace (Sample.index s - i)%nat with (S (Sample.index s - S i)) by lia.
    exact H4.
Qed.

(** The counter restarts at every sample: the distances recorded add up
    to no more than the length of the route. *)
Lemma samples_sum interval coords : forall cur i,
  Forall (fun d => 0 <= d) (segments coords) -> 0 <= cur ->
  Series.sum (map Sample.distanceFromStart (samples interval coords cur i))
  <= cur + Series.sum (segments coords).
Proof.
  induction coords as [|[lon1 lat1] coords IH]; intros cur i Hpos Hcur;
    [simpl; lra|].
  destruct coords as [|[lon2 lat2] rest]; [simpl; lra|].
  change (segments ((lon1, lat1) :: (lon2, lat2) :: rest))
    with (calculateDistance lat1 lon1 lat2 lon2 :: segments ((lon2, lat2) :: rest))
    in *.
  apply Forall_cons in Hpos as [Hd Hpos]. rewrite sum_cons.
  rewrite samples_step.
  destruct (JS.ge cur interval).
  - cbn [map Sample.distanceFromStart]. rewrite sum_cons.
    assert (H0 : 0 <= 0 + calculateDistance lat1 lon1 lat2 lon2) by lra.
    specialize (IH (0 + calculateDistance lat1 lon1 lat2 lon2) (S i) Hpos H0). lra.
  - assert (H0 : 0 <= cur + calculateDistance lat1 lon1 lat2 lon2) by lra.
    specialize (IH (cur + calculateDistance lat1 lon1 lat2 lon2) (S i) Hpos H0). lra.
Qed.

(** No sample on a route that is shorter than the interval. *)
Lemma samples_none interval coords : forall cur i,
  Forall (fun d => 0 <= d) (segments coords) ->
  cur + Series.sum (segments coords) < interval ->
  samples interval coords cur i = [].
Proof.
  induction coords as [|[lon1 lat1] coords IH]; intros cur i Hpos Hshort;
    [reflexivity|].
  destruct coords as [|[lon2 lat2] rest]; [reflexivity|].
  change (segments ((lon1, lat1) :: (lon2, lat2) :: rest))
    with (calculateDistance lat1 lon1 lat2 lon2 :: segments ((lon2, lat2) :: rest))
    in *.
  apply Forall_cons in Hpos as [Hd Hpos]. rewrite sum_cons in Hshort.
  pose proof (sum_nonneg _ Hpos) as Hrest.
  rewrite samples_step.
  destruct (JS.ge cur interval) eqn:G.
  - unfold JS.ge in G. apply Qle_bool_iff in G. lra.
  - apply IH; [exact Hpos | lra].
Qed.

Lemma max_bounds (a b : Q) : a <= JS.max a b /\ b <= JS.max a b.
Proof.
  unfold JS.max. destruct (Qle_bool a b) eqn:E.
  - apply Qle_bool_iff in E. lra.
  - destruct (Qlt_le_dec b a) as [|H]; [lra|].
    apply Qle_bool_iff in H. congruence.
Qed.

Lemma sum_sublist (l1 l2 : list Q) :
  sublist l1 l2 -> Forall (fun d => 0 <= d) l2 -> Series.sum l1 <= Series.sum l2.
Proof.
  induction 1 as [|x l1 l2 _ IH|x l1 l2 _ IH]; intros Hpos.
  - lra.
  - apply Forall_cons in Hpos as [_ Hpos]. rewrite !sum_cons.
    specialize (IH Hpos). lra.
  - apply Forall_cons in Hpos as [Hx Hpos]. rewrite sum_cons.
    specialize (IH Hpos). lra.
Qed.

(** A loop that appends at most one element per input, built from that
    input. *)
Lemma fold_left_built {S A B} (f : S -> B -> S) (proj : S -> list A)
    (P : A -> B -> Prop) (key : A -> Q) (keyB : B -> Q) :
  (forall st b, proj (f st b) = proj st
                \/ exists a, proj (f st b) = proj st ++ [a] /\ P a b /\ key a = keyB b) ->
  forall (points : list B) (st : S),
    (length (proj (fold_left f points st)) <= length (proj st) + length points)%nat
    /\ (forall a, a ∈ proj (fold_left f points st) ->
          a ∈ proj st \/ exists b, b ∈ points /\ P a b)
    /\ exists rest, proj (fold_left f points st) = proj st ++ rest
         /\ sublist (map key rest) (map keyB points).
Proof.
  intros Hf. induction points as [|b points IH]; intros st.
  - cbn [fold_left length]. split; [lia|]. split; [auto|].
    exists []. split; [now rewrite app_nil_r | constructor].
  - cbn [fold_left length].
    destruct (IH (f st b)) as (Hlen & Hin & rest & Hrest & Hsub).
    destruct (Hf st b) as [Heq | (a0 & Heq & HP & Hkey)]; rewrite Heq in *.
    + split; [lia|]. split.
      * intros a Ha. apply Hin in Ha as [Ha | (b' & Hb' & Ha)]; [now left|].
        right. exists b'. split; [now right | exact Ha].
      * exists rest. split; [exact Hrest|]. cbn [map]. now apply sublist_cons.
    + rewrite length_app in Hlen. cbn [length] in Hlen.
      split; [lia|]. split.
      * intros a Ha. apply Hin in Ha as [Ha | (b' & Hb' & Ha)].
        -- apply elem_of_app in Ha as [Ha | Ha]; [now left|].
           apply list_elem_of_singleton in Ha as ->.
           right. exists b. split; [left | exact HP].
        -- right. exists b'. split; [now right | exact Ha].
      * exists (a0 :: rest). split; [rewrite Hrest, <- app_assoc; reflexivity|].
        cbn [map]. rewrite Hkey. now apply sublist_skip.
Qed.

Section Overnight.

Variables (services : Services.t) (route : Route.t) (days : nat) (config : PaceConfig.t).

(** The interval sampler for overnight stops: at most [2 * days] stops;
    each with at least one accommodation, scored by their number, at a
    vertex of the route other than the first, with a recorded distance of
    at least the sampling interval [max(15000, D / 15)].  The recorded
    distances are measured from the previous sample: on a route with
    segment lengths that are not negative they add up to at most its
    length, and a route shorter than the interval yields no stop. *)
Theorem findOvernightStops_by_interval :
  let stops := App.findOvernightStops calculateDistance services route days config in
  let coords := Route.coordinates route in
  (length stops <= days * 2)%nat
  /\ (forall stop, stop ∈ stops ->
        Stop.accommodations stop <> []
        /\ Stop.accommodationScore stop = Z.of_nat (length (Stop.accommodations stop))
        /\ Stop.type stop = Stop.overnight
        /\ 15000 <= Stop.distanceFromStart stop
        /\ Route.distance route / 15 <= Stop.distanceFromStart stop
        /\ (1 <= Stop.index stop)%nat
        /\ exists lon lat, coords !! Stop.index stop = Some (lon, lat)
                           /\ Stop.lat stop = JS.Finite lat
                           /\ Stop.lon stop = JS.Finite lon)
  /\ (Forall (fun d => 0 <= d) (segments coords) ->
      Series.sum (map Stop.distanceFromStart stops) <= Polyline.total calculateDistance coords
      /\ (Polyline.total calculateDistance coords < 15000 -> stops = [])).
Proof.
  cbv zeta. unfold App.findOvernightStops.
  set (interval := JS.max 15000 (Route.distance route / 15)).
  set (points := samples interval (Route.coordinates route) 0 0).
  match goal with
  | |- context [fold_left ?f ?l []] => set (body := f); set (visited := l)
  end.
  assert (Hstep : forall st point,
    body st point = st
    \/ exists a, body st point = st ++ [a] /\ Built.overnight a point
                 /\ Stop.distanceFromStart a = Sample.distanceFromStart point).
  { intros st point. subst body. cbv beta.
    destruct (Services.findNearbyAccommodations _ _ _ _) as [[|a accs]|];
      [now left | | now left].
    right. eexists. split; [reflexivity|]. split; [|reflexivity].
    unfold Built.overnight. cbn. repeat split; auto; discriminate. }
  destruct (fold_left_built body (fun x => x) Built.overnight
              Stop.distanceFromStart Sample.distanceFromStart Hstep visited [])
    as (Hlen & Hin & rest & Hrest & Hsub).
  subst visited.
  destruct (max_bounds 15000 (Route.distance route / 15)) as [Hm1 Hm2].
  fold interval in Hm1, Hm2.
  split; [|split].
  - rewrite length_take in Hlen. simpl in Hlen. lia.
  - intros stop Hs. apply Hin in Hs as [Hs | (pt & Hpt & Hb)]; [inversion Hs|].
    destruct Hb as (Ha & Hscore & Htype & Hd & Hidx & Hlat & Hlon).
    apply elem_of_sublist with (l2 := points) in Hpt; [|apply sublist_take].
    apply samples_spec in Hpt as (Hge & _ & Hfirst & Hvertex).
    rewrite Nat.sub_0_r in Hvertex.
    repeat split; auto; try (rewrite Hd; lra).
    + rewrite Hidx. apply Hfirst. lra.
    + exists (Sample.lon pt), (Sample.lat pt). rewrite Hidx. auto.
  - intros Hpos. rewrite total_sum. split.
    + simpl in Hrest. rewrite Hrest.
      pose proof (samples_sum interval (Route.coordinates route) 0 0%nat Hpos
                    (Qle_refl 0)) as Hsum.
      fold points in Hsum.
      assert (Hle : Series.sum (map Stop.distanceFromStart rest)
                    <= Series.sum (map Sample.distanceFromStart points)).
      { apply sum_sublist.
        - etransitivity; [exact Hsub|]. apply fmap_sublist, sublist_take.
        - apply Forall_forall. intros d Hd.
          apply list_elem_of_fmap in Hd as (pt & -> & Hpt).
          apply samples_spec in Hpt as (Hge & _). lra. }
      lra.
    + intros Hshort.
      assert (Hnone : points = [])
        by (apply samples_none; [exact Hpos | lra]).
      rewrite Hnone. reflexivity.
Qed.

End Overnight.

End IntervalSampling.

(** ** Roadside stops and the target sampler *)

Section RoadsideAndTargets.

Variable calculateDistance : Q -> Q -> Q -> Q -> Q.
Variable services : Services.t.

Lemma list_filter_sublist {A} (f : A -> bool) (l : list A) :
  sublist (List.filter f l) l.
Proof.
  induction l as [|x l IH]; simpl; [constructor|].
  destruct (f x); [now apply sublist_skip | now apply sublist_cons].
Qed.

Lemma sublist_StronglySorted {A} (R : A -> A -> Prop) (l1 l2 : list A) :
  sublist l1 l2 -> StronglySorted R l2 -> StronglySorted R l1.
Proof.
  induction 1 as [|x l1 l2 Hs IH|x l1 l2 Hs IH]; intros Hsorted.
  - constructor.
  - apply StronglySorted_inv in Hsorted as [Hsorted Hx].
    constructor; [auto|].
    rewrite Forall_forall in *. intros y Hy. apply Hx.
    eapply elem_of_sublist; eauto.
  - apply StronglySorted_inv in Hsorted as [Hsorted _]. auto.
Qed.

(** The roadside sampler: at most twelve stops; each keeps at least one
    attraction, at most four, with pairwise different normalized titles,
    and every attraction kept takes at least the pace's [minActivityTime];
    each stop is a vertex of the route other than the first, recorded with
    a distance of at least 8000.  When every search times out no stop is
    returned. *)
Theorem findRoadsideStops_keeps_suitable
    (getUserPreferences : nat -> list string) (timedOut : nat -> bool)
    (route : Route.t) (config : PaceConfig.t) :
  let stops :=
    AppRoadside.findRoadsideStops calculateDistance services getUserPreferences
                                  timedOut route config in
  (length stops <= 12)%nat
  /\ (forall stop, stop ∈ stops ->
        Stop.attractions stop <> []
        /\ (forall a, a ∈ Stop.attractions stop ->
              PaceConfig.minActivityTime config <= App.timeEstimate a)
        /\ (length (Stop.attractions stop) <= 4)%nat
        /\ NoDup (map Utils.normalizedTitle (Stop.attractions stop))
        /\ Stop.type stop = Stop.roadside
        /\ 8000 <= Stop.distanceFromStart stop
        /\ (1 <= Stop.index stop)%nat)
  /\ ((forall i, timedOut i = true) -> stops = []).
Proof.
  cbv zeta. unfold AppRoadside.findRoadsideStops.
  set (interval := JS.max 8000 (Route.distance route / 30)).
  set (points := App.samplePoints_from calculateDistance interval
                   (Route.coordinates route) 0 0).
  set (body := AppRoadside.findRoadsideStops_body services getUserPreferences
                 timedOut config).
  assert (Hstep : forall st point,
    fst (body st point) = fst st
    \/ exists a, fst (body st point) = fst st ++ [a] /\ Built.roadside config a point
                 /\ Stop.distanceFromStart a = Sample.distanceFromStart point).
  { intros [stops i] point. subst body. unfold AppRoadside.findRoadsideStops_body.
    destruct (timedOut i); [now left|].
    set (attractions := snd (App2.fetchPoisSimple _ _ _ _ _ _)).
    destruct (JS.filter _ attractions) as [|a suitable] eqn:F; [now left|].
    right. eexists. split; [reflexivity|]. split; [|reflexivity].
    unfold Built.roadside.
    cbn [Stop.attractions Stop.type Stop.distanceFromStart Stop.index Stop.lat
         Stop.lon].
    rewrite <- F.
    assert (Hsub : sublist (JS.filter
              (fun attraction =>
                 JS.ge (App.timeEstimate attraction)
                       (PaceConfig.minActivityTime config)) attractions) attractions)
      by apply list_filter_sublist.
    assert (Hfour : (length attractions <= 4)%nat /\
                    NoDup (map Utils.normalizedTitle attractions)).
    { subst attractions. rewrite fetch_unfold. cbn [snd]. split.
      - rewrite slice0_take by lia. rewrite length_take. lia.
      - eapply sublist_NoDup_map; [apply slice0_sublist | apply dedup_filter_NoDup]. }
    destruct Hfour as [Hfour Hnd].
    repeat split; auto.
    - rewrite F. discriminate.
    - intros x Hx. unfold JS.filter in Hx. apply list_elem_of_In, filter_In in Hx.
      destruct Hx as [_ Hx]. unfold JS.ge in Hx. now apply Qle_bool_iff in Hx.
    - pose proof (sublist_length _ _ Hsub). lia.
    - eapply sublist_NoDup_map; eauto. }
  destruct (fold_left_built body fst (Built.roadside config)
              Stop.distanceFromStart Sample.distanceFromStart Hstep
              (take (Nat.min (length points) 12) points) ([], 0%nat))
    as (Hlen & Hin & _).
  destruct (max_bounds 8000 (Route.distance route / 30)) as [Hm1 _].
  fold interval in Hm1.
  split; [|split].
  - rewrite length_take in Hlen. simpl in Hlen. lia.
  - intros stop Hs. apply Hin in Hs as [Hs | (pt & Hpt & Hb)]; [inversion Hs|].
    destruct Hb as (H1 & H2 & H3 & H4 & H5 & Hd & Hidx & _).
    apply elem_of_sublist with (l2 := points) in Hpt; [|apply sublist_take].
    apply samples_spec in Hpt as (Hge & _ & Hfirst & _).
    repeat split; auto.
    + rewrite Hd. lra.
    + rewrite Hidx. apply Hfirst. lra.
  - intros Hall.
    assert (Hnil : forall l st, fst st = [] -> fst (fold_left body l st) = []).
    { induction l as [|pt l IH]; intros [stops i] Hst; [exact Hst|].
      simpl. apply IH. subst body. unfold AppRoadside.findRoadsideStops_body.
      rewrite Hall. exact Hst. }
    now apply Hnil.
Qed.

Lemma targets_sorted (D : Q) (n start : nat) :
  0 <= D ->
  StronglySorted Qle (map (fun i => D / JS.ofNat 20 * JS.ofNat i) (seq start n)).
Proof.
  intros HD. revert start. induction n as [|n IH]; intros start; simpl.
  - constructor.
  - constructor; [apply IH|].
    apply Forall_forall. intros x Hx.
    apply list_elem_of_fmap in Hx as (j & -> & Hj).
    apply list_elem_of_In, in_seq in Hj.
    assert (Hij : JS.ofNat start <= JS.ofNat j)
      by (unfold JS.ofNat; rewrite <- Zle_Qle; lia).
    assert (H20 : 0 <= D / JS.ofNat 20)
      by (apply Qle_shift_div_l; [reflexivity | lra]).
    nra.
Qed.

(** The target sampler for overnight stops: at most twenty stops; each
    with at least one accommodation, scored by their number, recorded at
    one of the distances [D / 20 * i], [i = 1 .. 20]; and for a route
    distance that is not negative the stops come out in ascending order
    of [distanceFromStart]. *)
Theorem findOvernightStops_by_targets (route : Route.t) (config : PaceConfig.t) :
  let stops := fst (App2.findOvernightStops calculateDistance services route config) in
  (length stops <= 20)%nat
  /\ (forall stop, stop ∈ stops ->
        Stop.accommodations stop <> []
        /\ Stop.accommodationScore stop = Z.of_nat (length (Stop.accommodations stop))
        /\ Stop.type stop = Stop.overnight
        /\ exists i, (1 <= i <= 20)%nat
                     /\ Stop.distanceFromStart stop
                        = Route.distance route / JS.ofNat 20 * JS.ofNat i)
  /\ (0 <= Route.distance route -> Sorted Shape.ascending stops).
Proof.
  cbv zeta. unfold App2.findOvernightStops.
  match goal with
  | |- context [fold_left ?f (seq 1 20) ([], [])] => set (body := f)
  end.
  set (P := fun (stop : Stop.t) (i : nat) =>
    Stop.accommodations stop <> []
    /\ Stop.accommodationScore stop = Z.of_nat (length (Stop.accommodations stop))
    /\ Stop.type stop = Stop.overnight).
  assert (Hstep : forall st i,
    fst (body st i) = fst st
    \/ exists a, fst (body st i) = fst st ++ [a] /\ P a i
                 /\ Stop.distanceFromStart a
                    = Route.distance route / JS.ofNat 20 * JS.ofNat i).
  { intros [stops sampled] i. subst body. cbv beta iota.
    destruct (App.findClosestPointOnRoute _ _ _) as [c|]; [|now left].
    destruct (Services.findNearbyAccommodations _ _ _ _) as [[|a accs]|];
      [now left | | now left].
    right. eexists. split; [reflexivity|]. split; [|reflexivity].
    subst P. cbn. repeat split; auto; discriminate. }
  destruct (fold_left_built body fst P Stop.distanceFromStart
              (fun i => Route.distance route / JS.ofNat 20 * JS.ofNat i)
              Hstep (seq 1 20) ([], []))
    as (Hlen & Hin & rest & Hrest & Hsub).
  cbn [fst app] in Hrest, Hin, Hlen.
  split; [|split].
  - rewrite length_seq in Hlen. cbn [length] in Hlen. lia.
  - intros stop Hs. pose proof Hs as Hs'.
    apply Hin in Hs as [Hs | (i & Hi & Ha & Hscore & Htype)]; [inversion Hs|].
    repeat split; auto.
    rewrite Hrest in Hs'.
    assert (Hd : Stop.distanceFromStart stop
                 ∈ map (fun i => Route.distance route / JS.ofNat 20 * JS.ofNat i)
                       (seq 1 20)).
    { eapply elem_of_sublist; [|exact Hsub]. apply list_elem_of_fmap. eauto. }
    apply list_elem_of_fmap in Hd as (j & Hj & Hjin).
    apply list_elem_of_In, in_seq in Hjin. exists j. split; [lia | exact Hj].
  - intros HD. rewrite Hrest.
    pose proof (sublist_StronglySorted _ _ _ Hsub (targets_sorted _ 20 1 HD)) as Hs.
    clear -Hs. induction rest as [|x rest IH]; [constructor|].
    cbn [map] in Hs. apply StronglySorted_inv in Hs as [Hs Hx].
    constructor; [auto|].
    destruct rest as [|y rest]; constructor.
    apply Forall_cons in Hx as [Hxy _]. exact Hxy.
Qed.

End RoadsideAndTargets.

Lemma findOvernightStops_by_interval_witness :
  exists stop,
    head (App.findOvernightStops Samples.flatDistance Samples.online
            (Route.mk Samples.equator 222390) 3 Config.balanced) = Some stop
    /\ 15000 <= Stop.distanceFromStart stop
    /\ Stop.accommodationScore stop = Z.of_nat (length (Stop.accommodations stop))
    /\ Series.sum (map Stop.distanceFromStart
                     (App.findOvernightStops Samples.flatDistance Samples.online
                        (Route.mk Samples.equator 222390) 3 Config.balanced))
       <= Polyline.total Samples.flatDistance Samples.equator.
Proof.
  pose proof (findOvernightStops_by_interval Samples.flatDistance Samples.online
                (Route.mk Samples.equator 222390) 3 Config.balanced)
    as (_ & Hstop & Hsum).
  eexists. split; [vm_compute; reflexivity|].
  match goal with
  | |- 15000 <= Stop.distanceFromStart ?s /\ _ =>
      destruct (Hstop s) as (_ & Hscore & _ & Hd & _)
  end.
  - vm_compute. apply list_elem_of_here.
  - split; [exact Hd|]. split; [exact Hscore|].
    apply Hsum. vm_compute. repeat constructor; discriminate.
Defined.

Lemma findRoadsideStops_keeps_suitable_witness :
  exists stop,
    head (AppRoadside.findRoadsideStops Samples.flatDistance Samples.online
            (fun _ => []) (fun _ => false) (Route.mk Samples.equator 222390)
            Config.balanced) = Some stop
    /\ Stop.attractions stop <> []
    /\ forall a, a ∈ Stop.attractions stop ->
                 PaceConfig.minActivityTime Config.balanced <= App.timeEstimate a.
Proof.
  pose proof (findRoadsideStops_keeps_suitable Samples.flatDistance Samples.online
                (fun _ => []) (fun _ => false) (Route.mk Samples.equator 222390)
                Config.balanced) as (_ & Hstop & _).
  eexists. split; [vm_compute; reflexivity|].
  match goal with
  | |- Stop.attractions ?s <> [] /\ _ => destruct (Hstop s) as (Hne & Hmin & _)
  end.
  - vm_compute. apply list_elem_of_here.
  - split; [exact Hne | exact Hmin].
Defined.

Lemma findOvernightStops_by_targets_witness :
  Sorted Shape.ascending
    (fst (App2.findOvernightStops Samples.flatDistance Samples.online
            (Route.mk Samples.equator 222390) Config.balanced)).
Proof.
  apply (findOvernightStops_by_targets Samples.flatDistance Samples.online
           (Route.mk Samples.equator 222390) Config.balanced).
  vm_compute. discriminate.
Defined.

(** ** The itinerary: the day loop and the basic fallback *)

Section ItineraryMore.

Variable calculateDistance : Q -> Q -> Q -> Q -> Q.
Variable services : Services.t.

Local Abbreviation find := (App.findClosestPointOnRoute calculateDistance).
Local Abbreviation basic := (App.createSmartItinerary_basic calculateDistance services).

Implicit Types (route : Route.t) (days : nat) (config : PaceConfig.t) (I : Q).

Lemma dayRoadsideStops_elem roadsideStops config I day s :
  s ∈ App.dayRoadsideStops roadsideStops config I day ->
  s ∈ roadsideStops
  /\ (JS.ofNat day - 1) * I <= Stop.distanceFromStart s <= JS.ofNat day * I.
Proof.
  unfold App.dayRoadsideStops, JS.filter. intros Hs.
  apply slice0_elem, list_elem_of_In, filter_In in Hs as [Hin Hrange].
  apply andb_true_iff in Hrange as [Hlo Hhi].
  unfold JS.ge, JS.le in *. apply Qle_bool_iff in Hlo, Hhi.
  split; [now apply list_elem_of_In | split; assumption].
Qed.

Lemma planDay_roadside_sublist selected roadsideStops config I day :
  sublist (Day.roadsideStops (App.planDay services selected roadsideStops config I day))
          (App.dayRoadsideStops roadsideStops config I day).
Proof.
  unfold App.planDay. cbn [Day.roadsideStops].
  destruct (JS.le _ _); [reflexivity | apply slice0_sublist].
Qed.

(** The regular itinerary (some overnight stop selected): one day plan per
    day, numbered 1 to [days] in order, with the pace's driving hours;
    the roadside stops of a day are stops of the input within the day's
    distance band, at most [maxRoadsideStops] of them; its overnight stop,
    if any, is one of the selected stops; and the itinerary's roadside
    stops are those of its days, day by day. *)
Theorem createSmartItinerary_day_loop route days overnightStops roadsideStops config :
  let I := Route.distance route / JS.ofNat days in
  let selected := snd (App.selectOvernightStops overnightStops I days) in
  let itinerary :=
    App.createSmartItinerary calculateDistance services route days overnightStops
                             roadsideStops config in
  selected <> [] ->
  Itinerary.stops itinerary = selected
  /\ map Day.day (Itinerary.days itinerary) = seq 1 days
  /\ Itinerary.roadsideStops itinerary
     = concat (map Day.roadsideStops (Itinerary.days itinerary))
  /\ (forall d, d ∈ Itinerary.days itinerary ->
        Day.drivingTime d = PaceConfig.maxDailyDrivingHours config
        /\ (forall s, s ∈ Day.roadsideStops d ->
              s ∈ roadsideStops
              /\ (JS.ofNat (Day.day d) - 1) * I <= Stop.distanceFromStart s
                 <= JS.ofNat (Day.day d) * I)
        /\ ((0 <= PaceConfig.maxRoadsideStops config)%Z ->
            (Z.of_nat (length (Day.roadsideStops d))
             <= PaceConfig.maxRoadsideStops config)%Z)
        /\ (forall s, Day.overnightStop d = Some s -> s ∈ selected)).
Proof.
  cbv zeta. intros Hsel.
  pose proof (createSmartItinerary_days calculateDistance services route days
                overnightStops roadsideStops config Hsel) as Hdays.
  cbv zeta in Hdays.
  assert (Hit : Itinerary.stops
                  (App.createSmartItinerary calculateDistance services route days
                     overnightStops roadsideStops config)
                = snd (App.selectOvernightStops overnightStops
                         (Route.distance route / JS.ofNat days) days)
                /\ Itinerary.roadsideStops
                     (App.createSmartItinerary calculateDistance services route days
                        overnightStops roadsideStops config)
                   = concat (map Day.roadsideStops
                               (Itinerary.days
                                  (App.createSmartItinerary calculateDistance services
                                     route days overnightStops roadsideStops config)))).
  { unfold App.createSmartItinerary.
    destruct (snd (App.selectOvernightStops _ _ _)) as [|s sel] eqn:E;
      [congruence | split; reflexivity]. }
  destruct Hit as [Hstops Hroad].
  split; [exact Hstops|]. split; [|split; [exact Hroad|]].
  - rewrite Hdays, map_map. cbn [App.planDay Day.day]. apply map_id.
  - intros d Hd. rewrite Hdays in Hd.
    apply list_elem_of_fmap in Hd as (day & -> & _).
    cbn [App.planDay Day.day Day.drivingTime].
    split; [reflexivity|]. split; [|split].
    + intros s Hs. apply (dayRoadsideStops_elem roadsideStops config).
      eapply elem_of_sublist; [exact Hs | apply planDay_roadside_sublist].
    + intros Hmax.
      pose proof (sublist_length _ _
        (planDay_roadside_sublist
           (snd (App.selectOvernightStops overnightStops
                   (Route.distance route / JS.ofNat days) days))
           roadsideStops config (Route.distance route / JS.ofNat days) day)) as Hlen.
      unfold App.dayRoadsideStops in Hlen.
      rewrite slice0_take, length_take in Hlen by exact Hmax. lia.
    + intros s. unfold App.planDay. cbn [Day.overnightStop].
      unfold JS.find.
      destruct (List.find _ _) as [x|] eqn:F.
      * intros [= <-]. apply find_some in F as [F _]. now apply list_elem_of_In.
      * intros Hs. eapply list_elem_of_lookup_2. exact Hs.
Qed.

(** One more day boundary of the basic fallback. *)
Lemma basic_step coords D I n :
  basic coords D I (S (S n))
  = match find coords (I * JS.ofNat (S n)) with
    | Some closestPoint =>
        let locationInfo :=
          Services.reverseGeocode services (Candidate.lat closestPoint)
                                  (Candidate.lon closestPoint) in
        let basicStop :=
          {| Stop.lat := Candidate.lat closestPoint;
             Stop.lon := Candidate.lon closestPoint;
             Stop.distanceFromStart := Candidate.distanceFromStart closestPoint;
             Stop.index := Candidate.index closestPoint;
             Stop.name := match locationInfo with
                          | Some info => LocationInfo.name info
                          | None => "Stop " +:+ pretty (S n)
                          end;
             Stop.fullAddress := option_map LocationInfo.fullAddress locationInfo;
             Stop.accommodations := [];
             Stop.accommodationScore := 0;
             Stop.attractions := [];
             Stop.type := Stop.basic |} in
        {| Itinerary.stops := Itinerary.stops (basic coords D I (S n)) ++ [basicStop];
           Itinerary.roadsideStops := [];
           Itinerary.totalDistance := Some D;
           Itinerary.days :=
             Itinerary.days (basic coords D I (S n)) ++
               [ {| Day.day := S n;
                    Day.overnightStop := Some basicStop;
                    Day.roadsideStops := [];
                    Day.foodOptions := [];
                    Day.totalActivityTime := 2;
                    Day.drivingTime := 6;
                    Day.drivingDistance := I |} ] |}
    | None => basic coords D I (S n)
    end.
Proof.
  unfold App.createSmartItinerary_basic.
  replace (S (S n) - 1)%nat with (S n) by lia.
  replace (S n - 1)%nat with n by lia.
  rewrite seq_S, fold_left_app. cbn [fold_left Nat.add].
  destruct (fold_left _ (seq 1 n) ([], [])) as [stops plans].
  destruct (find coords (I * JS.ofNat (S n))); reflexivity.
Qed.

Lemma found_distance coords t c : find coords t = Some c -> Candidate.distanceFromStart c = t.
Proof.
  unfold App.findClosestPointOnRoute. intros H.
  apply closest_from_stop in H as (k & lo1 & la1 & lo2 & la2 & H). apply H.
Qed.

(** What the basic fallback builds for [n] day boundaries. *)
Lemma basic_spec coords D I n :
  let it := basic coords D I (S n) in
  Itinerary.roadsideStops it = []
  /\ Itinerary.totalDistance it = Some D
  /\ map Day.overnightStop (Itinerary.days it) = map Some (Itinerary.stops it)
  /\ (length (Itinerary.stops it) <= n)%nat
  /\ (forall s, s ∈ Itinerary.stops it ->
        Stop.type s = Stop.basic
        /\ exists d, (1 <= d <= n)%nat
                     /\ Stop.distanceFromStart s = I * JS.ofNat d)
  /\ (forall p, p ∈ Itinerary.days it ->
        Day.roadsideStops p = [] /\ Day.drivingDistance p = I
        /\ (1 <= Day.day p <= n)%nat)
  /\ ((forall d, (1 <= d <= n)%nat -> find coords (I * JS.ofNat d) <> None) ->
      length (Itinerary.stops it) = n).
Proof.
  cbv zeta. induction n as [|n IH].
  - cbn. split; [reflexivity|]. split; [reflexivity|]. split; [reflexivity|].
    split; [lia|]. split; [|split; [|reflexivity]]; intros x Hx; inversion Hx.
  - destruct IH as (H1 & H2 & H3 & H4 & H5 & H6 & H7).
    rewrite basic_step.
    destruct (find coords (I * JS.ofNat (S n))) as [c|] eqn:F.
    + cbn [Itinerary.roadsideStops Itinerary.totalDistance Itinerary.days
           Itinerary.stops].
      split; [reflexivity|]. split; [reflexivity|]. split; [|split; [|split; [|split]]].
      * rewrite !map_app, H3. reflexivity.
      * rewrite length_app. cbn [length]. lia.
      * intros s Hs. apply elem_of_app in Hs as [Hs | Hs].
        -- destruct (H5 s Hs) as (Ht & d & Hd & Hdist).
           split; [exact Ht|]. exists d. split; [lia | exact Hdist].
        -- apply list_elem_of_singleton in Hs as ->.
           cbn [Stop.type Stop.distanceFromStart]. split; [reflexivity|].
           exists (S n). split; [lia|]. now apply (found_distance coords).
      * intros p Hp. apply elem_of_app in Hp as [Hp | Hp].
        -- destruct (H6 p Hp) as (Hr & Hdd & Hday). repeat split; auto; lia.
        -- apply list_elem_of_singleton in Hp as ->. cbn. repeat split; auto; lia.
      * intros Hall. rewrite length_app. cbn [length].
        rewrite H7; [lia|]. intros d Hd. apply Hall. lia.
    + split; [exact H1|]. split; [exact H2|]. split; [exact H3|].
      split; [lia|]. split; [|split].
      * intros s Hs. destruct (H5 s Hs) as (Ht & d & Hd & Hdist).
        split; [exact Ht|]. exists d. split; [lia | exact Hdist].
      * intros p Hp. destruct (H6 p Hp) as (Hr & Hdd & Hday). repeat split; auto; lia.
      * intros Hall. exfalso. apply (Hall (S n)); [lia | exact F].
Qed.

Lemma basic_zero coords D I : basic coords D I 0 = basic coords D I 1.
Proof. reflexivity. Qed.

(** Every day boundary lies on the route when the last one does. *)
Lemma boundaries_found coords I n :
  (2 <= length coords)%nat -> 0 <= I ->
  I * JS.ofNat n <= Polyline.total calculateDistance coords ->
  forall d, (1 <= d <= n)%nat -> find coords (I * JS.ofNat d) <> None.
Proof.
  intros Hlen HI Hlast d Hd.
  destruct (closest_from_within calculateDistance coords (I * JS.ofNat d) 0 0 Hlen)
    as [p Hp].
  - rewrite <- total_sum.
    assert (JS.ofNat d <= JS.ofNat n) by (unfold JS.ofNat; rewrite <- Zle_Qle; lia).
    nra.
  - unfold App.findClosestPointOnRoute. rewrite Hp. discriminate.
Qed.

(** The basic fallback (no overnight stop selected): the itinerary consists
    of basic stops recorded at exact multiples of the ideal daily distance,
    with one day plan per basic stop (so at most [days - 1] plans, not
    [days]), each without roadside stops and with the ideal distance as
    its driving distance; the roadside stops passed in are dropped.  On a
    route of at least two vertices whose length reaches the last day
    boundary there are exactly [days - 1] basic stops. *)
Theorem createSmartItinerary_basic_fallback route days overnightStops roadsideStops config :
  let I := Route.distance route / JS.ofNat days in
  let itinerary :=
    App.createSmartItinerary calculateDistance services route days overnightStops
                             roadsideStops config in
  snd (App.selectOvernightStops overnightStops I days) = [] ->
  Itinerary.roadsideStops itinerary = []
  /\ Itinerary.totalDistance itinerary = Some (Route.distance route)
  /\ map Day.overnightStop (Itinerary.days itinerary)
     = map Some (Itinerary.stops itinerary)
  /\ (length (Itinerary.stops itinerary) <= days - 1)%nat
  /\ (forall s, s ∈ Itinerary.stops itinerary ->
        Stop.type s = Stop.basic
        /\ exists d, (1 <= d <= days - 1)%nat
                     /\ Stop.distanceFromStart s = I * JS.ofNat d)
  /\ (forall p, p ∈ Itinerary.days itinerary ->
        Day.roadsideStops p = [] /\ Day.drivingDistance p = I
        /\ (1 <= Day.day p <= days - 1)%nat)
  /\ ((2 <= length (Route.coordinates route))%nat -> 0 <= I ->
      I * JS.ofNat (days - 1)
      <= Polyline.total calculateDistance (Route.coordinates route) ->
      length (Itinerary.stops itinerary) = (days - 1)%nat).
Proof.
  cbv zeta. intros Hsel. unfold App.createSmartItinerary. rewrite Hsel.
  cbn [length Nat.eqb].
  set (I := Route.distance route / JS.ofNat days).
  assert (Hbasic : basic (Route.coordinates route) (Route.distance route) I days
                   = basic (Route.coordinates route) (Route.distance route) I
                           (S (days - 1))).
  { destruct days as [|n]; [apply basic_zero|].
    replace (S (S n - 1)) with (S n) by lia. reflexivity. }
  rewrite Hbasic.
  destruct (basic_spec (Route.coordinates route) (Route.distance route) I (days - 1))
    as (H1 & H2 & H3 & H4 & H5 & H6 & H7).
  repeat (split; [assumption|]).
  intros Hlen HI Hlast. apply H7. now apply boundaries_found.
Qed.

(** With two days or more, on a route of at least two vertices whose
    length reaches the last day boundary, the itinerary always has stops:
    the selected overnight stops, or else the basic stops. *)
Theorem createSmartItinerary_has_stops route days overnightStops roadsideStops config :
  let I := Route.distance route / JS.ofNat days in
  let itinerary :=
    App.createSmartItinerary calculateDistance services route days overnightStops
                             roadsideStops config in
  (2 <= days)%nat -> (2 <= length (Route.coordinates route))%nat -> 0 <= I ->
  I * JS.ofNat (days - 1)
  <= Polyline.total calculateDistance (Route.coordinates route) ->
  Itinerary.stops itinerary <> [] /\ Itinerary.days itinerary <> [].
Proof.
  cbv zeta. intros Hdays Hlen HI Hlast. unfold App.createSmartItinerary.
  set (I := Route.distance route / JS.ofNat days) in *.
  destruct (snd (App.selectOvernightStops overnightStops I days)) as [|s sel] eqn:E.
  - cbn [length Nat.eqb].
    assert (Hbasic : basic (Route.coordinates route) (Route.distance route) I days
                     = basic (Route.coordinates route) (Route.distance route) I
                             (S (days - 1)))
      by (replace (S (days - 1)) with days by lia; reflexivity).
    rewrite Hbasic.
    destruct (basic_spec (Route.coordinates route) (Route.distance route) I (days - 1))
      as (_ & _ & H3 & _ & _ & _ & H7).
    specialize (H7 (boundaries_found _ _ _ Hlen HI Hlast)).
    split.
    + intros Hnil. rewrite Hnil in H7. simpl in H7. lia.
    + intros Hnil. rewrite Hnil in H3.
      destruct (Itinerary.stops _) as [|x l]; [simpl in H7; lia | discriminate H3].
  - cbn [length Nat.eqb Itinerary.stops Itinerary.days].
    split; [discriminate|].
    destruct days as [|n]; [lia|]. simpl. discriminate.
Qed.

End ItineraryMore.

Lemma createSmartItinerary_day_loop_witness :
  let itinerary :=
    App.createSmartItinerary Samples.flatDistance Samples.offline Samples.highway 3
                             Samples.candidates Samples.busyDay Config.balanced in
  map Day.day (Itinerary.days itinerary) = [1; 2; 3]%nat
  /\ Itinerary.roadsideStops itinerary
     = concat (map Day.roadsideStops (Itinerary.days itinerary)).
Proof.
  cbv zeta.
  destruct (createSmartItinerary_day_loop Samples.flatDistance Samples.offline
              Samples.highway 3 Samples.candidates Samples.busyDay Config.balanced)
    as (_ & Hdays & Hroad & _).
  - vm_compute. discriminate.
  - split; [exact Hdays | exact Hroad].
Defined.

Lemma createSmartItinerary_basic_fallback_witness :
  let itinerary :=
    App.createSmartItinerary Samples.flatDistance Samples.offline Samples.highway 3
                             [] Samples.busyDay Config.balanced in
  Itinerary.roadsideStops itinerary = []
  /\ length (Itinerary.stops itinerary) = 2%nat.
Proof.
  cbv zeta.
  destruct (createSmartItinerary_basic_fallback Samples.flatDistance Samples.offline
              Samples.highway 3 [] Samples.busyDay Config.balanced)
    as (Hroad & _ & _ & _ & _ & _ & Hcount).
  - vm_compute. reflexivity.
  - split; [exact Hroad|]. apply Hcount.
    + vm_compute. lia.
    + vm_compute. discriminate.
    + vm_compute. discriminate.
Defined.

Lemma createSmartItinerary_has_stops_witness :
  Itinerary.stops
    (App.createSmartItinerary Samples.flatDistance Samples.offline Samples.highway 3
                              [] Samples.busyDay Config.balanced) <> [].
Proof.
  apply (createSmartItinerary_has_stops Samples.flatDistance Samples.offline
           Samples.highway 3 [] Samples.busyDay Config.balanced).
  - lia.
  - vm_compute. lia.
  - vm_compute. discriminate.
  - vm_compute. discriminate.
Defined.

(** ** Basic stops along the route, and the printed duration *)

Section BasicStops.

Variable calculateDistance : Q -> Q -> Q -> Q -> Q.
Variable services : Services.t.

(** [createBasicStopsAlongRoute] walks the day boundaries [1 .. days - 1]:
    the distances recorded on its stops are, in order, multiples
    [I * d] of the ideal daily distance [I = distance / days] (a boundary
    beyond the polyline is skipped without a replacement); every stop is
    of type basic, with no accommodation and score 0.  On a route of at
    least two vertices whose length reaches the last boundary no boundary
    is skipped: there are exactly [days - 1] stops, at [I], [2 I], ... *)
Theorem createBasicStopsAlongRoute_at_boundaries route days :
  let I := Route.distance route / JS.ofNat days in
  let boundaries := map (fun d => I * JS.ofNat d) (seq 1 (days - 1)) in
  let stops := App.createBasicStopsAlongRoute calculateDistance services route days in
  sublist (map Stop.distanceFromStart stops) boundaries
  /\ (forall s, s ∈ stops ->
        Stop.type s = Stop.basic /\ Stop.accommodations s = []
        /\ Stop.accommodationScore s = 0%Z)
  /\ ((2 <= length (Route.coordinates route))%nat -> 0 <= I ->
      I * JS.ofNat (days - 1)
      <= Polyline.total calculateDistance (Route.coordinates route) ->
      map Stop.distanceFromStart stops = boundaries
      /\ length stops = (days - 1)%nat).
Proof.
  cbv zeta. unfold App.createBasicStopsAlongRoute. cbv zeta.
  generalize (Route.distance route / JS.ofNat days) as I.
  generalize (days - 1)%nat as n. intros n I.
  match goal with
  | |- context [fold_left ?f _ _] => set (body := f)
  end.
  assert (Hinv :
    sublist (map Stop.distanceFromStart (fold_left body (seq 1 n) []))
            (map (fun d => I * JS.ofNat d) (seq 1 n))
    /\ (forall s, s ∈ fold_left body (seq 1 n) [] ->
          Stop.type s = Stop.basic /\ Stop.accommodations s = []
          /\ Stop.accommodationScore s = 0%Z)
    /\ ((forall d, (1 <= d <= n)%nat ->
           App.findClosestPointOnRoute calculateDistance (Route.coordinates route)
             (I * JS.ofNat d) <> None) ->
        map Stop.distanceFromStart (fold_left body (seq 1 n) [])
        = map (fun d => I * JS.ofNat d) (seq 1 n))).
  { induction n as [|n (IH1 & IH2 & IH3)].
    - cbn. split; [constructor|]. split; [|reflexivity]. intros s Hs. inversion Hs.
    - rewrite seq_S, fold_left_app, map_app. cbn [fold_left Nat.add map].
      unfold body at 1 3 5.
      destruct (App.findClosestPointOnRoute calculateDistance (Route.coordinates route)
                  (I * JS.ofNat (S n))) as [c|] eqn:F.
      + assert (Hc : Candidate.distanceFromStart c = I * JS.ofNat (S n)).
        { unfold App.findClosestPointOnRoute in F.
          apply closest_from_stop in F as (k & lo1 & la1 & lo2 & la2 & F). apply F. }
        rewrite map_app. cbn [map Stop.distanceFromStart]. rewrite Hc.
        split; [apply sublist_app; [exact IH1 | reflexivity]|]. split.
        * intros s Hs. apply elem_of_app in Hs as [Hs | Hs]; [now apply IH2|].
          apply list_elem_of_singleton in Hs as ->. cbn. auto.
        * intros Hall. rewrite IH3; [reflexivity|]. intros d Hd. apply Hall. lia.
      + split; [apply sublist_inserts_r; exact IH1|]. split; [exact IH2|].
        intros Hall. exfalso. apply (Hall (S n)); [lia | exact F]. }
  destruct Hinv as (H1 & H2 & H3).
  split; [exact H1|]. split; [exact H2|].
  intros Hlen HI Hlast.
  assert (Hall : forall d, (1 <= d <= n)%nat ->
            App.findClosestPointOnRoute calculateDistance (Route.coordinates route)
              (I * JS.ofNat d) <> None).
  { intros d Hd.
    destruct (closest_from_within calculateDistance (Route.coordinates route)
                (I * JS.ofNat d) 0 0 Hlen) as [p Hp].
    - rewrite <- total_sum.
      assert (JS.ofNat d <= JS.ofNat n) by (unfold JS.ofNat; rewrite <- Zle_Qle; lia).
      nra.
    - unfold App.findClosestPointOnRoute. rewrite Hp. discriminate. }
  specialize (H3 Hall). split; [exact H3|].
  apply (f_equal (@length Q)) in H3. rewrite !length_map, length_seq in H3. exact H3.
Qed.

End BasicStops.

(** [formatTime] on a duration that is not negative: the hours are not
    negative, the minutes are between 0 and 60 -- 60 included, which is
    printed when the remainder is 59.5 minutes or more -- and hours and
    minutes together are within half a minute of the duration. *)
Theorem formatTime_rounds_minutes seconds :
  0 <= seconds ->
  let hours := fst (Utils.formatTime_parts seconds) in
  let minutes := snd (Utils.formatTime_parts seconds) in
  (0 <= hours)%Z /\ (0 <= minutes <= 60)%Z
  /\ Qabs (60 * inject_Z hours + inject_Z minutes - seconds / 60) <= 1 # 2
  /\ (minutes = 60%Z <-> 3570 <= seconds - 3600 * inject_Z hours).
Proof.
  intros Hs. unfold Utils.formatTime_parts. cbn [fst snd].
  unfold JS.rem, JS.round, JS.floor, JS.trunc.
  assert (Hq : 0 <= seconds / 3600) by (apply Qle_shift_div_l; lra).
  assert (Htrunc : JS.trunc (seconds / 3600) = Qfloor (seconds / 3600)).
  { unfold JS.trunc. apply Qle_bool_iff in Hq. rewrite Hq. reflexivity. }
  fold (JS.trunc (seconds / 3600)). rewrite Htrunc.
  set (h := Qfloor (seconds / 3600)).
  set (r := seconds - 3600 * inject_Z h).
  set (m := Qfloor (r / 60 + (1 # 2))).
  pose proof (Qfloor_le (seconds / 3600)) as Hh1.
  pose proof (Qlt_floor (seconds / 3600)) as Hh2.
  fold h in Hh1, Hh2. rewrite inject_Z_plus in Hh2.
  pose proof (Qfloor_le (r / 60 + (1 # 2))) as Hm1.
  pose proof (Qlt_floor (r / 60 + (1 # 2))) as Hm2.
  fold m in Hm1, Hm2. rewrite inject_Z_plus in Hm2.
  change (inject_Z 1) with 1 in Hh2, Hm2.
  assert (Hdiv : seconds == 3600 * (seconds / 3600)) by field.
  assert (Hdiv' : r == 60 * (r / 60)) by field.
  assert (Hdiv'' : seconds == 60 * (seconds / 60)) by field.
  assert (Er : r == seconds - 3600 * inject_Z h) by reflexivity.
  clearbody m. clearbody r. clearbody h.
  assert (Hr : 0 <= r < 3600) by lra.
  assert (Hsucc : forall z : Z, 0 < inject_Z z + 1 -> (0 <= z)%Z).
  { intros z Hz. apply Z.lt_succ_r. rewrite Zlt_Qlt, <- Z.add_1_r, inject_Z_plus.
    exact Hz. }
  assert (Hh : (0 <= h)%Z) by (apply Hsucc; lra).
  assert (Hm : (0 <= m <= 60)%Z).
  { split; [apply Hsucc; lra|].
    apply Z.lt_succ_r. rewrite Zlt_Qlt. change (inject_Z (Z.succ 60)) with 61. lra. }
  split; [exact Hh|]. split; [exact Hm|]. split.
  - apply Qabs_Qle_condition. split; lra.
  - split.
    + intros E. rewrite E in Hm1. change (inject_Z 60) with 60 in Hm1. lra.
    + intros Hge. apply Z.le_antisymm; [apply Hm|].
      assert (H59 : (59 < m)%Z); [|lia].
      rewrite Zlt_Qlt. change (inject_Z 59) with 59. lra.
Qed.

Lemma createBasicStopsAlongRoute_at_boundaries_witness :
  map Stop.distanceFromStart
    (App.createBasicStopsAlongRoute Samples.flatDistance Samples.offline
       Samples.highway 3)
  = [1000000 / 3 * 1; 1000000 / 3 * 2]
  /\ length (App.createBasicStopsAlongRoute Samples.flatDistance Samples.offline
               Samples.highway 3) = 2%nat.
Proof.
  apply (createBasicStopsAlongRoute_at_boundaries Samples.flatDistance Samples.offline
           Samples.highway 3).
  - vm_compute. lia.
  - vm_compute. discriminate.
  - vm_compute. discriminate.
Defined.

Lemma formatTime_rounds_minutes_witness :
  Utils.formatTime 3599 = "0h 60m"
  /\ (0 <= snd (Utils.formatTime_parts 3599) <= 60)%Z.
Proof.
  split; [vm_compute; reflexivity|].
  apply (formatTime_rounds_minutes 3599). vm_compute. discriminate.
Defined.

(** ** The assembled days: activity hours and the budget check *)

Section AssembledDays.

Variable calculateDistance : Q -> Q -> Q -> Q -> Q.
Variable services : Services.t.

Local Abbreviation basic := (App.createSmartItinerary_basic calculateDistance services).
Local Abbreviation hours stops :=
  (Series.sum (map App.timeEstimate (concat (map Stop.attractions stops)))).

Implicit Types (route : Route.t) (days : nat) (config : PaceConfig.t) (I : Q).

(** The days of the basic fallback are built without looking at the
    roadside stops. *)
Lemma basic_days_fixed coords D I days p :
  p ∈ Itinerary.days (basic coords D I days) ->
  (1 <= Day.day p <= days - 1)%nat
  /\ Day.roadsideStops p = [] /\ Day.totalActivityTime p = 2.
Proof.
  assert (H : forall n, p ∈ Itinerary.days (basic coords D I (S n)) ->
                        (1 <= Day.day p <= n)%nat
                        /\ Day.roadsideStops p = [] /\ Day.totalActivityTime p = 2).
  { induction n as [|n IH].
    - intros Hp. inversion Hp.
    - rewrite basic_step.
      destruct (App.findClosestPointOnRoute calculateDistance coords
                  (I * JS.ofNat (S n))) as [c|].
      + cbn [Itinerary.days]. intros Hp. apply elem_of_app in Hp as [Hp | Hp].
        * destruct (IH Hp) as (Hday & Hr & Ht). repeat split; auto; lia.
        * apply list_elem_of_singleton in Hp as ->. cbn. repeat split; auto; lia.
      + intros Hp. destruct (IH Hp) as (Hday & Hr & Ht). repeat split; auto; lia. }
  destruct days as [|n]; [rewrite basic_zero; intros Hp; inversion Hp|].
  replace (S n - 1)%nat with n by lia. apply H.
Qed.

Lemma timeEstimate_pos (a : Poi.t) : 0 < App.timeEstimate a.
Proof.
  unfold App.timeEstimate.
  destruct (App.ACTIVITY_TIME_ESTIMATES !! Poi.category a) as [h|] eqn:E;
    [|reflexivity].
  assert (Hin : (Poi.category a, h) ∈ map_to_list App.ACTIVITY_TIME_ESTIMATES)
    by (now apply elem_of_map_to_list).
  assert (Hall : Forall (fun kv => 0 < snd kv)
                        (map_to_list App.ACTIVITY_TIME_ESTIMATES)).
  { vm_compute. repeat constructor. }
  rewrite Forall_forall in Hall. specialize (Hall _ Hin). cbn [snd] in Hall.
  unfold JS.orElse. destruct (Qeq_bool h 0); [reflexivity | exact Hall].
Qed.

Lemma hours_cons (stop : Stop.t) (stops : list Stop.t) :
  hours (stop :: stops)
  == Series.sum (map App.timeEstimate (Stop.attractions stop)) + hours stops.
Proof. cbn [map concat]. rewrite map_app, sum_app. reflexivity. Qed.

Lemma stop_hours_nonneg (stop : Stop.t) :
  0 <= Series.sum (map App.timeEstimate (Stop.attractions stop)).
Proof.
  apply sum_nonneg, Forall_forall. intros q Hq.
  apply list_elem_of_fmap in Hq as (a & -> & _).
  apply Qlt_le_weak, timeEstimate_pos.
Qed.

(** Dropping stops never raises the activity hours. *)
Lemma hours_sublist (kept all : list Stop.t) :
  sublist kept all -> hours kept <= hours all.
Proof.
  induction 1 as [|x l1 l2 _ IH|x l1 l2 _ IH].
  - apply Qle_refl.
  - rewrite !hours_cons. lra.
  - rewrite hours_cons. pose proof (stop_hours_nonneg x). lra.
Qed.

(** C7 (as amended).  A day that the day loop of [createSmartItinerary]
    assembles -- the days of an itinerary with at least one overnight
    stop selected -- with [maxActivityHours = maxDailyDrivingHours * 0.6]:
    when the day's activity hours exceed [maxActivityHours] its roadside
    stops are the first [floor(maxRoadsideStops * 0.7)] entries of the
    day-capped list; otherwise the day-capped list is kept whole.  Five
    activity hours against [maxDailyDrivingHours = 6] trigger the
    truncation.  The days of the basic fallback (no overnight stop
    selected) pass no budget check: they carry no roadside stop and the
    activity time 2, whatever the roadside stops handed in. *)
Theorem over_budget_day_is_truncated route days overnightStops roadsideStops config d :
  let I := Route.distance route / JS.ofNat days in
  let selected := snd (App.selectOvernightStops overnightStops I days) in
  let capped := App.dayRoadsideStops roadsideStops config I (Day.day d) in
  let maxActivityHours := PaceConfig.maxDailyDrivingHours config * 0.6 in
  let kept := JS.floor (inject_Z (PaceConfig.maxRoadsideStops config) * 0.7) in
  d ∈ Itinerary.days (App.createSmartItinerary calculateDistance services route days
                        overnightStops roadsideStops config) ->
  (selected <> [] ->
     (1 <= Day.day d <= days)%nat
     /\ (maxActivityHours < Day.totalActivityTime d ->
         Day.roadsideStops d = JS.slice0 kept capped
         /\ ((0 <= PaceConfig.maxRoadsideStops config)%Z ->
             Day.roadsideStops d = take (Z.to_nat kept) capped
             /\ length (Day.roadsideStops d)
                = Nat.min (Z.to_nat kept) (length capped)))
     /\ (Day.totalActivityTime d <= maxActivityHours -> Day.roadsideStops d = capped)
     /\ (PaceConfig.maxDailyDrivingHours config == 6 ->
         Day.totalActivityTime d == 5 ->
         Day.roadsideStops d = JS.slice0 kept capped))
  /\ (selected = [] ->
      (1 <= Day.day d <= days - 1)%nat
      /\ Day.roadsideStops d = [] /\ Day.totalActivityTime d = 2).
Proof.
  cbv zeta. intros Hd. split; intros Hsel.
  - rewrite createSmartItinerary_days in Hd by exact Hsel.
    apply list_elem_of_fmap in Hd as (day & -> & Hday).
    apply list_elem_of_In, in_seq in Hday.
    set (I := Route.distance route / JS.ofNat days) in *.
    assert (Hover : PaceConfig.maxDailyDrivingHours config * 0.6
                    < App.totalActivityTime
                        (App.dayRoadsideStops roadsideStops config I day) ->
                    Day.roadsideStops
                      (App.planDay services
                         (snd (App.selectOvernightStops overnightStops I days))
                         roadsideStops config I day)
                    = JS.slice0 (JS.floor (inject_Z (PaceConfig.maxRoadsideStops config)
                                           * 0.7))
                                (App.dayRoadsideStops roadsideStops config I day)).
    { intros Hlt. unfold App.planDay. cbn [Day.roadsideStops]. unfold JS.le.
      destruct (Qle_bool _ _) eqn:E; [|reflexivity].
      apply Qle_bool_iff in E. lra. }
    cbn [Day.day App.planDay Day.totalActivityTime].
    split; [lia|]. split; [|split].
    + intros Hlt. split; [now apply Hover|].
      intros Hm. rewrite (Hover Hlt).
      assert (0 <= JS.floor (inject_Z (PaceConfig.maxRoadsideStops config) * 0.7))%Z.
      { unfold JS.floor.
        assert (Hq : 0 <= inject_Z (PaceConfig.maxRoadsideStops config) * 0.7).
        { assert (0 <= inject_Z (PaceConfig.maxRoadsideStops config))
            by (unfold Qle; simpl; lia).
          lra. }
        apply Qfloor_resp_le in Hq. exact Hq. }
      rewrite slice0_take by assumption. split; [reflexivity|].
      rewrite length_take. reflexivity.
    + intros Hle. unfold App.planDay. cbn [Day.roadsideStops]. unfold JS.le.
      apply Qle_bool_iff in Hle. now rewrite Hle.
    + intros H6 H5. apply Hover. rewrite H6, H5. lra.
  - unfold App.createSmartItinerary in Hd. rewrite Hsel in Hd.
    cbn [length Nat.eqb] in Hd. now apply basic_days_fixed in Hd.
Qed.

(** C8 (as amended).  The activity time stored for a day that the day
    loop assembles is the sum, over the attractions of the roadside stops
    chosen for the day before the budget check (the day-capped list), of
    the hours the category table gives; an attraction whose category is
    absent from the table counts one hour.  It is never less than the sum
    over the roadside stops the day finally carries, and equals it when
    the day is within its budget.  The days of the basic fallback store
    the constant 2 and carry no roadside stop. *)
Theorem activity_time_sum_default_one route days overnightStops roadsideStops config d :
  let I := Route.distance route / JS.ofNat days in
  let selected := snd (App.selectOvernightStops overnightStops I days) in
  let capped := App.dayRoadsideStops roadsideStops config I (Day.day d) in
  let maxActivityHours := PaceConfig.maxDailyDrivingHours config * 0.6 in
  d ∈ Itinerary.days (App.createSmartItinerary calculateDistance services route days
                        overnightStops roadsideStops config) ->
  (selected <> [] ->
     Day.totalActivityTime d == hours capped
     /\ hours (Day.roadsideStops d) <= Day.totalActivityTime d
     /\ (Day.totalActivityTime d <= maxActivityHours ->
         Day.totalActivityTime d == hours (Day.roadsideStops d)))
  /\ (selected = [] -> Day.totalActivityTime d = 2 /\ Day.roadsideStops d = [])
  /\ (forall a, App.ACTIVITY_TIME_ESTIMATES !! Poi.category a = None ->
                App.timeEstimate a = 1)
  /\ (forall a h, App.ACTIVITY_TIME_ESTIMATES !! Poi.category a = Some h ->
                  App.timeEstimate a = h).
Proof.
  cbv zeta. intros Hd. split; [|split; [|split]].
  - intros Hsel. rewrite createSmartItinerary_days in Hd by exact Hsel.
    apply list_elem_of_fmap in Hd as (day & -> & _).
    set (I := Route.distance route / JS.ofNat days) in *.
    set (selected := snd (App.selectOvernightStops overnightStops I days)) in *.
    assert (Htotal : Day.totalActivityTime
                       (App.planDay services selected roadsideStops config I day)
                     == hours (App.dayRoadsideStops roadsideStops config I day))
      by apply totalActivityTime_sum.
    cbn [App.planDay Day.day]. split; [exact Htotal|]. split.
    + rewrite Htotal. apply hours_sublist, planDay_roadside_sublist.
    + intros Hle. rewrite Htotal.
      assert (Hkept : Day.roadsideStops
                        (App.planDay services selected roadsideStops config I day)
                      = App.dayRoadsideStops roadsideStops config I day).
      { unfold App.planDay in Hle |- *. cbn [Day.roadsideStops Day.totalActivityTime]
          in Hle |- *.
        unfold JS.le. apply Qle_bool_iff in Hle. now rewrite Hle. }
      rewrite Hkept. reflexivity.
  - intros Hsel. unfold App.createSmartItinerary in Hd. rewrite Hsel in Hd.
    cbn [length Nat.eqb] in Hd. apply basic_days_fixed in Hd as (_ & Hr & Ht).
    split; assumption.
  - intros a Ha. unfold App.timeEstimate. now rewrite Ha.
  - intros a h Ha. pose proof (timeEstimate_pos a) as Hpos.
    unfold App.timeEstimate in Hpos |- *. rewrite Ha in Hpos |- *.
    unfold JS.orElse in Hpos |- *.
    destruct (Qeq_bool h 0) eqn:E; [|reflexivity].
    exfalso. apply Qeq_bool_iff in E.
    assert (Hin : (Poi.category a, h) ∈ map_to_list App.ACTIVITY_TIME_ESTIMATES)
      by (now apply elem_of_map_to_list).
    assert (Hall : Forall (fun kv => ~ snd kv == 0)
                          (map_to_list App.ACTIVITY_TIME_ESTIMATES)).
    { vm_compute. repeat constructor; discriminate. }
    rewrite Forall_forall in Hall. apply (Hall _ Hin E).
Qed.

End AssembledDays.

Lemma over_budget_day_is_truncated_witness :
  let I := Route.distance Samples.highway / JS.ofNat 3 in
  let d := App.planDay Samples.offline
             (snd (App.selectOvernightStops Samples.candidates I 3))
             Samples.busyDay Config.balanced I 1 in
  (Day.roadsideStops d
   = JS.slice0 (JS.floor (inject_Z (PaceConfig.maxRoadsideStops Config.balanced) * 0.7))
               (App.dayRoadsideStops Samples.busyDay Config.balanced I (Day.day d))
   /\ length (Day.roadsideStops d) = 2%nat)
  /\ exists d',
       Itinerary.days
         (App.createSmartItinerary Samples.flatDistance Samples.offline
            Samples.highway 3 [] Samples.busyDay Config.balanced) !! 0%nat = Some d'
       /\ Day.roadsideStops d' = [] /\ Day.totalActivityTime d' = 2.
Proof.
  cbv zeta. split.
  - split; [|vm_compute; reflexivity].
    apply (over_budget_day_is_truncated Samples.flatDistance Samples.offline
             Samples.highway 3 Samples.candidates Samples.busyDay Config.balanced).
    + vm_compute. apply list_elem_of_here.
    + vm_compute. discriminate.
    + reflexivity.
    + vm_compute. reflexivity.
  - eexists. split; [vm_compute; reflexivity|].
    match goal with
    | |- Day.roadsideStops ?d' = [] /\ _ =>
        destruct (over_budget_day_is_truncated Samples.flatDistance Samples.offline
                    Samples.highway 3 [] Samples.busyDay Config.balanced d')
          as [_ Hfallback]
    end.
    + vm_compute. apply list_elem_of_here.
    + apply Hfallback. vm_compute. reflexivity.
Defined.

(** C7 as stated fails for a day of the basic fallback: with no overnight
    candidate the first day stores two activity hours, within the budget
    of 3.6, and yet carries none of the three roadside stops of its
    day-capped list. *)
Lemma over_budget_fallback_counterexample :
  let I := Route.distance Samples.highway / JS.ofNat 3 in
  let itinerary :=
    App.createSmartItinerary Samples.flatDistance Samples.offline Samples.highway 3
      [] Samples.busyDay Config.balanced in
  exists d,
    Itinerary.days itinerary !! 0%nat = Some d
    /\ Day.totalActivityTime d <= PaceConfig.maxDailyDrivingHours Config.balanced * 0.6
    /\ App.dayRoadsideStops Samples.busyDay Config.balanced I (Day.day d)
       = Samples.busyDay
    /\ Day.roadsideStops d = []
    /\ Day.roadsideStops d
       <> App.dayRoadsideStops Samples.busyDay Config.balanced I (Day.day d).
Proof.
  cbv zeta. eexists. split; [vm_compute; reflexivity|].
  split; [vm_compute; discriminate|].
  split; [vm_compute; reflexivity|].
  split; [vm_compute; reflexivity | vm_compute; discriminate].
Qed.

Lemma activity_time_sum_default_one_witness :
  let I := Route.distance Samples.highway / JS.ofNat 3 in
  let d := App.planDay Samples.offline
             (snd (App.selectOvernightStops Samples.candidates I 3))
             Samples.busyDay Config.balanced I 1 in
  Day.totalActivityTime d
  == Series.sum (map App.timeEstimate
                   (concat (map Stop.attractions
                              (App.dayRoadsideStops Samples.busyDay Config.balanced I
                                                    (Day.day d)))))
  /\ Day.totalActivityTime d == 5
  /\ Series.sum (map App.timeEstimate
                   (concat (map Stop.attractions (Day.roadsideStops d))))
     <= Day.totalActivityTime d
  /\ App.timeEstimate (Samples.attraction "Lookout" "Scenic View") = 1
  /\ App.timeEstimate (Samples.attraction "Town Museum" "Museum") = 2.5.
Proof.
  cbv zeta.
  destruct (activity_time_sum_default_one Samples.flatDistance Samples.offline
              Samples.highway 3 Samples.candidates Samples.busyDay Config.balanced
              (App.planDay Samples.offline
                 (snd (App.selectOvernightStops Samples.candidates
                         (Route.distance Samples.highway / JS.ofNat 3) 3))
                 Samples.busyDay Config.balanced
                 (Route.distance Samples.highway / JS.ofNat 3) 1))
    as (Hloop & _ & Habsent & Hpresent).
  - vm_compute. apply list_elem_of_here.
  - destruct Hloop as (Hsum & Hbound & _); [vm_compute; discriminate|].
    split; [exact Hsum|]. split; [vm_compute; reflexivity|].
    split; [exact Hbound|]. split.
    + apply Habsent. vm_compute. reflexivity.
    + apply Hpresent. vm_compute. reflexivity.
Defined.

(** C8 as stated fails.  A category absent from the table counts one
    hour, not an hour and a half: "Scenic View" is absent from the table
    of the application script and "Nature" from the table of the
    configuration module.  And the stored activity time is not the sum
    over the roadside stops a day carries: the over-budget day stores 5
    hours and carries stops of 3.5 hours, the fallback day stores 2 hours
    and carries no stop. *)
Lemma activity_default_counterexample :
  let lookout := Samples.attraction "Lookout" "Scenic View" in
  let hours := fun stops =>
    Series.sum (map App.timeEstimate (concat (map Stop.attractions stops))) in
  let itinerary :=
    App.createSmartItinerary Samples.flatDistance Samples.offline Samples.highway 3
      Samples.candidates [Samples.roadsideAt 50000 [lookout]] Config.balanced in
  let busy :=
    App.createSmartItinerary Samples.flatDistance Samples.offline Samples.highway 3
      Samples.candidates Samples.busyDay Config.balanced in
  let fallback :=
    App.createSmartItinerary Samples.flatDistance Samples.offline Samples.highway 3
      [] Samples.busyDay Config.balanced in
  App.ACTIVITY_TIME_ESTIMATES !! Poi.category lookout = None
  /\ (exists d, Itinerary.days itinerary !! 0%nat = Some d
                /\ Day.roadsideStops d = [Samples.roadsideAt 50000 [lookout]]
                /\ Day.totalActivityTime d == 1
                /\ ~ Day.totalActivityTime d == 1.5)
  /\ Config.ACTIVITY_TIME_ESTIMATES !! "Nature"%string = None
  /\ JS.orElse (Config.ACTIVITY_TIME_ESTIMATES !! "Nature"%string) 1 = 1
  /\ (exists d, Itinerary.days busy !! 0%nat = Some d
                /\ Day.totalActivityTime d == 5
                /\ hours (Day.roadsideStops d) == 3.5)
  /\ (exists d, Itinerary.days fallback !! 0%nat = Some d
                /\ Day.totalActivityTime d == 2
                /\ hours (Day.roadsideStops d) == 0).
Proof.
  cbv zeta. split; [vm_compute; reflexivity|]. split; [|split; [|split; [|split]]].
  - eexists. split; [vm_compute; reflexivity|].
    split; [vm_compute; reflexivity|].
    split; [vm_compute; reflexivity | vm_compute; discriminate].
  - vm_compute. reflexivity.
  - vm_compute. reflexivity.
  - eexists. split; [vm_compute; reflexivity|]. split; vm_compute; reflexivity.
  - eexists. split; [vm_compute; reflexivity|]. split; vm_compute; reflexivity.
Qed.
